(** * Bootstrap and connectivity sequence of the xxDK example programs

    Shallow embedding of the two [main] functions of
    [restSingleUseServer/main.go]:

    - the rest-like single-use server (lines 15-166), module [Server];
    - the "Sending Normal messages" client of the Getting Started guide
      (lines 185-349), module [Sender].

    Both programs are straight-line sequences of calls into the operating
    system and the xxDK library, broken only by error checks and by the
    [waitUntilConnected] loop.  The libraries are external to the
    repository, so they are taken as an interface ([Env]): every call is a
    function of the world it runs in and returns the Go result tuple
    together with the world it leaves behind.  A program is then a
    computation in a small state/error/trace monad: the state is the world
    and the pending outcomes of [select] on the [connected] channel, the
    error is a panic, and the trace is the chronological list of library
    calls and log lines. *)

From Stdlib Require Import String List Bool Lia.
From Stdlib Require Import Strings.Byte.
Import ListNotations.
Open Scope string_scope.
Open Scope list_scope.

Set Implicit Arguments.

(** ** Go data *)

(** A Go [error] as the programs look at it: [errors.Is(err, fs.ErrNotExist)]
    is the only inspection, everything else is only formatted. *)
Inductive error : Type :=
| fs_ErrNotExist
| errors_New (msg : string).

(** [errors.Is(err, fs.ErrNotExist)] on a possibly nil error. *)
Definition errors_Is_ErrNotExist (err : option error) : bool :=
  match err with
  | Some fs_ErrNotExist => true
  | _ => false
  end.

(** A [[]byte]: [None] is the nil slice, which [ndfJSON == nil] tests. *)
Definition slice_byte : Type := option (list byte).

(** The conversion [string(b)]; a nil slice converts to the empty string. *)
Definition string_of_slice (b : slice_byte) : string :=
  match b with
  | None => EmptyString
  | Some l => string_of_list_byte l
  end.

(** The conversion [[]byte(s)]. *)
Definition slice_of_string (s : string) : slice_byte :=
  Some (list_byte_of_string s).

Definition is_nil (b : slice_byte) : bool :=
  match b with
  | None => true
  | Some _ => false
  end.

(** A [time.Duration] in seconds. *)
Definition Duration : Type := nat.

(** One resolution of the [select] in [waitUntilConnected]: a value arrives
    on [connected], or the timer channel [timeoutTimer.C] delivers. *)
Inductive SelectCase : Type :=
| recv_connected (isConnected : bool)
| recv_timeoutTimer.

(** ** The external interface *)

(** The operating system and the xxDK packages the programs call.  [World]
    is everything outside the process (disk, network, library state); each
    call returns the Go result tuple (a nil error is [None]) and the next
    world.  Accessors of library values are pure. *)
Class Env : Type := {
  World : Type;
  (* xxdk, connect, contact, single, cyclic, catalog *)
  Cmix : Type;
  E2e : Type;
  ReceptionIdentity : Type;
  Contact : Type;
  ID : Type;
  cmix_Client : Type;
  e2e_Handler : Type;
  cyclic_Int : Type;
  cyclic_Group : Type;
  CMIXParams : Type;
  E2EParams : Type;
  E2EBaseParams : Type;
  Connection : Type;
  MessageID : Type;
  RoundID : Type;
  Time : Type;
  MessageType : Type;

  (* [initLog], defined in another file of the package; it sets up
     logging *)
  initLog : nat -> string -> World -> World;

  os_Stat : string -> World -> option error * World;
  ioutil_ReadFile : string -> World -> (slice_byte * option error) * World;
  ioutil_WriteFile : string -> slice_byte -> World -> option error * World;

  xxdk_DownloadAndVerifySignedNdfWithUrl :
    string -> string -> World -> (slice_byte * option error) * World;
  xxdk_NewCmix :
    string -> string -> slice_byte -> string -> World -> option error * World;
  xxdk_GetDefaultCMixParams : CMIXParams;
  xxdk_LoadCmix :
    string -> slice_byte -> CMIXParams -> World -> (Cmix * option error) * World;
  xxdk_LoadReceptionIdentity :
    string -> Cmix -> World -> (ReceptionIdentity * option error) * World;
  xxdk_MakeReceptionIdentity :
    Cmix -> World -> (ReceptionIdentity * option error) * World;
  xxdk_StoreReceptionIdentity :
    string -> ReceptionIdentity -> Cmix -> World -> option error * World;
  xxdk_GetDefaultE2EParams : E2EParams;
  xxdk_Login :
    Cmix -> ReceptionIdentity -> E2EParams -> World -> (E2e * option error) * World;

  ReceptionIdentity_GetContact : ReceptionIdentity -> Contact;
  ReceptionIdentity_ID : ReceptionIdentity -> ID;
  ReceptionIdentity_DHKeyPrivate : ReceptionIdentity -> slice_byte;
  Contact_Marshal : Contact -> slice_byte;
  Contact_ID : Contact -> ID;
  E2e_GetReceptionIdentity : E2e -> ReceptionIdentity;
  E2e_GetE2E : E2e -> e2e_Handler;
  e2e_Handler_GetGroup : e2e_Handler -> cyclic_Group;
  E2e_GetCmix : E2e -> cmix_Client;
  Cmix_GetCmix : Cmix -> cmix_Client;
  E2EParams_Base : E2EParams -> E2EBaseParams;

  cyclic_Int_UnmarshalJSON : slice_byte -> cyclic_Int * option error;
  (* [dhPrivateKey], the key handed to [single.NewServer]; main.go uses the
     name without declaring it *)
  dhPrivateKey : cyclic_Int;
  single_NewServer :
    ID -> cyclic_Int -> cyclic_Group -> cmix_Client -> World -> World;

  E2e_StartNetworkFollower : E2e -> Duration -> World -> option error * World;
  Cmix_StartNetworkFollower : Cmix -> Duration -> World -> option error * World;
  cmix_Client_AddHealthCallback : cmix_Client -> World -> World;

  contact_Unmarshal : slice_byte -> Contact * option error;
  connect_Connect :
    Contact -> E2e -> E2EParams -> World -> (Connection * option error) * World;
  catalog_NoType : MessageType;
  catalog_XxMessage : MessageType;
  Connection_RegisterListener :
    Connection -> MessageType -> string -> World -> option error * World;
  Connection_SendE2E :
    Connection -> MessageType -> slice_byte -> E2EBaseParams -> World ->
    ((list RoundID * MessageID * Time) * option error) * World
}.

Section Monad.

Context {env : Env}.

(** ** Trace *)

(** A call that leaves the process, with the arguments it was given. *)
Inductive Call : Type :=
| call_initLog (threshold : nat) (logPath : string)
| call_os_Stat (name : string)
| call_ioutil_ReadFile (filename : string)
| call_ioutil_WriteFile (filename : string) (data : slice_byte)
| call_xxdk_DownloadAndVerifySignedNdfWithUrl (url cert : string)
| call_xxdk_NewCmix (ndfJSON storageDir : string) (password : slice_byte)
    (registrationCode : string)
| call_xxdk_LoadCmix (storageDir : string) (password : slice_byte)
| call_xxdk_LoadReceptionIdentity (key : string) (net : Cmix)
| call_xxdk_MakeReceptionIdentity (net : Cmix)
| call_xxdk_StoreReceptionIdentity (key : string) (identity : ReceptionIdentity)
    (net : Cmix)
| call_xxdk_Login (net : Cmix) (identity : ReceptionIdentity)
| call_cyclic_Int_UnmarshalJSON (b : slice_byte)
| call_single_NewServer (receptionId : ID) (privKey : cyclic_Int)
    (grp : cyclic_Group) (net : cmix_Client)
| call_E2e_StartNetworkFollower (user : E2e) (timeout : Duration)
| call_Cmix_StartNetworkFollower (net : Cmix) (timeout : Duration)
| call_AddHealthCallback (net : cmix_Client)
| call_contact_Unmarshal (b : slice_byte)
| call_connect_Connect (recipient : Contact) (user : E2e)
| call_RegisterListener (handler : Connection) (messageType : MessageType)
    (name : string)
| call_SendE2E (handler : Connection) (mt : MessageType) (payload : slice_byte).

(** The lines the programs log, by their format string. *)
Inductive LogLine : Type :=
| log_NDF_does_not_exist (err : error)
| log_Using_E2E_parameters (params : E2EParams)
| log_Network_Status (isConnected : bool)
| log_Recipient_contact (c : Contact)
| log_Connect_established (id : ID)
| log_Message_sent (messageID : MessageID) (roundIDs : list RoundID)
    (timeSent : Time).

(** What a call returned: the Go result tuple. *)
Inductive Returned : Type :=
| returned
| returned_err (err : option error)
| returned_bytes (data : slice_byte) (err : option error)
| returned_Cmix (net : Cmix) (err : option error)
| returned_ReceptionIdentity (identity : ReceptionIdentity) (err : option error)
| returned_E2e (user : E2e) (err : option error)
| returned_Int (x : cyclic_Int) (err : option error)
| returned_Contact (c : Contact) (err : option error)
| returned_Connection (handler : Connection) (err : option error)
| returned_send (roundIDs : list RoundID) (messageID : MessageID)
    (timeSent : Time) (err : option error).

Inductive Event : Type :=
| Called (c : Call) (r : Returned)
| jww_INFO (l : LogLine)
| jww_FATAL (format : string) (err : option error)
| fmt_Printf (format : string) (err : error).

(** How a process stops: [jww.FATAL.Panicf], or the final [select {}]. *)
Inductive Exit : Type :=
| Panicf (format : string) (err : option error)
| select_forever.

(** ** The monad *)

Definition State : Type := (World * list SelectCase)%type.

Definition M (A : Type) : Type := State -> (A + Exit) * State * list Event.

Definition ret {A} (a : A) : M A := fun s => (inl a, s, []).

Definition bind {A B} (m : M A) (f : A -> M B) : M B :=
  fun s =>
    match m s with
    | (inl a, s1, t1) =>
        match f a s1 with
        | (r, s2, t2) => (r, s2, t1 ++ t2)
        end
    | (inr e, s1, t1) => (inr e, s1, t1)
    end.

(** A library call: it runs in the current world, and the trace records
    what it was given and what it returned. *)
Definition call {A} (c : Call) (tuple : A -> Returned)
    (f : World -> A * World) : M A :=
  fun s =>
    match f (fst s) with
    | (a, w) => (inl a, (w, snd s), [Called c (tuple a)])
    end.

(** A library call whose result the program drops. *)
Definition call_unit (c : Call) (f : World -> World) : M unit :=
  fun s => (inl tt, (f (fst s), snd s), [Called c returned]).

(** A library call that does not touch the world. *)
Definition call_pure {A} (c : Call) (tuple : A -> Returned) (a : A) : M A :=
  fun s => (inl a, s, [Called c (tuple a)]).

(** The result tuples [(x, err)]. *)
Definition pair_with {A} (k : A -> option error -> Returned)
  : A * option error -> Returned :=
  fun r => k (fst r) (snd r).

Definition jww_INFO_Printf (l : LogLine) : M unit :=
  fun s => (inl tt, s, [jww_INFO l]).

Definition fmt_Printf_err (format : string) (err : error) : M unit :=
  fun s => (inl tt, s, [fmt_Printf format err]).

Definition jww_FATAL_Panicf {A} (format : string) (err : option error) : M A :=
  fun s => (inr (Panicf format err), s, [jww_FATAL format err]).

(** [select {}] *)
Definition select_block {A} : M A :=
  fun s => (inr select_forever, s, []).

(** [if err != nil { jww.FATAL.Panicf(format, err) }] *)
Definition fatal_if_err (format : string) (err : option error) : M unit :=
  match err with
  | Some e => jww_FATAL_Panicf format (Some e)
  | None => ret tt
  end.

End Monad.

Declare Scope go_scope.
Delimit Scope go_scope with go.
Notation "x <- m ;; k" := (bind m (fun x => k))
  (at level 61, m at next level, right associativity) : go_scope.
Notation "' p <- m ;; k" := (bind m (fun x => match x with p => k end))
  (at level 61, p pattern, m at next level, right associativity) : go_scope.
Notation "m ;; k" := (bind m (fun _ => k))
  (at level 61, right associativity) : go_scope.
Open Scope go_scope.

Section Calls.

Context {env : Env}.

(** ** The calls, as the programs write them *)

Definition do_initLog (threshold : nat) (logPath : string) : M unit :=
  call_unit (call_initLog threshold logPath) (initLog threshold logPath).

Definition do_os_Stat (name : string) : M (option error) :=
  call (call_os_Stat name) returned_err (os_Stat name).

Definition do_ioutil_ReadFile (filename : string)
  : M (slice_byte * option error) :=
  call (call_ioutil_ReadFile filename) (pair_with returned_bytes)
       (ioutil_ReadFile filename).

Definition do_ioutil_WriteFile (filename : string) (data : slice_byte)
  : M (option error) :=
  call (call_ioutil_WriteFile filename data) returned_err
       (ioutil_WriteFile filename data).

Definition do_xxdk_DownloadAndVerifySignedNdfWithUrl (url cert : string)
  : M (slice_byte * option error) :=
  call (call_xxdk_DownloadAndVerifySignedNdfWithUrl url cert)
       (pair_with returned_bytes)
       (xxdk_DownloadAndVerifySignedNdfWithUrl url cert).

Definition do_xxdk_NewCmix (ndfJSON storageDir : string)
    (password : slice_byte) (registrationCode : string) : M (option error) :=
  call (call_xxdk_NewCmix ndfJSON storageDir password registrationCode)
       returned_err
       (xxdk_NewCmix ndfJSON storageDir password registrationCode).

Definition do_xxdk_LoadCmix (storageDir : string) (password : slice_byte)
    (parameters : CMIXParams) : M (Cmix * option error) :=
  call (call_xxdk_LoadCmix storageDir password) (pair_with returned_Cmix)
       (xxdk_LoadCmix storageDir password parameters).

Definition do_xxdk_LoadReceptionIdentity (key : string) (net : Cmix)
  : M (ReceptionIdentity * option error) :=
  call (call_xxdk_LoadReceptionIdentity key net)
       (pair_with returned_ReceptionIdentity)
       (xxdk_LoadReceptionIdentity key net).

Definition do_xxdk_MakeReceptionIdentity (net : Cmix)
  : M (ReceptionIdentity * option error) :=
  call (call_xxdk_MakeReceptionIdentity net)
       (pair_with returned_ReceptionIdentity)
       (xxdk_MakeReceptionIdentity net).

Definition do_xxdk_StoreReceptionIdentity (key : string)
    (identity : ReceptionIdentity) (net : Cmix) : M (option error) :=
  call (call_xxdk_StoreReceptionIdentity key identity net) returned_err
       (xxdk_StoreReceptionIdentity key identity net).

Definition do_xxdk_Login (net : Cmix) (identity : ReceptionIdentity)
    (params : E2EParams) : M (E2e * option error) :=
  call (call_xxdk_Login net identity) (pair_with returned_E2e)
       (xxdk_Login net identity params).

Definition do_cyclic_Int_UnmarshalJSON (b : slice_byte)
  : M (cyclic_Int * option error) :=
  call_pure (call_cyclic_Int_UnmarshalJSON b) (pair_with returned_Int)
            (cyclic_Int_UnmarshalJSON b).

Definition do_single_NewServer (receptionId : ID) (privKey : cyclic_Int)
    (grp : cyclic_Group) (net : cmix_Client) : M unit :=
  call_unit (call_single_NewServer receptionId privKey grp net)
            (single_NewServer receptionId privKey grp net).

Definition do_E2e_StartNetworkFollower (user : E2e) (timeout : Duration)
  : M (option error) :=
  call (call_E2e_StartNetworkFollower user timeout) returned_err
       (E2e_StartNetworkFollower user timeout).

Definition do_Cmix_StartNetworkFollower (net : Cmix) (timeout : Duration)
  : M (option error) :=
  call (call_Cmix_StartNetworkFollower net timeout) returned_err
       (Cmix_StartNetworkFollower net timeout).

Definition do_AddHealthCallback (net : cmix_Client) : M unit :=
  call_unit (call_AddHealthCallback net) (cmix_Client_AddHealthCallback net).

Definition do_contact_Unmarshal (b : slice_byte) : M (Contact * option error) :=
  call_pure (call_contact_Unmarshal b) (pair_with returned_Contact)
            (contact_Unmarshal b).

Definition do_connect_Connect (recipient : Contact) (user : E2e)
    (p : E2EParams) : M (Connection * option error) :=
  call (call_connect_Connect recipient user) (pair_with returned_Connection)
       (connect_Connect recipient user p).

Definition do_RegisterListener (handler : Connection)
    (messageType : MessageType) (name : string) : M (option error) :=
  call (call_RegisterListener handler messageType name) returned_err
       (Connection_RegisterListener handler messageType name).

Definition do_SendE2E (handler : Connection) (mt : MessageType)
    (payload : slice_byte) (p : E2EBaseParams)
  : M ((list RoundID * MessageID * Time) * option error) :=
  call (call_SendE2E handler mt payload)
       (fun r => match r with
                 | ((roundIDs, messageID, timeSent), err) =>
                     returned_send roundIDs messageID timeSent err
                 end)
       (Connection_SendE2E handler mt payload p).

(** ** [waitUntilConnected]

    main.go, lines 133-147 and again, letter for letter, lines 276-290.
    The loop runs while [isConnected] is false; each turn is one [select].
    A received value is logged and becomes [isConnected]; the timer case
    panics.  The argument is the sequence of ways the successive selects
    resolve.  The timer was started on entry and fires within the wait
    timeout, so a select with nothing left to receive takes the timer
    case. *)
Fixpoint waitUntilConnected_loop (connected : list SelectCase) (w : World)
  : (unit + Exit) * State * list Event :=
  match connected with
  | recv_connected isConnected :: rest =>
      if isConnected
      then (inl tt, (w, rest), [jww_INFO (log_Network_Status isConnected)])
      else
        match waitUntilConnected_loop rest w with
        | (r, s, t) => (r, s, jww_INFO (log_Network_Status isConnected) :: t)
        end
  | recv_timeoutTimer :: rest =>
      (inr (Panicf "Timeout on starting network follower" None), (w, rest),
       [jww_FATAL "Timeout on starting network follower" None])
  | [] =>
      (inr (Panicf "Timeout on starting network follower" None), (w, []),
       [jww_FATAL "Timeout on starting network follower" None])
  end.

Definition waitUntilConnected : M unit :=
  fun s => waitUntilConnected_loop (snd s) (fst s).

(** Modelled from the spec: [writeContact] is not defined in main.go but
    in another file of the package.  The spec's "Produced artifact: a
    serialized contact descriptor written to a well-known path" is a write
    of the marshalled contact to the path; a failed write stops the process
    like every other fatal condition of the spec's exit policy. *)
Definition writeContact (outfilePath : string) (c : Contact) : M unit :=
  err <- do_ioutil_WriteFile outfilePath (Contact_Marshal c) ;;
  fatal_if_err "Failed to write contact file: %+v" err.

(** [if err != nil { jww.INFO.Printf("NDF does not exist: %+v", err) }] *)
Definition info_if_err (err : option error) : M unit :=
  match err with
  | Some e => jww_INFO_Printf (log_NDF_does_not_exist e)
  | None => ret tt
  end.

(** [if err != nil { fmt.Printf(format, err) }] *)
Definition printf_if_err (format : string) (err : option error) : M unit :=
  match err with
  | Some e => fmt_Printf_err format e
  | None => ret tt
  end.

End Calls.

(** ** The text the two programs share

    main.go marks the stages of each [main] with banner comments.  The
    first two stages are the same text in both programs: lines 38-67 are
    lines 204-232, and lines 69-102 are lines 234-264.  They are written
    once here, over the local constants each [main] declares. *)
Section Bootstrap.

Context {env : Env}.

Variables (statePath statePass : string).
Variables (ndfURL certificatePath ndfPath : string).
Variable (identityStorageKey : string).

(** "Create a new client object", from "Check if state exists" on. *)
Definition create_client_object : M unit :=
  (* Check if state exists *)
  err <- do_os_Stat statePath ;;
  if errors_Is_ErrNotExist err then
    (* Attempt to read the NDF *)
    '(ndfJSON, err) <- do_ioutil_ReadFile ndfPath ;;
    info_if_err err ;;
    (* If NDF can't be read, retrieve it remotely *)
    ndfJSON <- (if is_nil ndfJSON then
                  '(cert, err) <- do_ioutil_ReadFile certificatePath ;;
                  fatal_if_err "Failed to read certificate: %v" err ;;
                  '(ndfJSON, err) <-
                    do_xxdk_DownloadAndVerifySignedNdfWithUrl
                      ndfURL (string_of_slice cert) ;;
                  fatal_if_err "Failed to download NDF: %+v" err ;;
                  ret ndfJSON
                else ret ndfJSON) ;;
    (* Initialize the state using the state file *)
    err <- do_xxdk_NewCmix (string_of_slice ndfJSON) statePath
             (slice_of_string statePass) "" ;;
    fatal_if_err "Failed to initialize state: %+v" err
  else ret tt.

(** "Login to your client session": load the state, get the reception
    identity, log in.  The stage hands on [baseClient], [identity] and
    [e2eClient]; [params] is [xxdk.GetDefaultE2EParams()]. *)
Definition login_to_client_session : M (Cmix * ReceptionIdentity * E2e) :=
  (* Login with the same sessionPath and sessionPass used to call
     NewClient() *)
  '(baseClient, err) <- do_xxdk_LoadCmix statePath (slice_of_string statePass)
                          xxdk_GetDefaultCMixParams ;;
  fatal_if_err "Failed to load state: %+v" err ;;
  (* Get reception identity (automatically created if one does not exist) *)
  '(identity, err) <- do_xxdk_LoadReceptionIdentity identityStorageKey
                        baseClient ;;
  identity <- (match err with
               | Some _ =>
                   (* If no extant xxdk.ReceptionIdentity, generate and
                      store a new one *)
                   '(identity, err) <- do_xxdk_MakeReceptionIdentity
                                         baseClient ;;
                   fatal_if_err "Failed to generate reception identity: %+v"
                     err ;;
                   err <- do_xxdk_StoreReceptionIdentity identityStorageKey
                            identity baseClient ;;
                   fatal_if_err "Failed to store new reception identity: %+v"
                     err ;;
                   ret identity
               | None => ret identity
               end) ;;
  (* Create an E2E client *)
  let params := xxdk_GetDefaultE2EParams in
  jww_INFO_Printf (log_Using_E2E_parameters params) ;;
  '(e2eClient, err) <- do_xxdk_Login baseClient identity params ;;
  fatal_if_err "Unable to Login: %+v" err ;;
  ret (baseClient, identity, e2eClient).

End Bootstrap.

(** ** The rest-like single-use server, main.go lines 15-166 *)
Module Server.
Section Main.

Context {env : Env}.

Definition contactFilePath : string := "restlikeServer.xxc".
Definition statePath : string := "statePath".
Definition statePass : string := "password".
Definition ndfURL : string :=
  "https://elixxir-bins.s3.us-west-1.amazonaws.com/ndf/mainnet.json".
Definition certificatePath : string := "../mainnet.crt".
Definition ndfPath : string := "ndf.json".
Definition identityStorageKey : string := "identityStorageKey".
Definition networkFollowerTimeout : Duration := 5.

(** "Save contact file", lines 104-107. *)
Definition save_contact_file (identity : ReceptionIdentity) : M unit :=
  (* Save the contact file so that client can connect to this server *)
  writeContact contactFilePath (ReceptionIdentity_GetContact identity).

(** "Start rest-like single use server", lines 109-121.  [dhKeyPriv] is
    unmarshalled and checked; the server is given [dhPrivateKey]. *)
Definition start_single_use_server (e2eClient : E2e) : M unit :=
  (* Pull the reception *)
  let receptionIdentity := E2e_GetReceptionIdentity e2eClient in
  '(dhKeyPriv, err) <- do_cyclic_Int_UnmarshalJSON
                         (ReceptionIdentity_DHKeyPrivate receptionIdentity) ;;
  fatal_if_err "Unable to read diffie-hellman private key: %+v" err ;;
  (* Initialize the server *)
  do_single_NewServer (ReceptionIdentity_ID receptionIdentity) dhPrivateKey
    (e2e_Handler_GetGroup (E2e_GetE2E e2eClient)) (E2e_GetCmix e2eClient).

(** "Start network threads", lines 123-158. *)
Definition start_network_threads (e2eClient : E2e) : M unit :=
  err <- do_E2e_StartNetworkFollower e2eClient networkFollowerTimeout ;;
  fatal_if_err "Failed to start network follower: %+v" err ;;
  (* Provide a callback that will be signalled when network health status
     changes *)
  do_AddHealthCallback (E2e_GetCmix e2eClient) ;;
  (* Wait until connected or crash on timeout *)
  waitUntilConnected.

(** What [main] does once logged in, lines 104-164. *)
Definition after_login (logged_in : Cmix * ReceptionIdentity * E2e) : M unit :=
  match logged_in with
  | (baseClient, identity, e2eClient) =>
      save_contact_file identity ;;
      start_single_use_server e2eClient ;;
      start_network_threads e2eClient ;;
      select_block
  end.

Definition main : M unit :=
  (* Logging *)
  do_initLog 1 "client.log" ;;
  (* Create a new client object *)
  create_client_object statePath statePass ndfURL certificatePath ndfPath ;;
  (* Login to your client session *)
  '(baseClient, identity, e2eClient) <-
    login_to_client_session statePath statePass identityStorageKey ;;
  (* Save contact file *)
  save_contact_file identity ;;
  (* Start rest-like single use server *)
  start_single_use_server e2eClient ;;
  (* Start network threads *)
  start_network_threads e2eClient ;;
  (* Keep app running to receive messages *)
  select_block.

End Main.
End Server.

(** ** The direct-channel sender, main.go lines 185-349 *)
Module Sender.
Section Main.

Context {env : Env}.

Definition serverContactPath : string := "server-contact.json".
Definition statePath : string := "statePath".
Definition statePass : string := "password".
Definition ndfURL : string :=
  "https://elixxir-bins.s3.us-west-1.amazonaws.com/ndf/mainnet.json".
Definition certificatePath : string := "../mainnet.crt".
Definition ndfPath : string := "ndf.json".
Definition identityStorageKey : string := "identityStorageKey".
Definition networkFollowerTimeout : Duration := 5.
Definition msgBody : string :=
  "If this message is sent successfully, we'll have established first contact with aliens.".

(** "Start network threads", lines 266-300.  A follower that fails to
    start is printed, not panicked on. *)
Definition start_network_threads (baseClient : Cmix) : M unit :=
  err <- do_Cmix_StartNetworkFollower baseClient networkFollowerTimeout ;;
  printf_if_err "Failed to start network follower: %+v" err ;;
  (* Provide a callback that will be signalled when network health status
     changes *)
  do_AddHealthCallback (Cmix_GetCmix baseClient) ;;
  (* Wait until connected or crash on timeout *)
  waitUntilConnected.

(** "Connect with the server", lines 302-324. *)
Definition connect_with_server (e2eClient : E2e) (params : E2EParams)
  : M Connection :=
  (* Recipient's contact (read from a Client CLI-generated contact file) *)
  '(contactData, err) <- do_ioutil_ReadFile serverContactPath ;;
  fatal_if_err "Failed to read server contact file: %+v" err ;;
  '(recipientContact, err) <- do_contact_Unmarshal contactData ;;
  fatal_if_err "Failed to get contact data: %+v" err ;;
  jww_INFO_Printf (log_Recipient_contact recipientContact) ;;
  (* Create the connection *)
  '(handler, err) <- do_connect_Connect recipientContact e2eClient params ;;
  fatal_if_err "Failed to create connection object: %+v" err ;;
  jww_INFO_Printf (log_Connect_established (Contact_ID recipientContact)) ;;
  ret handler.

(** "Register a listener for messages", lines 326-334. *)
Definition register_listener (handler : Connection) : M unit :=
  (* Listen for all types of messages using catalog.NoType *)
  err <- do_RegisterListener handler catalog_NoType "e2e Message Listener" ;;
  fatal_if_err "Could not register message listener: %+v" err.

(** "Send a message to the server", lines 336-344.  The log line is not
    under the error check. *)
Definition send_message (handler : Connection) (params : E2EParams) : M unit :=
  '((roundIDs, messageID, timeSent), err) <-
    do_SendE2E handler catalog_XxMessage (slice_of_string msgBody)
      (E2EParams_Base params) ;;
  printf_if_err "Failed to send message: %+v" err ;;
  jww_INFO_Printf (log_Message_sent messageID roundIDs timeSent).

(** What [main] does once logged in, lines 266-348. *)
Definition after_login (logged_in : Cmix * ReceptionIdentity * E2e) : M unit :=
  match logged_in with
  | (baseClient, identity, e2eClient) =>
      let params := xxdk_GetDefaultE2EParams in
      start_network_threads baseClient ;;
      handler <- connect_with_server e2eClient params ;;
      register_listener handler ;;
      send_message handler params ;;
      select_block
  end.

Definition main : M unit :=
  (* Logging *)
  do_initLog 1 "client.log" ;;
  (* Create a new client object *)
  create_client_object statePath statePass ndfURL certificatePath ndfPath ;;
  (* Login to your client session *)
  '(baseClient, identity, e2eClient) <-
    login_to_client_session statePath statePass identityStorageKey ;;
  let params := xxdk_GetDefaultE2EParams in
  (* Start network threads *)
  start_network_threads baseClient ;;
  (* Connect with the server *)
  handler <- connect_with_server e2eClient params ;;
  (* Register a listener for messages *)
  register_listener handler ;;
  (* Send a message to the server *)
  send_message handler params ;;
  (* Keep app running to receive messages *)
  select_block.

End Main.
End Sender.

(** ** Either program *)

Inductive Program : Type :=
| server
| sender.

Section Programs.

Context {env : Env}.

Definition main_of (p : Program) : M unit :=
  match p with
  | server => Server.main
  | sender => Sender.main
  end.

Definition after_login_of (p : Program)
  : Cmix * ReceptionIdentity * E2e -> M unit :=
  match p with
  | server => Server.after_login
  | sender => Sender.after_login
  end.

End Programs.

(** The local constants of [main]; the two programs give them the same
    values. *)
Definition statePath_of (p : Program) : string :=
  match p with
  | server => Server.statePath
  | sender => Sender.statePath
  end.

Definition statePass_of (p : Program) : string :=
  match p with
  | server => Server.statePass
  | sender => Sender.statePass
  end.

Definition ndfURL_of (p : Program) : string :=
  match p with
  | server => Server.ndfURL
  | sender => Sender.ndfURL
  end.

Definition certificatePath_of (p : Program) : string :=
  match p with
  | server => Server.certificatePath
  | sender => Sender.certificatePath
  end.

Definition ndfPath_of (p : Program) : string :=
  match p with
  | server => Server.ndfPath
  | sender => Sender.ndfPath
  end.

Definition identityStorageKey_of (p : Program) : string :=
  match p with
  | server => Server.identityStorageKey
  | sender => Sender.identityStorageKey
  end.

(** ** Running a program *)

Section Runs.

Context {env : Env}.

Definition Run (A : Type) : Type := ((A + Exit) * State * list Event)%type.

Definition result_of {A} (r : Run A) : A + Exit := fst (fst r).
Definition world_of {A} (r : Run A) : World := fst (snd (fst r)).
Definition trace_of {A} (r : Run A) : list Event := snd r.

(** The anatomy of a run of either program: logging is set up, then
    the client object is created, then the session is logged in, then the
    program goes its own way ([after]); a stage that panics ends the run. *)
Inductive anatomy
    (statePath statePass ndfURL certificatePath ndfPath : string)
    (identityStorageKey : string)
    (after : Cmix * ReceptionIdentity * E2e -> M unit)
    (w : World) (sched : list SelectCase) : Run unit -> Prop :=
| run_stops_creating : forall e s1 tc,
    create_client_object statePath statePass ndfURL certificatePath ndfPath
      (initLog 1 "client.log" w, sched) = (inr e, s1, tc) ->
    anatomy statePath statePass ndfURL certificatePath ndfPath
      identityStorageKey after w sched
      (inr e, s1, Called (call_initLog 1 "client.log") returned :: tc)
| run_stops_logging_in : forall u s1 tc e s2 tl,
    create_client_object statePath statePass ndfURL certificatePath ndfPath
      (initLog 1 "client.log" w, sched) = (inl u, s1, tc) ->
    login_to_client_session statePath statePass identityStorageKey s1
      = (inr e, s2, tl) ->
    anatomy statePath statePass ndfURL certificatePath ndfPath
      identityStorageKey after w sched
      (inr e, s2, Called (call_initLog 1 "client.log") returned :: tc ++ tl)
| run_logged_in : forall u s1 tc x s2 tl r s3 ta,
    create_client_object statePath statePass ndfURL certificatePath ndfPath
      (initLog 1 "client.log" w, sched) = (inl u, s1, tc) ->
    login_to_client_session statePath statePass identityStorageKey s1
      = (inl x, s2, tl) ->
    after x s2 = (r, s3, ta) ->
    anatomy statePath statePass ndfURL certificatePath ndfPath
      identityStorageKey after w sched
      (r, s3,
       Called (call_initLog 1 "client.log") returned :: tc ++ tl ++ ta).

(** ** Properties of traces *)

(** Every event that satisfies [Q] has an event that satisfies [P]
    somewhere before it. *)
Definition preceded_by (P Q : Event -> bool) (tr : list Event) : Prop :=
  forall pre e post,
    tr = pre ++ e :: post -> Q e = true -> existsb P pre = true.

(** The same, decided by one pass; [seen] tells whether a [P] event has
    already gone by. *)
Fixpoint preceded_by_b (P Q : Event -> bool) (seen : bool) (tr : list Event)
  : bool :=
  match tr with
  | [] => true
  | e :: tr' =>
      (if Q e then seen else true) && preceded_by_b P Q (seen || P e) tr'
  end.

Definition count (P : Event -> bool) (tr : list Event) : nat :=
  length (filter P tr).

(** *** Classes of events *)

Definition is_NewCmix (e : Event) : bool :=
  match e with Called (call_xxdk_NewCmix _ _ _ _) _ => true | _ => false end.

(** A call of [xxdk.NewCmix] that returned no error. *)
Definition is_NewCmix_ok (e : Event) : bool :=
  match e with
  | Called (call_xxdk_NewCmix _ _ _ _) (returned_err None) => true
  | _ => false
  end.

Definition is_Download (e : Event) : bool :=
  match e with
  | Called (call_xxdk_DownloadAndVerifySignedNdfWithUrl _ _) _ => true
  | _ => false
  end.

Definition is_ReadFile_of (filename : string) (e : Event) : bool :=
  match e with
  | Called (call_ioutil_ReadFile p) _ => String.eqb p filename
  | _ => false
  end.

Definition is_WriteFile (e : Event) : bool :=
  match e with Called (call_ioutil_WriteFile _ _) _ => true | _ => false end.

Definition is_LoadReceptionIdentity (e : Event) : bool :=
  match e with
  | Called (call_xxdk_LoadReceptionIdentity _ _) _ => true
  | _ => false
  end.

Definition is_MakeReceptionIdentity (e : Event) : bool :=
  match e with
  | Called (call_xxdk_MakeReceptionIdentity _) _ => true
  | _ => false
  end.

Definition is_StoreReceptionIdentity (e : Event) : bool :=
  match e with
  | Called (call_xxdk_StoreReceptionIdentity _ _ _) _ => true
  | _ => false
  end.

Definition is_Login (e : Event) : bool :=
  match e with Called (call_xxdk_Login _ _) _ => true | _ => false end.

Definition is_NewServer (e : Event) : bool :=
  match e with Called (call_single_NewServer _ _ _ _) _ => true | _ => false end.

Definition is_StartNetworkFollower (e : Event) : bool :=
  match e with
  | Called (call_E2e_StartNetworkFollower _ _) _ => true
  | Called (call_Cmix_StartNetworkFollower _ _) _ => true
  | _ => false
  end.

Definition is_AddHealthCallback (e : Event) : bool :=
  match e with Called (call_AddHealthCallback _) _ => true | _ => false end.

Definition is_Connect (e : Event) : bool :=
  match e with Called (call_connect_Connect _ _) _ => true | _ => false end.

Definition is_RegisterListener (e : Event) : bool :=
  match e with Called (call_RegisterListener _ _ _) _ => true | _ => false end.

Definition is_SendE2E (e : Event) : bool :=
  match e with Called (call_SendE2E _ _ _) _ => true | _ => false end.

(** The gate has resolved successfully: a [true] was dequeued and logged. *)
Definition is_connected (e : Event) : bool :=
  match e with jww_INFO (log_Network_Status true) => true | _ => false end.

(** What [waitUntilConnected] itself leaves in the trace. *)
Definition is_wait_event (e : Event) : bool :=
  match e with
  | jww_INFO (log_Network_Status _) => true
  | jww_FATAL "Timeout on starting network follower" None => true
  | _ => false
  end.

(** A health value was dequeued and logged. *)
Definition is_Network_Status (e : Event) : bool :=
  match e with jww_INFO (log_Network_Status _) => true | _ => false end.

(** The steps of the connectivity stage: starting the follower,
    subscribing to health changes, dequeuing a health value. *)
Definition is_connectivity_step (e : Event) : bool :=
  is_StartNetworkFollower e || is_AddHealthCallback e || is_Network_Status e.

(** The steps of the post-connect action: starting the single-use server
    (server), connecting, registering the listener and sending (sender). *)
Definition is_post_connect_action (e : Event) : bool :=
  is_NewServer e || is_Connect e || is_RegisterListener e || is_SendE2E e.

(** The steps of state initialization: reading the cached definition or
    the certificate, downloading, creating the state. *)
Definition is_initialization_step (ndfPath certificatePath : string)
    (e : Event) : bool :=
  is_ReadFile_of ndfPath e || is_ReadFile_of certificatePath e
  || is_Download e || is_NewCmix e.

Definition is_fatal (e : Event) : bool :=
  match e with jww_FATAL _ _ => true | _ => false end.

(** *** What each part of a program can leave in the trace *)

Definition in_create_client_object (ndfPath certificatePath : string)
    (e : Event) : bool :=
  match e with
  | Called (call_os_Stat _) _ => true
  | Called (call_ioutil_ReadFile p) _ =>
      String.eqb p ndfPath || String.eqb p certificatePath
  | Called (call_xxdk_DownloadAndVerifySignedNdfWithUrl _ _) _ => true
  | Called (call_xxdk_NewCmix _ _ _ _) _ => true
  | jww_INFO (log_NDF_does_not_exist _) => true
  | jww_FATAL _ _ => true
  | _ => false
  end.

Definition in_login_to_client_session (e : Event) : bool :=
  match e with
  | Called (call_xxdk_LoadCmix _ _) _ => true
  | Called (call_xxdk_LoadReceptionIdentity _ _) _ => true
  | Called (call_xxdk_MakeReceptionIdentity _) _ => true
  | Called (call_xxdk_StoreReceptionIdentity _ _ _) _ => true
  | Called (call_xxdk_Login _ _) _ => true
  | jww_INFO (log_Using_E2E_parameters _) => true
  | jww_FATAL _ _ => true
  | _ => false
  end.

(** The server after login: contact file, server, network threads. *)
Definition in_server_after_login (e : Event) : bool :=
  match e with
  | Called (call_ioutil_WriteFile _ _) _ => true
  | Called (call_cyclic_Int_UnmarshalJSON _) _ => true
  | Called (call_single_NewServer _ _ _ _) _ => true
  | Called (call_E2e_StartNetworkFollower _ _) _ => true
  | Called (call_AddHealthCallback _) _ => true
  | jww_INFO (log_Network_Status _) => true
  | jww_FATAL _ _ => true
  | _ => false
  end.

(** The sender after login: network threads, connection, listener, send. *)
Definition in_sender_after_login (serverContactPath : string) (e : Event)
  : bool :=
  match e with
  | Called (call_Cmix_StartNetworkFollower _ _) _ => true
  | Called (call_AddHealthCallback _) _ => true
  | Called (call_ioutil_ReadFile p) _ => String.eqb p serverContactPath
  | Called (call_contact_Unmarshal _) _ => true
  | Called (call_connect_Connect _ _) _ => true
  | Called (call_RegisterListener _ _ _) _ => true
  | Called (call_SendE2E _ _ _) _ => true
  | jww_INFO (log_Network_Status _) => true
  | jww_INFO (log_Recipient_contact _) => true
  | jww_INFO (log_Connect_established _) => true
  | jww_INFO (log_Message_sent _ _ _) => true
  | jww_FATAL _ _ => true
  | fmt_Printf _ _ => true
  | _ => false
  end.

(** The identity is put to use: generated, stored, or logged in with. *)
Definition is_identity_use (e : Event) : bool :=
  is_MakeReceptionIdentity e || is_StoreReceptionIdentity e || is_Login e.

(** A load or a store of the identity that returned no error. *)
Definition is_identity_on_record (e : Event) : bool :=
  match e with
  | Called (call_xxdk_LoadReceptionIdentity _ _)
      (returned_ReceptionIdentity _ None) => true
  | Called (call_xxdk_StoreReceptionIdentity _ _ _) (returned_err None) => true
  | _ => false
  end.

End Runs.

(** ** A small concrete world

    Files, state directories, an identity store and a remote definition,
    with switches for the failures the programs check for.  It serves to
    run the programs on concrete inputs. *)
Module Toy.

Record world : Type := {
  files : list (string * list byte);
  dirs : list string;
  identities : list (string * nat);
  remote_ndf : option (list byte);
  store_fails : bool;
  follower_fails : bool;
  send_fails : bool;
  servers : nat
}.

Fixpoint lookup {A} (k : string) (m : list (string * A)) : option A :=
  match m with
  | [] => None
  | (k', v) :: m' => if String.eqb k k' then Some v else lookup k m'
  end.

Definition bytes_of (b : slice_byte) : list byte :=
  match b with
  | None => []
  | Some l => l
  end.

Definition stat (name : string) (w : world) : option error * world :=
  if existsb (String.eqb name) (dirs w) then (None, w)
  else match lookup name (files w) with
       | Some _ => (None, w)
       | None => (Some fs_ErrNotExist, w)
       end.

Definition read_file (name : string) (w : world)
  : (slice_byte * option error) * world :=
  match lookup name (files w) with
  | Some l => ((Some l, None), w)
  | None => ((None, Some fs_ErrNotExist), w)
  end.

Definition write_file (name : string) (data : slice_byte) (w : world)
  : option error * world :=
  (None,
   {| files := (name, bytes_of data) :: files w; dirs := dirs w;
      identities := identities w; remote_ndf := remote_ndf w;
      store_fails := store_fails w; follower_fails := follower_fails w;
      send_fails := send_fails w; servers := servers w |}).

Definition download (url cert : string) (w : world)
  : (slice_byte * option error) * world :=
  match remote_ndf w with
  | Some l => ((Some l, None), w)
  | None => ((None, Some (errors_New "signature verification failed")), w)
  end.

Definition new_cmix (ndfJSON storageDir : string) (password : slice_byte)
    (registrationCode : string) (w : world) : option error * world :=
  (None,
   {| files := files w; dirs := storageDir :: dirs w;
      identities := identities w; remote_ndf := remote_ndf w;
      store_fails := store_fails w; follower_fails := follower_fails w;
      send_fails := send_fails w; servers := servers w |}).

Definition load_cmix (storageDir : string) (password : slice_byte)
    (p : unit) (w : world) : (unit * option error) * world :=
  if existsb (String.eqb storageDir) (dirs w) then ((tt, None), w)
  else ((tt, Some (errors_New "no state")), w).

Definition load_identity (key : string) (net : unit) (w : world)
  : (nat * option error) * world :=
  match lookup key (identities w) with
  | Some i => ((i, None), w)
  | None => ((0, Some (errors_New "no identity")), w)
  end.

Definition make_identity (net : unit) (w : world)
  : (nat * option error) * world :=
  ((S (length (identities w)), None), w).

Definition store_identity (key : string) (i : nat) (net : unit) (w : world)
  : option error * world :=
  if store_fails w then (Some (errors_New "store failed"), w)
  else
    (None,
     {| files := files w; dirs := dirs w;
        identities := (key, i) :: identities w; remote_ndf := remote_ndf w;
        store_fails := store_fails w; follower_fails := follower_fails w;
        send_fails := send_fails w; servers := servers w |}).

Definition new_server (id : nat) (k : unit) (g : unit) (net : unit) (w : world)
  : world :=
  {| files := files w; dirs := dirs w; identities := identities w;
     remote_ndf := remote_ndf w; store_fails := store_fails w;
     follower_fails := follower_fails w; send_fails := send_fails w;
     servers := S (servers w) |}.

Definition start_follower {A} (c : A) (timeout : Duration) (w : world)
  : option error * world :=
  if follower_fails w then (Some (errors_New "follower failed"), w)
  else (None, w).

Definition send (h : unit) (mt : nat) (payload : slice_byte) (p : unit)
    (w : world) : ((list nat * nat * nat) * option error) * world :=
  if send_fails w then ((([], 0, 0), Some (errors_New "send failed")), w)
  else ((([7], 1, 1), None), w).

#[local] Instance env : Env := {|
  World := world;
  Cmix := unit;
  E2e := nat;
  ReceptionIdentity := nat;
  Contact := nat;
  ID := nat;
  cmix_Client := unit;
  e2e_Handler := unit;
  cyclic_Int := unit;
  cyclic_Group := unit;
  CMIXParams := unit;
  E2EParams := unit;
  E2EBaseParams := unit;
  Connection := unit;
  MessageID := nat;
  RoundID := nat;
  Time := nat;
  MessageType := nat;
  initLog := fun _ _ w => w;
  os_Stat := stat;
  ioutil_ReadFile := read_file;
  ioutil_WriteFile := write_file;
  xxdk_DownloadAndVerifySignedNdfWithUrl := download;
  xxdk_NewCmix := new_cmix;
  xxdk_GetDefaultCMixParams := tt;
  xxdk_LoadCmix := load_cmix;
  xxdk_LoadReceptionIdentity := load_identity;
  xxdk_MakeReceptionIdentity := make_identity;
  xxdk_StoreReceptionIdentity := store_identity;
  xxdk_GetDefaultE2EParams := tt;
  xxdk_Login := fun _ i _ w => ((i, None), w);
  ReceptionIdentity_GetContact := fun i => i;
  ReceptionIdentity_ID := fun i => i;
  ReceptionIdentity_DHKeyPrivate := fun _ => Some [];
  Contact_Marshal := fun c => Some (repeat x2a c);
  Contact_ID := fun c => c;
  E2e_GetReceptionIdentity := fun i => i;
  E2e_GetE2E := fun _ => tt;
  e2e_Handler_GetGroup := fun _ => tt;
  E2e_GetCmix := fun _ => tt;
  Cmix_GetCmix := fun _ => tt;
  E2EParams_Base := fun _ => tt;
  cyclic_Int_UnmarshalJSON := fun _ => (tt, None);
  dhPrivateKey := tt;
  single_NewServer := new_server;
  E2e_StartNetworkFollower := start_follower (A:=nat);
  Cmix_StartNetworkFollower := start_follower (A:=unit);
  cmix_Client_AddHealthCallback := fun _ w => w;
  contact_Unmarshal := fun b => (length (bytes_of b), None);
  connect_Connect := fun _ _ _ w => ((tt, None), w);
  catalog_NoType := 0;
  catalog_XxMessage := 2;
  Connection_RegisterListener := fun _ _ _ w => (None, w);
  Connection_SendE2E := send
|}.

(** Nothing on disk, the remote definition verifies. *)
Definition fresh : world := {|
  files := [("../mainnet.crt", [x2d; x2d])];
  dirs := [];
  identities := [];
  remote_ndf := Some [x7b; x7d];
  store_fails := false;
  follower_fails := false;
  send_fails := false;
  servers := 0
|}.

(** State and identity exist; the peer's contact file is in place. *)
Definition returning : world := {|
  files := [("server-contact.json", [x2a; x2a; x2a]);
            ("restlikeServer.xxc", [x6f; x6c; x64])];
  dirs := ["statePath"];
  identities := [("identityStorageKey", 5)];
  remote_ndf := None;
  store_fails := false;
  follower_fails := false;
  send_fails := false;
  servers := 0
|}.

(** A cached definition next to an absent state. *)
Definition cached : world := {|
  files := [("ndf.json", [x7b; x7d])];
  dirs := [];
  identities := [];
  remote_ndf := None;
  store_fails := false;
  follower_fails := false;
  send_fails := false;
  servers := 0
|}.

(** Nothing on disk but the certificate; what the remote serves does not
    verify. *)
Definition unverifiable : world := {|
  files := [("../mainnet.crt", [x2d; x2d])];
  dirs := [];
  identities := [];
  remote_ndf := None;
  store_fails := false;
  follower_fails := false;
  send_fails := false;
  servers := 0
|}.

Definition with_follower_failure (w : world) : world := {|
  files := files w; dirs := dirs w; identities := identities w;
  remote_ndf := remote_ndf w; store_fails := store_fails w;
  follower_fails := true; send_fails := send_fails w; servers := servers w
|}.

Definition with_send_failure (w : world) : world := {|
  files := files w; dirs := dirs w; identities := identities w;
  remote_ndf := remote_ndf w; store_fails := store_fails w;
  follower_fails := follower_fails w; send_fails := true; servers := servers w
|}.

Definition with_store_failure (w : world) : world := {|
  files := files w; dirs := dirs w; identities := identities w;
  remote_ndf := remote_ndf w; store_fails := true;
  follower_fails := follower_fails w; send_fails := send_fails w;
  servers := servers w
|}.

End Toy.

(** ** More classes of events *)

Section MoreEvents.

Context {env : Env}.

Definition is_Stat (e : Event) : bool :=
  match e with Called (call_os_Stat _) _ => true | _ => false end.

Definition is_LoadCmix (e : Event) : bool :=
  match e with Called (call_xxdk_LoadCmix _ _) _ => true | _ => false end.

Definition is_UnmarshalJSON (e : Event) : bool :=
  match e with
  | Called (call_cyclic_Int_UnmarshalJSON _) _ => true
  | _ => false
  end.

Definition is_contact_Unmarshal (e : Event) : bool :=
  match e with Called (call_contact_Unmarshal _) _ => true | _ => false end.


(** A call of [xxdk.Login] that returned no error. *)
Definition is_Login_ok (e : Event) : bool :=
  match e with
  | Called (call_xxdk_Login _ _) (returned_E2e _ None) => true
  | _ => false
  end.

(** Anything a program does once it is logged in. *)
Definition is_after_login_step (e : Event) : bool :=
  is_WriteFile e || is_UnmarshalJSON e || is_connectivity_step e
  || is_post_connect_action e || is_contact_Unmarshal e.

(** The kinds of library calls, the reads told apart by their path. *)
Definition call_kinds (p : Program) : list (Event -> bool) :=
  [is_Stat; is_ReadFile_of (ndfPath_of p);
   is_ReadFile_of (certificatePath_of p);
   is_ReadFile_of Sender.serverContactPath; is_Download; is_NewCmix;
   is_LoadCmix; is_LoadReceptionIdentity; is_MakeReceptionIdentity;
   is_StoreReceptionIdentity; is_Login; is_UnmarshalJSON;
   is_NewServer; is_StartNetworkFollower; is_AddHealthCallback;
   is_contact_Unmarshal; is_Connect; is_RegisterListener; is_SendE2E].

End MoreEvents.

(** ** A world of planned failures

    The world holds nothing; every call that can return an error returns
    one exactly when its name is on the list.  It serves to run the
    programs into each of their error checks. *)
Module Faulty.

Definition failing (fails : list string) (name : string) : option error :=
  if existsb (String.eqb name) fails then Some (errors_New name) else None.

Definition env (fails : list string) : Env := {|
  World := unit;
  Cmix := nat;
  E2e := nat;
  ReceptionIdentity := nat;
  Contact := nat;
  ID := nat;
  cmix_Client := nat;
  e2e_Handler := nat;
  cyclic_Int := nat;
  cyclic_Group := nat;
  CMIXParams := unit;
  E2EParams := unit;
  E2EBaseParams := unit;
  Connection := nat;
  MessageID := nat;
  RoundID := nat;
  Time := nat;
  MessageType := nat;
  initLog := fun _ _ w => w;
  os_Stat := fun _ w =>
    (match failing fails "os.Stat" with
     | Some _ => Some fs_ErrNotExist
     | None => None
     end, w);
  ioutil_ReadFile := fun name w =>
    (match failing fails ("ioutil.ReadFile " ++ name) with
     | Some e => (None, Some e)
     | None => (Some [x2a; x2a], None)
     end, w);
  ioutil_WriteFile := fun _ _ w => (failing fails "ioutil.WriteFile", w);
  xxdk_DownloadAndVerifySignedNdfWithUrl := fun _ _ w =>
    (match failing fails "xxdk.DownloadAndVerifySignedNdfWithUrl" with
     | Some e => (None, Some e)
     | None => (Some [x7b; x7d], None)
     end, w);
  xxdk_NewCmix := fun _ _ _ _ w => (failing fails "xxdk.NewCmix", w);
  xxdk_GetDefaultCMixParams := tt;
  xxdk_LoadCmix := fun _ _ _ w => ((1, failing fails "xxdk.LoadCmix"), w);
  xxdk_LoadReceptionIdentity := fun _ _ w =>
    (match failing fails "xxdk.LoadReceptionIdentity" with
     | Some e => (0, Some e)
     | None => (2, None)
     end, w);
  xxdk_MakeReceptionIdentity := fun _ w =>
    ((3, failing fails "xxdk.MakeReceptionIdentity"), w);
  xxdk_StoreReceptionIdentity := fun _ _ _ w =>
    (failing fails "xxdk.StoreReceptionIdentity", w);
  xxdk_GetDefaultE2EParams := tt;
  xxdk_Login := fun _ i _ w => ((10 + i, failing fails "xxdk.Login"), w);
  ReceptionIdentity_GetContact := fun i => i;
  ReceptionIdentity_ID := fun i => i;
  ReceptionIdentity_DHKeyPrivate := fun _ => Some [x31];
  Contact_Marshal := fun c => Some (repeat x2a c);
  Contact_ID := fun c => c;
  E2e_GetReceptionIdentity := fun u => u - 10;
  E2e_GetE2E := fun u => u;
  e2e_Handler_GetGroup := fun _ => 4;
  E2e_GetCmix := fun u => u;
  Cmix_GetCmix := fun n => n;
  E2EParams_Base := fun _ => tt;
  cyclic_Int_UnmarshalJSON := fun _ =>
    (5, failing fails "cyclic.Int.UnmarshalJSON");
  dhPrivateKey := 6;
  single_NewServer := fun _ _ _ _ w => w;
  E2e_StartNetworkFollower := fun _ _ w =>
    (failing fails "StartNetworkFollower", w);
  Cmix_StartNetworkFollower := fun _ _ w =>
    (failing fails "StartNetworkFollower", w);
  cmix_Client_AddHealthCallback := fun _ w => w;
  contact_Unmarshal := fun b =>
    (length (Toy.bytes_of b), failing fails "contact.Unmarshal");
  connect_Connect := fun _ _ _ w => ((7, failing fails "connect.Connect"), w);
  catalog_NoType := 0;
  catalog_XxMessage := 2;
  Connection_RegisterListener := fun _ _ _ w =>
    (failing fails "RegisterListener", w);
  Connection_SendE2E := fun _ _ _ _ w =>
    (match failing fails "SendE2E" with
     | Some e => (([], 0, 0), Some e)
     | None => (([8], 9, 11), None)
     end, w)
|}.

End Faulty.

(** * Verification *)

Unset Implicit Arguments.

(** ** Tactics *)

Ltac unfold_calls :=
  unfold writeContact in *;
  unfold do_initLog, do_os_Stat, do_ioutil_ReadFile, do_ioutil_WriteFile,
    do_xxdk_DownloadAndVerifySignedNdfWithUrl, do_xxdk_NewCmix,
    do_xxdk_LoadCmix, do_xxdk_LoadReceptionIdentity,
    do_xxdk_MakeReceptionIdentity, do_xxdk_StoreReceptionIdentity,
    do_xxdk_Login, do_cyclic_Int_UnmarshalJSON, do_single_NewServer,
    do_E2e_StartNetworkFollower, do_Cmix_StartNetworkFollower,
    do_AddHealthCallback, do_contact_Unmarshal, do_connect_Connect,
    do_RegisterListener, do_SendE2E, info_if_err,
    printf_if_err, fatal_if_err, jww_INFO_Printf, fmt_Printf_err,
    jww_FATAL_Panicf, select_block, call, call_unit, call_pure, pair_with,
    is_nil, bind, ret in *.

(** Case analysis on the innermost scrutinee the goal is stuck on: the
    outcome of the next call. *)
Ltac step :=
  match goal with
  | |- context [match ?x with _ => _ end] =>
      match x with
      | context [match _ with _ => _ end] => fail 1
      | _ => destruct x eqn:?
      end
  end; cbn [fst snd app].

(** All the paths through a piece of program. *)
Ltac walk := unfold_calls; cbn [fst snd app]; repeat step.

(** An event of one part of a program is not of the kind in question:
    goals [forall e, V e = true -> K e = false]. *)
Ltac disjoint :=
  let e := fresh "e" in
  let H := fresh "H" in
  intros e H;
  destruct e as [[] ?|[]|? ?|? ?];
  cbn in H |- *; try discriminate H; try reflexivity;
  repeat match goal with
         | H : (_ || _) = true |- _ => apply orb_true_iff in H; destruct H
         | H : String.eqb _ _ = true |- _ => apply String.eqb_eq in H; subst
         end;
  reflexivity.

(** Where an event of the trace can be: case analysis on [H : In e t],
    through the concatenations and the explicit events of [t], dropping the
    events that visibly differ from [e]. *)
Ltac in_cases H :=
  lazymatch type of H with
  | In _ (_ ++ _) =>
      apply in_app_or in H; destruct H as [H|H]; in_cases H
  | In _ (_ :: _) =>
      destruct H as [H|H]; [try discriminate H | in_cases H]
  | In _ [] => destruct H
  | _ => idtac
  end.

(** An event cannot be in a part of the trace whose events are all of
    another kind. *)
Ltac not_there H :=
  match type of H with
  | In _ ?t =>
      match goal with
      | Hv : forallb _ t = true |- _ =>
          let Hc := fresh "Hc" in
          pose proof (proj1 (forallb_forall _ _) Hv _ H) as Hc;
          cbn in Hc; discriminate Hc
      end
  end.

(** ** Lists of events *)

Section Traces.

Context {env : Env}.

Lemma existsb_false_of_forallb (V K : Event -> bool) (t : list Event) :
  forallb V t = true ->
  (forall e, V e = true -> K e = false) ->
  existsb K t = false.
Proof.
  intros HV HK. induction t as [|e t IH]; cbn in *; [reflexivity|].
  apply andb_true_iff in HV as [He Ht].
  rewrite (HK e He), (IH Ht). reflexivity.
Qed.

Lemma forallb_impl (V V' : Event -> bool) (t : list Event) :
  (forall e, V e = true -> V' e = true) ->
  forallb V t = true -> forallb V' t = true.
Proof.
  intros HVV HV. rewrite forallb_forall in *. auto.
Qed.

Lemma wait_event_in_server_after_login (e : Event) :
  is_wait_event e = true -> in_server_after_login e = true.
Proof.
  destruct e as [c r| [] | f [?|] | f e0]; cbn; intros H;
    try discriminate; reflexivity.
Qed.

Lemma wait_event_in_sender_after_login (p : string) (e : Event) :
  is_wait_event e = true -> in_sender_after_login p e = true.
Proof.
  destruct e as [c r| [] | f [?|] | f e0]; cbn; intros H;
    try discriminate; reflexivity.
Qed.

Lemma count_app (K : Event -> bool) (t1 t2 : list Event) :
  count K (t1 ++ t2) = count K t1 + count K t2.
Proof. unfold count. rewrite filter_app, length_app. reflexivity. Qed.

Lemma count_cons (K : Event -> bool) (e : Event) (t : list Event) :
  count K (e :: t) = (if K e then 1 else 0) + count K t.
Proof. unfold count. cbn. destruct (K e); reflexivity. Qed.

Lemma ends_with_itself (suffix : list Event) :
  exists pre, suffix = pre ++ suffix.
Proof. exists []. reflexivity. Qed.

Lemma ends_with_cons (e : Event) (t suffix : list Event) :
  (exists pre, t = pre ++ suffix) -> exists pre, e :: t = pre ++ suffix.
Proof. intros [pre ->]. exists (e :: pre). reflexivity. Qed.

Lemma ends_with_app (t0 t suffix : list Event) :
  (exists pre, t = pre ++ suffix) -> exists pre, t0 ++ t = pre ++ suffix.
Proof. intros [pre ->]. exists (t0 ++ pre). apply app_assoc. Qed.

Lemma count_zero (K : Event -> bool) (t : list Event) :
  existsb K t = false -> count K t = 0.
Proof.
  unfold count. induction t as [|e t IH]; cbn; [reflexivity|].
  intros H. apply orb_false_iff in H as [He Ht]. rewrite He. auto.
Qed.

Lemma preceded_by_b_seen (P Q : Event -> bool) (t : list Event) :
  preceded_by_b P Q true t = true.
Proof. induction t as [|e t IH]; cbn; [|destruct (Q e)]; auto. Qed.

Lemma preceded_by_b_app (P Q : Event -> bool) (t1 t2 : list Event) :
  forall seen,
    preceded_by_b P Q seen (t1 ++ t2) =
    preceded_by_b P Q seen t1 && preceded_by_b P Q (seen || existsb P t1) t2.
Proof.
  induction t1 as [|e t1 IH]; intros seen; cbn.
  - rewrite orb_false_r. reflexivity.
  - rewrite IH, orb_assoc, andb_assoc. reflexivity.
Qed.

Lemma preceded_by_b_absent (P Q : Event -> bool) (t : list Event) :
  existsb Q t = false -> forall seen, preceded_by_b P Q seen t = true.
Proof.
  induction t as [|e t IH]; cbn; intros H seen; [reflexivity|].
  apply orb_false_iff in H as [He Ht]. rewrite He, (IH Ht). reflexivity.
Qed.

Lemma preceded_by_b_prefix (P Q : Event -> bool) (t : list Event) :
  forall seen pre e post,
    preceded_by_b P Q seen t = true ->
    t = pre ++ e :: post -> Q e = true ->
    seen || existsb P pre = true.
Proof.
  induction t as [|x t IH]; intros seen pre e post Hb Ht HQ.
  - destruct pre; discriminate.
  - cbn in Hb. apply andb_true_iff in Hb as [Hx Hrest].
    destruct pre as [|y pre]; cbn in Ht; injection Ht as -> ->.
    + rewrite HQ in Hx. rewrite Hx. reflexivity.
    + cbn. rewrite orb_assoc. eapply IH; eauto.
Qed.

Lemma preceded_by_b_sound (P Q : Event -> bool) (t : list Event) :
  preceded_by_b P Q false t = true -> preceded_by P Q t.
Proof.
  intros Hb pre e post Ht HQ.
  change (false || existsb P pre = true).
  eapply preceded_by_b_prefix; eauto.
Qed.

Lemma preceded_by_b_mono (P Q : Event -> bool) (t : list Event) :
  forall seen seen',
    (seen = true -> seen' = true) ->
    preceded_by_b P Q seen t = true -> preceded_by_b P Q seen' t = true.
Proof.
  induction t as [|e t IH]; cbn; intros seen seen' Himp H; [reflexivity|].
  apply andb_true_iff in H as [He Ht]. apply andb_true_iff. split.
  - destruct (Q e); auto.
  - apply (IH (seen || P e)); [|exact Ht].
    intros Hs. apply orb_true_iff in Hs as [Hs|Hs].
    + rewrite (Himp Hs). reflexivity.
    + rewrite Hs. apply orb_true_r.
Qed.

Lemma preceded_by_b_complete (P Q : Event -> bool) (t : list Event) :
  forall seen,
    (forall pre e post,
        t = pre ++ e :: post -> Q e = true -> seen || existsb P pre = true) ->
    preceded_by_b P Q seen t = true.
Proof.
  induction t as [|x t IH]; cbn; intros seen H; [reflexivity|].
  apply andb_true_iff. split.
  - destruct (Q x) eqn:HQ; [|reflexivity].
    specialize (H [] x t eq_refl HQ). cbn in H.
    rewrite orb_false_r in H. exact H.
  - apply IH. intros pre e post Ht HQ.
    specialize (H (x :: pre) e post). cbn in H.
    rewrite orb_assoc in H. apply H; [rewrite Ht; reflexivity | exact HQ].
Qed.

Lemma preceded_by_decide (P Q : Event -> bool) (t : list Event) :
  preceded_by P Q t -> preceded_by_b P Q false t = true.
Proof.
  intros H. apply preceded_by_b_complete.
  intros pre e post Ht HQ. cbn. eapply H; eauto.
Qed.

End Traces.

(** An event is in the trace: goals [In e t] where [e] is one of the
    explicit events of [t]. *)
Ltac in_trace :=
  repeat first [ apply in_eq
               | apply in_cons
               | (apply in_or_app; right) ].

(** A trace ends with the given events: goals
    [exists pre, t = pre ++ suffix]. *)
Ltac ends_with :=
  repeat first [ apply ends_with_itself
               | apply ends_with_cons
               | apply ends_with_app ].

(** ** The wait loop *)

Section Wait.

Context {env : Env}.

Lemma waitUntilConnected_loop_spec (connected : list SelectCase) (w : World) :
  forall r s t,
    waitUntilConnected_loop connected w = (r, s, t) ->
    forallb is_wait_event t = true /\
    fst s = w /\
    match r with
    | inl _ => existsb is_connected t = true /\ existsb is_fatal t = false
    | inr e =>
        e = Panicf "Timeout on starting network follower" None /\
        existsb is_connected t = false
    end.
Proof.
  induction connected as [|c rest IH]; intros r s t H; cbn in H.
  - injection H as <- <- <-. cbn. auto.
  - destruct c as [[|]|].
    + injection H as <- <- <-. cbn. auto.
    + destruct (waitUntilConnected_loop rest w) as [[r' s'] t'] eqn:Hrest.
      injection H as <- <- <-.
      destruct (IH _ _ _ eq_refl) as (Hv & Hw & Hr).
      cbn. repeat split; auto.
    + injection H as <- <- <-. cbn. auto.
Qed.

Lemma waitUntilConnected_spec (s0 : State) :
  forall r s t,
    waitUntilConnected s0 = (r, s, t) ->
    forallb is_wait_event t = true /\
    fst s = fst s0 /\
    match r with
    | inl _ => existsb is_connected t = true /\ existsb is_fatal t = false
    | inr e =>
        e = Panicf "Timeout on starting network follower" None /\
        existsb is_connected t = false
    end.
Proof. intros r s t H. exact (waitUntilConnected_loop_spec _ _ _ _ _ H). Qed.

End Wait.

(** ** What each part leaves in the trace *)

Section Vocabulary.

Context {env : Env}.

Variables (statePath statePass : string).
Variables (ndfURL certificatePath ndfPath : string).
Variable (identityStorageKey : string).

Lemma create_client_object_events (s : State) :
  forallb (in_create_client_object ndfPath certificatePath)
    (trace_of
       (create_client_object statePath statePass ndfURL certificatePath
          ndfPath s)) = true.
Proof.
  unfold create_client_object, trace_of. walk.
  all: cbn [snd forallb in_create_client_object andb].
  all: rewrite ?String.eqb_refl, ?orb_true_r; reflexivity.
Qed.

Lemma login_to_client_session_events (s : State) :
  forallb in_login_to_client_session
    (trace_of (login_to_client_session statePath statePass identityStorageKey s))
  = true.
Proof.
  unfold login_to_client_session, trace_of. walk.
  all: reflexivity.
Qed.

Lemma create_client_object_run_events (s : State) r s1 tc :
  create_client_object statePath statePass ndfURL certificatePath ndfPath s
  = (r, s1, tc) ->
  forallb (in_create_client_object ndfPath certificatePath) tc = true.
Proof.
  intros H. pose proof (create_client_object_events s) as Hv.
  rewrite H in Hv. exact Hv.
Qed.

Lemma login_to_client_session_run_events (s : State) r s1 tl :
  login_to_client_session statePath statePass identityStorageKey s
  = (r, s1, tl) ->
  forallb in_login_to_client_session tl = true.
Proof.
  intros H. pose proof (login_to_client_session_events s) as Hv.
  rewrite H in Hv. exact Hv.
Qed.

(** A stage that hands over to the next one has not panicked. *)
Lemma create_client_object_returns (s : State) u s1 tc :
  create_client_object statePath statePass ndfURL certificatePath ndfPath s
  = (inl u, s1, tc) ->
  existsb is_fatal tc = false.
Proof.
  unfold create_client_object. walk.
  all: intros H; try discriminate H.
  all: injection H as <- <- <-; reflexivity.
Qed.

Lemma login_to_client_session_returns (s : State) x s1 tl :
  login_to_client_session statePath statePass identityStorageKey s
  = (inl x, s1, tl) ->
  existsb is_fatal tl = false.
Proof.
  unfold login_to_client_session. walk.
  all: intros H; try discriminate H.
  all: injection H as <- <- <-; reflexivity.
Qed.

End Vocabulary.

Section Vocabulary_after_login.

Context {env : Env}.

Lemma Server_after_login_events x (s : State) :
  forallb in_server_after_login (trace_of (Server.after_login x s)) = true.
Proof.
  destruct x as [[baseClient identity] e2eClient].
  unfold Server.after_login, Server.save_contact_file,
    Server.start_single_use_server, Server.start_network_threads,
    waitUntilConnected, trace_of.
  walk.
  all: cbn [snd forallb in_server_after_login andb app]; try reflexivity.
  all: rewrite ?forallb_app; cbn [forallb in_server_after_login andb];
       rewrite ?andb_true_r.
  all: match goal with
       | H : waitUntilConnected_loop _ _ = _ |- _ =>
           apply waitUntilConnected_loop_spec in H as (Hv & _ & _)
       end.
  all: exact (forallb_impl _ _ _ wait_event_in_server_after_login Hv).
Qed.

Lemma Sender_after_login_events x (s : State) :
  forallb (in_sender_after_login Sender.serverContactPath)
    (trace_of (Sender.after_login x s)) = true.
Proof.
  destruct x as [[baseClient identity] e2eClient].
  unfold Sender.after_login, Sender.start_network_threads,
    Sender.connect_with_server, Sender.register_listener,
    Sender.send_message, waitUntilConnected, trace_of.
  walk.
  all: cbn [snd forallb in_sender_after_login andb app]; try reflexivity.
  all: rewrite ?forallb_app; cbn [forallb in_sender_after_login andb];
       rewrite ?String.eqb_refl, ?andb_true_r.
  all: match goal with
       | H : waitUntilConnected_loop _ _ = _ |- _ =>
           apply waitUntilConnected_loop_spec in H as (Hv & _ & _)
       end.
  all: exact (forallb_impl _ _ _
                (wait_event_in_sender_after_login Sender.serverContactPath) Hv).
Qed.

Lemma Server_after_login_run_events x (s : State) r s' ta :
  Server.after_login x s = (r, s', ta) ->
  forallb in_server_after_login ta = true.
Proof.
  intros H. pose proof (Server_after_login_events x s) as Hv.
  rewrite H in Hv. exact Hv.
Qed.

Lemma Sender_after_login_run_events x (s : State) r s' ta :
  Sender.after_login x s = (r, s', ta) ->
  forallb (in_sender_after_login Sender.serverContactPath) ta = true.
Proof.
  intros H. pose proof (Sender_after_login_events x s) as Hv.
  rewrite H in Hv. exact Hv.
Qed.

End Vocabulary_after_login.

(** The kinds of events of the stages of a run, from the equations of
    [anatomy]. *)
Ltac stage_events :=
  repeat match goal with
         | H : create_client_object _ _ _ _ _ _ = (_, _, ?t) |- _ =>
             lazymatch goal with
             | _ : forallb _ t = true |- _ => fail
             | _ =>
                 let V := fresh "Vc" in
                 pose proof H as V;
                 apply create_client_object_run_events in V
             end
         | H : login_to_client_session _ _ _ _ = (_, _, ?t) |- _ =>
             lazymatch goal with
             | _ : forallb _ t = true |- _ => fail
             | _ =>
                 let V := fresh "Vl" in
                 pose proof H as V;
                 apply login_to_client_session_run_events in V
             end
         | H : Server.after_login _ _ = (_, _, ?t) |- _ =>
             lazymatch goal with
             | _ : forallb _ t = true |- _ => fail
             | _ =>
                 let V := fresh "Va" in
                 pose proof H as V;
                 apply Server_after_login_run_events in V
             end
         | H : Sender.after_login _ _ = (_, _, ?t) |- _ =>
             lazymatch goal with
             | _ : forallb _ t = true |- _ => fail
             | _ =>
                 let V := fresh "Va" in
                 pose proof H as V;
                 apply Sender_after_login_run_events in V
             end
         end.

(** The three shapes of a run of [main]. *)
Ltac anatomy_of A :=
  destruct A
    as [e0 s1 tc Ec | u0 s1 tc e0 s2 tl Ec El
       | u0 s1 tc x s2 tl r s3 ta Ec El Ea];
  cbn [trace_of result_of world_of fst snd];
  stage_events.

(** ** The anatomy of a run *)

Section Anatomy.

Context {env : Env}.

Lemma anatomy_of_program
    (statePath statePass ndfURL certificatePath ndfPath : string)
    (identityStorageKey : string)
    (after : Cmix * ReceptionIdentity * E2e -> M unit)
    (w : World) (sched : list SelectCase) :
  anatomy statePath statePass ndfURL certificatePath ndfPath
    identityStorageKey after w sched
    ((do_initLog 1 "client.log" ;;
      create_client_object statePath statePass ndfURL certificatePath ndfPath ;;
      x <- login_to_client_session statePath statePass identityStorageKey ;;
      after x) (w, sched)).
Proof.
  unfold bind at 1. unfold do_initLog, call_unit. cbn [fst snd].
  unfold bind at 1.
  destruct (create_client_object _ _ _ _ _ _) as [[[u|e] s1] tc] eqn:Hc.
  - unfold bind at 1.
    destruct (login_to_client_session _ _ _ s1) as [[[x|e] s2] tl] eqn:Hl.
    + destruct (after x s2) as [[r s3] ta] eqn:Ha.
      cbn [app]. eapply run_logged_in; eauto.
    + cbn [app]. eapply run_stops_logging_in; eauto.
  - cbn [app]. eapply run_stops_creating; eauto.
Qed.

Lemma Server_main_anatomy (w : World) (sched : list SelectCase) :
  anatomy Server.statePath Server.statePass Server.ndfURL
    Server.certificatePath Server.ndfPath Server.identityStorageKey
    Server.after_login w sched (Server.main (w, sched)).
Proof. exact (anatomy_of_program _ _ _ _ _ _ Server.after_login w sched). Qed.

Lemma Sender_main_anatomy (w : World) (sched : list SelectCase) :
  anatomy Sender.statePath Sender.statePass Sender.ndfURL
    Sender.certificatePath Sender.ndfPath Sender.identityStorageKey
    Sender.after_login w sched (Sender.main (w, sched)).
Proof. exact (anatomy_of_program _ _ _ _ _ _ Sender.after_login w sched). Qed.

Lemma main_anatomy (p : Program) (w : World) (sched : list SelectCase) :
  anatomy (statePath_of p) (statePass_of p) (ndfURL_of p)
    (certificatePath_of p) (ndfPath_of p) (identityStorageKey_of p)
    (after_login_of p) w sched (main_of p (w, sched)).
Proof.
  destruct p; [apply Server_main_anatomy | apply Sender_main_anatomy].
Qed.

End Anatomy.

(** ** The connectivity gate *)

Section Gate.

Context {env : Env}.

(** C1.  Whatever number of [false] values is dequeued first, the wait
    goes on; at the first [true] it returns successfully, at once: nothing
    more is taken from the channel, each dequeued value has been logged and
    no panic has been raised.  [false] then [true] is the case [n = 1]. *)
Theorem waitUntilConnected_returns_at_first_true
    (w : World) (n : nat) (rest : list SelectCase) :
  waitUntilConnected
    (w, repeat (recv_connected false) n ++ recv_connected true :: rest)
  = (inl tt, (w, rest),
     repeat (jww_INFO (log_Network_Status false)) n
       ++ [jww_INFO (log_Network_Status true)]).
Proof.
  unfold waitUntilConnected. cbn [fst snd].
  induction n as [|n IH]; cbn [repeat app waitUntilConnected_loop].
  - reflexivity.
  - rewrite IH. reflexivity.
Qed.

End Gate.

(** ** Order of the post-connect action and the gate *)

Section Order.

Context {env : Env}.

Lemma anatomy_preceded_by (P Q : Event -> bool)
    (statePath statePass ndfURL certificatePath ndfPath : string)
    (identityStorageKey : string)
    (after : Cmix * ReceptionIdentity * E2e -> M unit)
    (w : World) (sched : list SelectCase) (run : Run unit) :
  (forall e, in_create_client_object ndfPath certificatePath e = true ->
             Q e = false) ->
  (forall e, in_login_to_client_session e = true -> Q e = false) ->
  Q (Called (call_initLog 1 "client.log") returned) = false ->
  (forall x s, preceded_by_b P Q false (trace_of (after x s)) = true) ->
  anatomy statePath statePass ndfURL certificatePath ndfPath
    identityStorageKey after w sched run ->
  preceded_by P Q (trace_of run).
Proof.
  intros Hc Hl H0 Ha Hrun. apply preceded_by_b_sound.
  destruct Hrun as [e s1 tc Ec | u s1 tc e s2 tl Ec El
                   | u s1 tc x s2 tl r s3 ta Ec El Ea];
    cbn [trace_of snd preceded_by_b]; rewrite H0; cbn [andb];
    rewrite ?preceded_by_b_app;
    apply create_client_object_run_events in Ec;
    try apply login_to_client_session_run_events in El;
    repeat (apply andb_true_iff; split).
  - apply preceded_by_b_absent. eapply existsb_false_of_forallb; eauto.
  - apply preceded_by_b_absent. eapply existsb_false_of_forallb; eauto.
  - apply preceded_by_b_absent. eapply existsb_false_of_forallb; eauto.
  - apply preceded_by_b_absent. eapply existsb_false_of_forallb; eauto.
  - apply preceded_by_b_absent. eapply existsb_false_of_forallb; eauto.
  - specialize (Ha x s2). rewrite Ea in Ha. cbn [trace_of snd] in Ha.
    eapply preceded_by_b_mono; [|exact Ha]. discriminate.
Qed.

Lemma Sender_after_login_gated x (s : State) :
  preceded_by_b is_connected is_post_connect_action false
    (trace_of (Sender.after_login x s)) = true.
Proof.
  destruct x as [[baseClient identity] e2eClient].
  unfold Sender.after_login, Sender.start_network_threads,
    Sender.connect_with_server, Sender.register_listener,
    Sender.send_message, waitUntilConnected, trace_of.
  walk.
  all: match goal with
       | H : waitUntilConnected_loop _ _ = _ |- _ =>
           apply waitUntilConnected_loop_spec in H as (Hv & _ & Hr)
       end.
  all: cbn [snd preceded_by_b is_connected is_post_connect_action is_NewServer
              is_Connect is_RegisterListener is_SendE2E orb andb].
  all: rewrite ?preceded_by_b_app.
  all: match type of Hv with
       | forallb _ ?t = true =>
           assert (Hq : existsb is_post_connect_action t = false)
             by (eapply existsb_false_of_forallb; [exact Hv | disjoint])
       end.
  all: rewrite (preceded_by_b_absent is_connected _ _ Hq).
  all: cbn [andb orb]; try reflexivity.
  all: destruct Hr as [Hr _]; rewrite Hr; apply preceded_by_b_seen.
Qed.

Lemma Server_after_login_ordered x (s : State) :
  preceded_by_b is_NewServer is_connectivity_step false
    (trace_of (Server.after_login x s)) = true.
Proof.
  destruct x as [[baseClient identity] e2eClient].
  unfold Server.after_login, Server.save_contact_file,
    Server.start_single_use_server, Server.start_network_threads,
    waitUntilConnected, trace_of.
  walk.
  all: cbn [snd preceded_by_b is_NewServer is_connectivity_step
              is_StartNetworkFollower is_AddHealthCallback is_Network_Status
              orb andb]; try reflexivity.
  all: apply preceded_by_b_seen.
Qed.

(** C2, as the code has it.  In the sender, every step of the
    post-connect action (connecting, registering the listener, sending)
    comes after the gate has dequeued a [true].  In the server it is the
    other way round: the single-use server is constructed first, and every
    step of the connectivity stage (starting the follower, subscribing to
    health changes, dequeuing a health value) comes after it. *)
Theorem post_connect_action_order (w : World) (sched : list SelectCase) :
  preceded_by is_connected is_post_connect_action
    (trace_of (Sender.main (w, sched))) /\
  preceded_by is_NewServer is_connectivity_step
    (trace_of (Server.main (w, sched))).
Proof.
  split.
  - eapply anatomy_preceded_by;
      [disjoint | disjoint | reflexivity | exact Sender_after_login_gated
      | apply Sender_main_anatomy].
  - eapply anatomy_preceded_by;
      [disjoint | disjoint | reflexivity | exact Server_after_login_ordered
      | apply Server_main_anatomy].
Qed.

End Order.

(** ** Failure to start the network follower *)

Section Follower.

Context {env : Env}.

Lemma Server_after_login_follower_error x (s : State) r s' ta u d e :
  Server.after_login x s = (r, s', ta) ->
  In (Called (call_E2e_StartNetworkFollower u d) (returned_err (Some e))) ta ->
  r = inr (Panicf "Failed to start network follower: %+v" (Some e)) /\
  existsb is_AddHealthCallback ta = false /\
  existsb is_Network_Status ta = false.
Proof.
  destruct x as [[baseClient identity] e2eClient].
  unfold Server.after_login, Server.save_contact_file,
    Server.start_single_use_server, Server.start_network_threads,
    waitUntilConnected.
  walk.
  all: intros H Hin; injection H as <- <- <-.
  all: try match goal with
         | H : waitUntilConnected_loop _ _ = _ |- _ =>
             apply waitUntilConnected_loop_spec in H as (Hv & _ & _)
         end.
  all: in_cases Hin; try not_there Hin.
  all: injection Hin as <- <- <-; auto.
Qed.

(** In the server a follower that fails to start is fatal: the process
    panics before it subscribes to health changes or waits. *)
Lemma Server_follower_error_is_fatal
    (w : World) (sched : list SelectCase) u d e :
  In (Called (call_E2e_StartNetworkFollower u d) (returned_err (Some e)))
     (trace_of (Server.main (w, sched))) ->
  result_of (Server.main (w, sched))
  = inr (Panicf "Failed to start network follower: %+v" (Some e)) /\
  existsb is_AddHealthCallback (trace_of (Server.main (w, sched))) = false /\
  existsb is_Network_Status (trace_of (Server.main (w, sched))) = false.
Proof.
  anatomy_of (Server_main_anatomy w sched); intros Hin;
    in_cases Hin; try not_there Hin.
  destruct (Server_after_login_follower_error _ _ _ _ _ _ _ _ Ea Hin)
    as (Hr & Hh & Hn).
  split; [exact Hr|].
  cbn [existsb is_AddHealthCallback is_Network_Status orb].
  rewrite !existsb_app, Hh, Hn.
  rewrite (existsb_false_of_forallb _ is_AddHealthCallback _ Vc ltac:(disjoint)).
  rewrite (existsb_false_of_forallb _ is_AddHealthCallback _ Vl ltac:(disjoint)).
  rewrite (existsb_false_of_forallb _ is_Network_Status _ Vc ltac:(disjoint)).
  rewrite (existsb_false_of_forallb _ is_Network_Status _ Vl ltac:(disjoint)).
  auto.
Qed.

Lemma Sender_after_login_follower_error x (s : State) r s' ta net d e :
  Sender.after_login x s = (r, s', ta) ->
  In (Called (call_Cmix_StartNetworkFollower net d) (returned_err (Some e))) ta ->
  (exists post,
      ta = Called (call_Cmix_StartNetworkFollower net d) (returned_err (Some e))
           :: fmt_Printf "Failed to start network follower: %+v" e
           :: Called (call_AddHealthCallback (Cmix_GetCmix net)) returned
           :: post) /\
  r <> inr (Panicf "Failed to start network follower: %+v" (Some e)).
Proof.
  destruct x as [[baseClient identity] e2eClient].
  unfold Sender.after_login, Sender.start_network_threads,
    Sender.connect_with_server, Sender.register_listener,
    Sender.send_message, waitUntilConnected.
  walk.
  all: intros H Hin; injection H as <- <- <-.
  all: match goal with
       | H : waitUntilConnected_loop _ _ = _ |- _ =>
           apply waitUntilConnected_loop_spec in H as (Hv & _ & Hr)
       end.
  all: in_cases Hin; try not_there Hin.
  all: injection Hin as <- <- <-.
  all: split; [eexists; reflexivity|].
  all: try (intros Habs; discriminate Habs).
  all: destruct Hr as [-> _]; intros Habs; discriminate Habs.
Qed.

(** In the sender the same failure is only printed: the next steps are the
    subscription to health changes and the wait, and whatever stops the
    process later, it is not this error. *)
Lemma Sender_follower_error_is_only_printed
    (w : World) (sched : list SelectCase) net d e :
  In (Called (call_Cmix_StartNetworkFollower net d) (returned_err (Some e)))
     (trace_of (Sender.main (w, sched))) ->
  (exists pre post,
      trace_of (Sender.main (w, sched)) =
      pre ++ Called (call_Cmix_StartNetworkFollower net d)
               (returned_err (Some e))
          :: fmt_Printf "Failed to start network follower: %+v" e
          :: Called (call_AddHealthCallback (Cmix_GetCmix net)) returned
          :: post) /\
  result_of (Sender.main (w, sched))
  <> inr (Panicf "Failed to start network follower: %+v" (Some e)).
Proof.
  anatomy_of (Sender_main_anatomy w sched); intros Hin;
    in_cases Hin; try not_there Hin.
  destruct (Sender_after_login_follower_error _ _ _ _ _ _ _ _ Ea Hin)
    as ((post & Hta) & Hr).
  split; [|exact Hr].
  exists (Called (call_initLog 1 "client.log") returned :: tc ++ tl), post.
  rewrite Hta. cbn [app]. rewrite <- app_assoc. reflexivity.
Qed.

End Follower.

(** ** The programs do not return *)

Section NoReturn.

Context {env : Env}.

Lemma Server_after_login_does_not_return x (s : State) :
  result_of (Server.after_login x s) <> inl tt.
Proof.
  destruct x as [[baseClient identity] e2eClient].
  unfold Server.after_login, Server.save_contact_file,
    Server.start_single_use_server, Server.start_network_threads,
    waitUntilConnected, result_of.
  walk.
  all: cbn [fst]; intros Habs; discriminate Habs.
Qed.

Lemma Sender_after_login_does_not_return x (s : State) :
  result_of (Sender.after_login x s) <> inl tt.
Proof.
  destruct x as [[baseClient identity] e2eClient].
  unfold Sender.after_login, Sender.start_network_threads,
    Sender.connect_with_server, Sender.register_listener,
    Sender.send_message, waitUntilConnected, result_of.
  walk.
  all: cbn [fst]; intros Habs; discriminate Habs.
Qed.

(** A run ends in a panic or in the final [select {}]. *)
Lemma main_does_not_return (p : Program) (w : World) (sched : list SelectCase) :
  result_of (main_of p (w, sched)) <> inl tt.
Proof.
  pose proof Server_after_login_does_not_return as HS.
  pose proof Sender_after_login_does_not_return as HC.
  pose proof (main_anatomy p w sched) as A.
  destruct p;
    cbn [main_of after_login_of statePath_of statePass_of ndfURL_of
           certificatePath_of ndfPath_of identityStorageKey_of] in *;
    destruct A as [e0 s1 tc Ec | u0 s1 tc e0 s2 tl Ec El
                  | u0 s1 tc x s2 tl r s3 ta Ec El Ea];
    cbn [result_of fst]; try (intros Habs; discriminate Habs).
  - specialize (HS x s2). rewrite Ea in HS. exact HS.
  - specialize (HC x s2). rewrite Ea in HC. exact HC.
Qed.

End NoReturn.

(** ** The single outbound send *)

Section Send.

Context {env : Env}.

Lemma Sender_after_login_send_error x (s : State) r s' ta h mt p rs m t e :
  Sender.after_login x s = (r, s', ta) ->
  In (Called (call_SendE2E h mt p) (returned_send rs m t (Some e))) ta ->
  r = inr select_forever /\
  existsb is_fatal ta = false /\
  count is_SendE2E ta = 1 /\
  (exists c u,
      In (Called (call_connect_Connect c u) (returned_Connection h None)) ta) /\
  In (Called (call_RegisterListener h catalog_NoType "e2e Message Listener")
        (returned_err None)) ta /\
  exists pre,
    ta = pre ++ [Called (call_SendE2E h mt p) (returned_send rs m t (Some e));
                 fmt_Printf "Failed to send message: %+v" e;
                 jww_INFO (log_Message_sent m rs t)].
Proof.
  destruct x as [[baseClient identity] e2eClient].
  unfold Sender.after_login, Sender.start_network_threads,
    Sender.connect_with_server, Sender.register_listener,
    Sender.send_message, waitUntilConnected.
  walk.
  all: intros H Hin; injection H as <- <- <-.
  all: match goal with
       | H : waitUntilConnected_loop _ _ = _ |- _ =>
           apply waitUntilConnected_loop_spec in H as (Hv & _ & Hr)
       end.
  all: in_cases Hin; try not_there Hin.
  all: injection Hin as <- <- <- <- <- <- <-.
  all: destruct Hr as [_ Hf].
  all: assert (Hs : count is_SendE2E l = 0)
         by (apply count_zero;
             eapply existsb_false_of_forallb; [exact Hv | disjoint]).
  all: repeat split;
       [ cbn [existsb is_fatal orb]; rewrite existsb_app, Hf; reflexivity
       | rewrite ?count_cons, ?count_app, ?count_cons, Hs; reflexivity
       | do 2 eexists; in_trace
       | in_trace
       | ends_with ].
Qed.

(** C8.  In the sender, when the send on the established channel (the
    connection was made, the listener registered on it) returns an error,
    the error is printed and nothing else happens to the process: no panic
    is raised anywhere in the run, and the process ends up in the final
    [select {}], where it stays to receive. *)
Theorem send_failure_is_not_fatal
    (w : World) (sched : list SelectCase) h mt p rs m t e :
  In (Called (call_SendE2E h mt p) (returned_send rs m t (Some e)))
     (trace_of (Sender.main (w, sched))) ->
  result_of (Sender.main (w, sched)) = inr select_forever /\
  In (fmt_Printf "Failed to send message: %+v" e)
     (trace_of (Sender.main (w, sched))) /\
  existsb is_fatal (trace_of (Sender.main (w, sched))) = false /\
  (exists c u,
      In (Called (call_connect_Connect c u) (returned_Connection h None))
         (trace_of (Sender.main (w, sched)))) /\
  In (Called (call_RegisterListener h catalog_NoType "e2e Message Listener")
        (returned_err None))
     (trace_of (Sender.main (w, sched))).
Proof.
  anatomy_of (Sender_main_anatomy w sched); intros Hin;
    in_cases Hin; try not_there Hin.
  destruct (Sender_after_login_send_error _ _ _ _ _ _ _ _ _ _ _ _ Ea Hin)
    as (Hr & Hf & _ & (c & u & Hc) & Hl & (pre & Hta)).
  apply create_client_object_returns in Ec.
  apply login_to_client_session_returns in El.
  repeat split.
  - exact Hr.
  - rewrite Hta. in_trace.
  - cbn [existsb is_fatal orb]. rewrite !existsb_app, Ec, El, Hf. reflexivity.
  - exists c, u. in_trace. exact Hc.
  - in_trace. exact Hl.
Qed.

(** C10.  In the sender, when the send returns an error, the trace ends
    with the failed send, the printed error and the line "Message ... sent
    in RoundIDs: ... at ...", filled with the message id, round ids and
    time that the failed call returned; the send is called once in the
    whole run, and the process ends up in the final [select {}]. *)
Theorem failed_send_is_logged_as_sent
    (w : World) (sched : list SelectCase) h mt p rs m t e :
  In (Called (call_SendE2E h mt p) (returned_send rs m t (Some e)))
     (trace_of (Sender.main (w, sched))) ->
  (exists pre,
      trace_of (Sender.main (w, sched)) =
      pre ++ [Called (call_SendE2E h mt p) (returned_send rs m t (Some e));
              fmt_Printf "Failed to send message: %+v" e;
              jww_INFO (log_Message_sent m rs t)]) /\
  count is_SendE2E (trace_of (Sender.main (w, sched))) = 1 /\
  result_of (Sender.main (w, sched)) = inr select_forever.
Proof.
  anatomy_of (Sender_main_anatomy w sched); intros Hin;
    in_cases Hin; try not_there Hin.
  destruct (Sender_after_login_send_error _ _ _ _ _ _ _ _ _ _ _ _ Ea Hin)
    as (Hr & _ & Hn & _ & _ & (pre & Hta)).
  repeat split.
  - rewrite Hta. ends_with.
  - rewrite count_cons, !count_app, Hn.
    rewrite (count_zero _ _ (existsb_false_of_forallb _ is_SendE2E _ Vc
                               ltac:(disjoint))).
    rewrite (count_zero _ _ (existsb_false_of_forallb _ is_SendE2E _ Vl
                               ltac:(disjoint))).
    reflexivity.
  - exact Hr.
Qed.

End Send.

(** ** The contact file of the server *)

Section ContactFile.

Context {env : Env}.

Lemma login_to_client_session_login_event
    (statePath statePass identityStorageKey : string)
    (s : State) r s2 tl net i u :
  login_to_client_session statePath statePass identityStorageKey s
  = (r, s2, tl) ->
  In (Called (call_xxdk_Login net i) (returned_E2e u None)) tl ->
  r = inl (net, i, u) /\
  exists pre, tl = pre ++ [Called (call_xxdk_Login net i) (returned_E2e u None)].
Proof.
  unfold login_to_client_session. walk.
  all: intros H Hin; injection H as <- <- <-.
  all: in_cases Hin.
  all: injection Hin as <- <- <-.
  all: split; [reflexivity | ends_with].
Qed.

Lemma Server_after_login_begins_with_contact_file
    baseClient identity e2eClient (s : State) r s' ta :
  Server.after_login (baseClient, identity, e2eClient) s = (r, s', ta) ->
  exists err post,
    ta = Called (call_ioutil_WriteFile Server.contactFilePath
                   (Contact_Marshal (ReceptionIdentity_GetContact identity)))
                (returned_err err) :: post.
Proof.
  unfold Server.after_login, Server.save_contact_file,
    Server.start_single_use_server, Server.start_network_threads,
    waitUntilConnected.
  walk.
  all: intros H; injection H as <- <- <-.
  all: do 2 eexists; reflexivity.
Qed.

Lemma save_contact_file_is_one_write identity (w0 : World) sched0 :
  Server.save_contact_file identity (w0, sched0) =
  let data := Contact_Marshal (ReceptionIdentity_GetContact identity) in
  let written := ioutil_WriteFile Server.contactFilePath data w0 in
  (match fst written with
   | None => inl tt
   | Some e => inr (Panicf "Failed to write contact file: %+v" (Some e))
   end,
   (snd written, sched0),
   Called (call_ioutil_WriteFile Server.contactFilePath data)
          (returned_err (fst written))
   :: match fst written with
      | None => []
      | Some e => [jww_FATAL "Failed to write contact file: %+v" (Some e)]
      end).
Proof.
  unfold Server.save_contact_file. unfold_calls. cbn [fst snd].
  destruct (ioutil_WriteFile _ _ w0) as [[e|] w']; reflexivity.
Qed.

(** C9.  In every run of the server that logs in, whatever state and
    identity it found or made on the way, the call that follows the login
    is the write of the marshalled contact of the identity to the contact
    file path; nothing of the connectivity stage (follower, health
    callback, dequeued health values) and no server has come before it.
    The write is one [ioutil.WriteFile] on the world as it is, with no
    look at what the path holds. *)
Theorem contact_file_written_right_after_login
    (w : World) (sched : list SelectCase) net i u :
  In (Called (call_xxdk_Login net i) (returned_E2e u None))
     (trace_of (Server.main (w, sched))) ->
  (exists pre err post,
      trace_of (Server.main (w, sched)) =
      pre ++ Called (call_xxdk_Login net i) (returned_E2e u None)
          :: Called (call_ioutil_WriteFile Server.contactFilePath
                       (Contact_Marshal (ReceptionIdentity_GetContact i)))
                    (returned_err err)
          :: post /\
      existsb is_connectivity_step pre = false /\
      existsb is_NewServer pre = false /\
      existsb is_WriteFile pre = false) /\
  (forall w0 sched0,
      let data := Contact_Marshal (ReceptionIdentity_GetContact i) in
      world_of (Server.save_contact_file i (w0, sched0))
      = snd (ioutil_WriteFile Server.contactFilePath data w0) /\
      trace_of (Server.save_contact_file i (w0, sched0))
      = Called (call_ioutil_WriteFile Server.contactFilePath data)
               (returned_err
                  (fst (ioutil_WriteFile Server.contactFilePath data w0)))
        :: match fst (ioutil_WriteFile Server.contactFilePath data w0) with
           | None => []
           | Some e => [jww_FATAL "Failed to write contact file: %+v" (Some e)]
           end).
Proof.
  intros Hin. split.
  - revert Hin.
    anatomy_of (Server_main_anatomy w sched); intros Hin;
      in_cases Hin; try not_there Hin.
    + destruct (login_to_client_session_login_event _ _ _ _ _ _ _ _ _ _ El Hin)
        as [Hr _].
      discriminate Hr.
    + destruct (login_to_client_session_login_event _ _ _ _ _ _ _ _ _ _ El Hin)
        as [Hr [pre Htl]].
      injection Hr as ->.
      destruct (Server_after_login_begins_with_contact_file _ _ _ _ _ _ _ Ea)
        as (err & post & Hta).
      exists (Called (call_initLog 1 "client.log") returned :: tc ++ pre),
        err, post.
      split.
      * rewrite Htl, Hta. cbn [app]. rewrite <- !app_assoc. reflexivity.
      * rewrite Htl, forallb_app in Vl. apply andb_true_iff in Vl as [Vp _].
        cbn [existsb is_connectivity_step is_StartNetworkFollower
               is_AddHealthCallback is_Network_Status is_NewServer
               is_WriteFile orb].
        rewrite !existsb_app.
        rewrite (existsb_false_of_forallb _ is_connectivity_step _ Vc
                   ltac:(disjoint)).
        rewrite (existsb_false_of_forallb _ is_connectivity_step _ Vp
                   ltac:(disjoint)).
        rewrite (existsb_false_of_forallb _ is_NewServer _ Vc ltac:(disjoint)).
        rewrite (existsb_false_of_forallb _ is_NewServer _ Vp ltac:(disjoint)).
        rewrite (existsb_false_of_forallb _ is_WriteFile _ Vc ltac:(disjoint)).
        rewrite (existsb_false_of_forallb _ is_WriteFile _ Vp ltac:(disjoint)).
        auto.
  - intros w0 sched0 data. rewrite save_contact_file_is_one_write.
    cbn [world_of trace_of fst snd]. auto.
Qed.

End ContactFile.

(** ** Creating the client object *)

Section Create.

Context {env : Env}.

Variables (statePath statePass : string).
Variables (ndfURL certificatePath ndfPath : string).

Hypothesis paths_differ : ndfPath <> certificatePath.

Local Abbreviation create :=
  (create_client_object statePath statePass ndfURL certificatePath ndfPath).

(** The equations [e1 = e2] between events that [in_cases] leaves: equal
    events, or reads of the two different paths. *)
Ltac same_event H :=
  first [ discriminate H
        | exfalso; injection H; intros; congruence
        | injection H; intros; subst ].

Lemma create_when_state_exists (s : State) err w1 :
  os_Stat statePath (fst s) = (err, w1) ->
  errors_Is_ErrNotExist err = false ->
  create s
  = (inl tt, (w1, snd s), [Called (call_os_Stat statePath) (returned_err err)]).
Proof.
  intros HStat Herr. unfold create_client_object. unfold_calls.
  rewrite HStat. cbn [fst snd]. rewrite Herr. reflexivity.
Qed.

Lemma create_stat_says_exists (s : State) r s1 tc p err :
  create s = (r, s1, tc) ->
  In (Called (call_os_Stat p) (returned_err err)) tc ->
  errors_Is_ErrNotExist err = false ->
  r = inl tt /\
  tc = [Called (call_os_Stat statePath) (returned_err err)] /\
  s1 = (snd (os_Stat statePath (fst s)), snd s).
Proof.
  unfold create_client_object. walk.
  all: intros H Hin Herr; injection H as <- <- <-.
  all: in_cases Hin; try same_event Hin; try congruence.
  all: try match goal with
           | H : os_Stat _ _ = _ |- _ => rewrite H
           end.
  all: auto.
Qed.

Lemma create_cached_definition (s : State) r s1 tc bs err :
  create s = (r, s1, tc) ->
  In (Called (call_ioutil_ReadFile ndfPath) (returned_bytes (Some bs) err)) tc ->
  existsb (is_ReadFile_of certificatePath) tc = false /\
  existsb is_Download tc = false /\
  (exists r',
      In (Called (call_xxdk_NewCmix (string_of_list_byte bs) statePath
                    (slice_of_string statePass) "") r') tc) /\
  (forall ndf dir pw rc r',
      In (Called (call_xxdk_NewCmix ndf dir pw rc) r') tc ->
      ndf = string_of_list_byte bs).
Proof.
  unfold create_client_object. walk.
  all: intros H Hin; injection H as <- <- <-.
  all: in_cases Hin; try same_event Hin.
  all: split; [|split; [|split]];
       [ cbn [existsb is_ReadFile_of is_Download orb];
         rewrite (proj2 (String.eqb_neq _ _) paths_differ); reflexivity
       | reflexivity
       | eexists; in_trace
       | intros ndf dir pw rc r' Hn; in_cases Hn; same_event Hn; reflexivity ].
Qed.

Lemma create_download_only_without_cache (s : State) r s1 tc url cert r' :
  create s = (r, s1, tc) ->
  In (Called (call_xxdk_DownloadAndVerifySignedNdfWithUrl url cert) r') tc ->
  exists err,
    In (Called (call_ioutil_ReadFile ndfPath) (returned_bytes None err)) tc.
Proof.
  unfold create_client_object. walk.
  all: intros H Hin; injection H as <- <- <-.
  all: in_cases Hin; try same_event Hin.
  all: eexists; in_trace.
Qed.

Lemma create_certificate_unreadable (s : State) r s1 tc c e :
  create s = (r, s1, tc) ->
  In (Called (call_ioutil_ReadFile certificatePath)
        (returned_bytes c (Some e))) tc ->
  r = inr (Panicf "Failed to read certificate: %v" (Some e)) /\
  existsb is_Download tc = false /\
  existsb is_NewCmix tc = false.
Proof.
  unfold create_client_object. walk.
  all: intros H Hin; injection H as <- <- <-.
  all: in_cases Hin; try same_event Hin.
  all: auto.
Qed.

Lemma create_download_fails (s : State) r s1 tc url cert d e :
  create s = (r, s1, tc) ->
  In (Called (call_xxdk_DownloadAndVerifySignedNdfWithUrl url cert)
        (returned_bytes d (Some e))) tc ->
  r = inr (Panicf "Failed to download NDF: %+v" (Some e)) /\
  count is_Download tc = 1 /\
  existsb is_NewCmix tc = false.
Proof.
  unfold create_client_object. walk.
  all: intros H Hin; injection H as <- <- <-.
  all: in_cases Hin; try same_event Hin.
  all: auto.
Qed.

Lemma create_without_cache_uses_verified_definition
    (s : State) r s1 tc err0 ndf dir pw rc r' :
  create s = (r, s1, tc) ->
  In (Called (call_ioutil_ReadFile ndfPath) (returned_bytes None err0)) tc ->
  In (Called (call_xxdk_NewCmix ndf dir pw rc) r') tc ->
  exists certificate d,
    In (Called (call_ioutil_ReadFile certificatePath)
          (returned_bytes certificate None)) tc /\
    In (Called (call_xxdk_DownloadAndVerifySignedNdfWithUrl ndfURL
                  (string_of_slice certificate))
          (returned_bytes d None)) tc /\
    ndf = string_of_slice d.
Proof.
  unfold create_client_object. walk.
  all: intros H Hin Hn; injection H as <- <- <-.
  all: in_cases Hin; try same_event Hin.
  all: in_cases Hn; try same_event Hn.
  all: do 2 eexists; repeat split; in_trace.
Qed.

Lemma create_calls_NewCmix_at_most_once (s : State) :
  count is_NewCmix (trace_of (create s)) <= 1.
Proof.
  unfold create_client_object, trace_of. walk.
  all: cbn; lia.
Qed.

Lemma create_initializes_once (s : State) :
  existsb is_NewCmix_ok (trace_of (create s)) = true ->
  count is_NewCmix (trace_of (create s)) = 1.
Proof.
  unfold create_client_object, trace_of. walk.
  all: cbn; intros H; try discriminate H; reflexivity.
Qed.

End Create.

(** ** From a stage to the whole run *)

(** The run of either program, in its three shapes, with the local
    constants of the program in place. *)
Ltac program_anatomy p w sched :=
  let A := fresh "A" in
  pose proof (main_anatomy p w sched) as A;
  destruct p;
  cbn [main_of after_login_of statePath_of statePass_of ndfURL_of
         certificatePath_of ndfPath_of identityStorageKey_of] in *;
  anatomy_of A.

(** No event of kind [K] in the trace: each stage either is known to have
    none, or has only events of other kinds. *)
Ltac absent :=
  cbn; rewrite ?existsb_app;
  repeat match goal with
         | H : existsb ?K ?t = false |- context [existsb ?K ?t] => rewrite H
         | V : forallb _ ?t = true |- context [existsb ?K ?t] =>
             rewrite (existsb_false_of_forallb _ K t V ltac:(disjoint))
         end;
  reflexivity.

(** The number of events of kind [K] in the trace. *)
Ltac counted :=
  rewrite ?count_cons, ?count_app; cbn [app];
  repeat match goal with
         | H : count ?K ?t = _ |- context [count ?K ?t] => rewrite H
         | V : forallb _ ?t = true |- context [count ?K ?t] =>
             rewrite (count_zero K t
                        (existsb_false_of_forallb _ K t V ltac:(disjoint)))
         end;
  cbn; try reflexivity; try lia.

(** An event of the first stage is an event of the run. *)
Ltac in_first H := apply in_cons; try (apply in_or_app; left); exact H.

Section NetworkDefinition.

Context {env : Env}.

Remark ndfPath_is_not_certificatePath (p : Program) :
  ndfPath_of p <> certificatePath_of p.
Proof. destruct p; discriminate. Qed.

(** C4.  In both programs, when the read of the local network-definition
    file returns bytes (a non-empty file is the case [bs <> []] with no
    error), the certificate is never read and nothing is downloaded or
    verified in the whole run, whatever the remote would have answered;
    the state is initialized from exactly those bytes: [xxdk.NewCmix] is
    called with their string conversion, which converts back to [bs], and
    with nothing else.  And a download happens only in a run whose local
    read returned nil. *)
Theorem cached_definition_is_used_as_is
    (p : Program) (w : World) (sched : list SelectCase) :
  (forall bs err,
      In (Called (call_ioutil_ReadFile (ndfPath_of p))
            (returned_bytes (Some bs) err))
         (trace_of (main_of p (w, sched))) ->
      existsb (is_ReadFile_of (certificatePath_of p))
        (trace_of (main_of p (w, sched))) = false /\
      existsb is_Download (trace_of (main_of p (w, sched))) = false /\
      (exists r',
          In (Called (call_xxdk_NewCmix (string_of_list_byte bs)
                        (statePath_of p) (slice_of_string (statePass_of p)) "")
                r')
             (trace_of (main_of p (w, sched)))) /\
      (forall ndf dir pw rc r',
          In (Called (call_xxdk_NewCmix ndf dir pw rc) r')
             (trace_of (main_of p (w, sched))) ->
          ndf = string_of_list_byte bs /\ list_byte_of_string ndf = bs)) /\
  (forall url cert r',
      In (Called (call_xxdk_DownloadAndVerifySignedNdfWithUrl url cert) r')
         (trace_of (main_of p (w, sched))) ->
      exists err,
        In (Called (call_ioutil_ReadFile (ndfPath_of p))
              (returned_bytes None err))
           (trace_of (main_of p (w, sched)))).
Proof.
  pose proof (ndfPath_is_not_certificatePath p) as Hd.
  split.
  - intros bs err.
    program_anatomy p w sched; intros Hin; in_cases Hin; try not_there Hin.
    all: destruct (create_cached_definition _ _ _ _ _ Hd _ _ _ _ _ _ Ec Hin)
           as (Hcert & Hdl & (r' & Hnew) & Honly).
    all: split; [absent | split; [absent | split]];
         [ exists r'; in_first Hnew
         | intros ndf dir pw rc r0 Hn; in_cases Hn; try not_there Hn;
           rewrite (Honly _ _ _ _ _ Hn); split;
           [reflexivity | apply list_byte_of_string_of_list_byte] ].
  - intros url cert r'.
    program_anatomy p w sched; intros Hin; in_cases Hin; try not_there Hin.
    all: destruct (create_download_only_without_cache _ _ _ _ _
                     _ _ _ _ _ _ _ Ec Hin) as (err & Hread).
    all: exists err; in_first Hread.
Qed.

(** C7.  In both programs: a certificate that cannot be read stops the
    process with "Failed to read certificate", before any download and any
    initialization; a download-and-verify that returns an error (a
    signature that does not validate is one) stops it with "Failed to
    download NDF", after that one attempt and before any initialization;
    and in a run without local cache, whatever [xxdk.NewCmix] is given is
    what a download-and-verify, fed with the certificate read, returned
    without error. *)
Theorem unverified_definition_is_fatal
    (p : Program) (w : World) (sched : list SelectCase) :
  (forall c e,
      In (Called (call_ioutil_ReadFile (certificatePath_of p))
            (returned_bytes c (Some e)))
         (trace_of (main_of p (w, sched))) ->
      result_of (main_of p (w, sched))
      = inr (Panicf "Failed to read certificate: %v" (Some e)) /\
      existsb is_Download (trace_of (main_of p (w, sched))) = false /\
      existsb is_NewCmix (trace_of (main_of p (w, sched))) = false) /\
  (forall url cert d e,
      In (Called (call_xxdk_DownloadAndVerifySignedNdfWithUrl url cert)
            (returned_bytes d (Some e)))
         (trace_of (main_of p (w, sched))) ->
      result_of (main_of p (w, sched))
      = inr (Panicf "Failed to download NDF: %+v" (Some e)) /\
      count is_Download (trace_of (main_of p (w, sched))) = 1 /\
      existsb is_NewCmix (trace_of (main_of p (w, sched))) = false) /\
  (forall err0 ndf dir pw rc r',
      In (Called (call_ioutil_ReadFile (ndfPath_of p))
            (returned_bytes None err0))
         (trace_of (main_of p (w, sched))) ->
      In (Called (call_xxdk_NewCmix ndf dir pw rc) r')
         (trace_of (main_of p (w, sched))) ->
      exists certificate d,
        In (Called (call_ioutil_ReadFile (certificatePath_of p))
              (returned_bytes certificate None))
           (trace_of (main_of p (w, sched))) /\
        In (Called (call_xxdk_DownloadAndVerifySignedNdfWithUrl (ndfURL_of p)
                      (string_of_slice certificate))
              (returned_bytes d None))
           (trace_of (main_of p (w, sched))) /\
        ndf = string_of_slice d).
Proof.
  pose proof (ndfPath_is_not_certificatePath p) as Hd.
  split; [|split].
  - intros c e.
    program_anatomy p w sched; intros Hin; in_cases Hin; try not_there Hin.
    all: destruct (create_certificate_unreadable _ _ _ _ _ Hd _ _ _ _ _ _
                     Ec Hin) as (Hr & Hdl & Hnew);
         try discriminate Hr.
    all: split; [exact Hr | split; absent].
  - intros url cert d e.
    program_anatomy p w sched; intros Hin; in_cases Hin; try not_there Hin.
    all: destruct (create_download_fails _ _ _ _ _ _ _ _ _ _ _ _ _
                     Ec Hin) as (Hr & Hdl & Hnew);
         try discriminate Hr.
    all: split; [exact Hr | split; [counted | absent]].
  - intros err0 ndf dir pw rc r'.
    program_anatomy p w sched; intros Hin Hn;
      in_cases Hin; try not_there Hin; in_cases Hn; try not_there Hn.
    all: destruct (create_without_cache_uses_verified_definition
                     _ _ _ _ _ Hd _ _ _ _ _ _ _ _ _ _ Ec Hin Hn)
           as (certificate & d & Hcert & Hdl & Hndf).
    all: exists certificate, d;
         split; [in_first Hcert | split; [in_first Hdl | exact Hndf]].
Qed.

End NetworkDefinition.

(** ** Existing state *)

Section ExistingState.

Context {env : Env}.

Lemma login_begins_with_LoadCmix
    (statePath statePass identityStorageKey : string) (s : State) r s2 tl :
  login_to_client_session statePath statePass identityStorageKey s
  = (r, s2, tl) ->
  exists r0 rest,
    tl = Called (call_xxdk_LoadCmix statePath (slice_of_string statePass)) r0
         :: rest.
Proof.
  unfold login_to_client_session. walk.
  all: intros H; injection H as <- <- <-.
  all: do 2 eexists; reflexivity.
Qed.

Lemma main_when_state_exists (p : Program) (w : World) sched :
  errors_Is_ErrNotExist
    (fst (os_Stat (statePath_of p) (initLog 1 "client.log" w))) = false ->
  count is_NewCmix (trace_of (main_of p (w, sched))) = 0.
Proof.
  program_anatomy p w sched; intros Hex.
  all: destruct (os_Stat _ (initLog 1 "client.log" w)) as [err w1] eqn:HStat.
  all: cbn [fst] in Hex.
  all: rewrite (create_when_state_exists _ _ _ _ _
                  (initLog 1 "client.log" w, sched) _ _ HStat Hex) in Ec.
  all: try discriminate Ec.
  all: injection Ec as <- <- <-.
  all: counted.
Qed.

Lemma main_initializes_once (p : Program) (w : World) sched :
  existsb is_NewCmix_ok (trace_of (main_of p (w, sched))) = true ->
  count is_NewCmix (trace_of (main_of p (w, sched))) = 1.
Proof.
  program_anatomy p w sched; cbn [existsb is_NewCmix_ok orb];
    rewrite ?existsb_app.
  all: try rewrite (existsb_false_of_forallb _ is_NewCmix_ok tl Vl
                      ltac:(disjoint)).
  all: try rewrite (existsb_false_of_forallb _ is_NewCmix_ok ta Va
                      ltac:(disjoint)).
  all: rewrite ?orb_false_r; intros Hok.
  all: match type of Ec with
       | create_client_object ?a ?b ?c ?d ?e ?s = _ =>
           pose proof (create_initializes_once a b c d e s) as Hone
       end.
  all: rewrite Ec in Hone; cbn [trace_of snd] in Hone.
  all: specialize (Hone Hok).
  all: counted.
Qed.

(** C5.  In both programs: when [os.Stat] of the state path does not
    report that the state is missing, the run has no initialization step at
    all (no read of the cached definition or of the certificate, no
    download, no [xxdk.NewCmix]) and the call that follows [os.Stat] is
    [xxdk.LoadCmix], the first of the login stage; the stage hands on the
    very world [os.Stat] left.  So when a run has initialized the state and
    the state is there at the start of the next run, the two runs together
    call [xxdk.NewCmix] once. *)
Theorem existing_state_is_not_initialized_again
    (p : Program) (w : World) (sched : list SelectCase) :
  (forall err,
      In (Called (call_os_Stat (statePath_of p)) (returned_err err))
         (trace_of (main_of p (w, sched))) ->
      errors_Is_ErrNotExist err = false ->
      existsb (is_initialization_step (ndfPath_of p) (certificatePath_of p))
        (trace_of (main_of p (w, sched))) = false /\
      exists r0 rest,
        trace_of (main_of p (w, sched)) =
        Called (call_initLog 1 "client.log") returned
        :: Called (call_os_Stat (statePath_of p)) (returned_err err)
        :: Called (call_xxdk_LoadCmix (statePath_of p)
                     (slice_of_string (statePass_of p))) r0
        :: rest) /\
  (forall s err w1,
      os_Stat (statePath_of p) (fst s) = (err, w1) ->
      errors_Is_ErrNotExist err = false ->
      create_client_object (statePath_of p) (statePass_of p) (ndfURL_of p)
        (certificatePath_of p) (ndfPath_of p) s
      = (inl tt, (w1, snd s),
         [Called (call_os_Stat (statePath_of p)) (returned_err err)])) /\
  (forall sched2,
      existsb is_NewCmix_ok (trace_of (main_of p (w, sched))) = true ->
      errors_Is_ErrNotExist
        (fst (os_Stat (statePath_of p)
                (initLog 1 "client.log" (world_of (main_of p (w, sched))))))
      = false ->
      count is_NewCmix
        (trace_of (main_of p (w, sched))
           ++ trace_of (main_of p (world_of (main_of p (w, sched)), sched2)))
      = 1).
Proof.
  split; [|split].
  - intros err.
    program_anatomy p w sched; intros Hin Hex; in_cases Hin;
      try not_there Hin.
    all: destruct (create_stat_says_exists _ _ _ _ _ _ _ _ _ _ _ Ec Hin Hex)
           as (Hr & Htc & _); try discriminate Hr.
    all: destruct (login_begins_with_LoadCmix _ _ _ _ _ _ _ El)
           as (r0 & rest & Htl).
    all: split; [|subst tc tl; do 2 eexists; reflexivity].
    all: match goal with
         | |- existsb ?K _ = false =>
             assert (Hnone : existsb K tc = false)
               by (rewrite Htc; reflexivity)
         end.
    all: absent.
  - intros s err w1. apply create_when_state_exists.
  - intros sched2 Hok Hex.
    rewrite count_app, (main_initializes_once p w sched Hok).
    rewrite (main_when_state_exists p _ sched2 Hex). reflexivity.
Qed.

End ExistingState.

(** ** The reception identity *)

Section Identity.

Context {env : Env}.

Variables (statePath statePass identityStorageKey : string).

Local Abbreviation login :=
  (login_to_client_session statePath statePass identityStorageKey).

Lemma login_loads_identity_first (s : State) :
  preceded_by_b is_LoadReceptionIdentity is_identity_use false
    (trace_of (login s)) = true.
Proof.
  unfold login_to_client_session, trace_of. walk.
  all: reflexivity.
Qed.

Lemma login_identity_on_record_first (s : State) :
  preceded_by_b is_identity_on_record is_Login false (trace_of (login s))
  = true.
Proof.
  unfold login_to_client_session, trace_of. walk.
  all: reflexivity.
Qed.

Lemma login_loads_by_key (s : State) r s2 tl k net r0 :
  login s = (r, s2, tl) ->
  In (Called (call_xxdk_LoadReceptionIdentity k net) r0) tl ->
  k = identityStorageKey.
Proof.
  unfold login_to_client_session. walk.
  all: intros H Hin; injection H as <- <- <-.
  all: in_cases Hin; injection Hin; auto.
Qed.

Lemma login_load_failure_generates (s : State) r s2 tl k net i e :
  login s = (r, s2, tl) ->
  In (Called (call_xxdk_LoadReceptionIdentity k net)
        (returned_ReceptionIdentity i (Some e))) tl ->
  exists i' r',
    In (Called (call_xxdk_MakeReceptionIdentity net)
          (returned_ReceptionIdentity i' r')) tl.
Proof.
  unfold login_to_client_session. walk.
  all: intros H Hin; injection H as <- <- <-.
  all: in_cases Hin; injection Hin as <- <- <- <-.
  all: do 2 eexists; in_trace.
Qed.

Lemma login_generated_is_stored (s : State) r s2 tl net i' :
  login s = (r, s2, tl) ->
  In (Called (call_xxdk_MakeReceptionIdentity net)
        (returned_ReceptionIdentity i' None)) tl ->
  exists r',
    In (Called (call_xxdk_StoreReceptionIdentity identityStorageKey i' net)
          (returned_err r')) tl.
Proof.
  unfold login_to_client_session. walk.
  all: intros H Hin; injection H as <- <- <-.
  all: in_cases Hin; injection Hin as <- <-.
  all: eexists; in_trace.
Qed.

Lemma login_store_failure_is_fatal (s : State) r s2 tl k i net e :
  login s = (r, s2, tl) ->
  In (Called (call_xxdk_StoreReceptionIdentity k i net)
        (returned_err (Some e))) tl ->
  r = inr (Panicf "Failed to store new reception identity: %+v" (Some e)) /\
  existsb is_Login tl = false.
Proof.
  unfold login_to_client_session. walk.
  all: intros H Hin; injection H as <- <- <-.
  all: in_cases Hin; injection Hin as <- <- <- <-.
  all: split; reflexivity.
Qed.

Lemma login_uses_identity_on_record (s : State) r s2 tl net i r0 :
  login s = (r, s2, tl) ->
  In (Called (call_xxdk_Login net i) r0) tl ->
  In (Called (call_xxdk_LoadReceptionIdentity identityStorageKey net)
        (returned_ReceptionIdentity i None)) tl \/
  (In (Called (call_xxdk_MakeReceptionIdentity net)
         (returned_ReceptionIdentity i None)) tl /\
   In (Called (call_xxdk_StoreReceptionIdentity identityStorageKey i net)
         (returned_err None)) tl).
Proof.
  unfold login_to_client_session. walk.
  all: intros H Hin; injection H as <- <- <-.
  all: in_cases Hin; injection Hin as <- <- <-.
  all: first [ left; solve [in_trace] | right; split; solve [in_trace] ].
Qed.

End Identity.

Section IdentityOfRun.

Context {env : Env}.

(** A property [preceded_by P Q] of the login stage is one of the whole
    run when no other stage has events of kind [Q]. *)
Ltac login_order :=
  apply preceded_by_b_sound; cbn [preceded_by_b];
  rewrite ?preceded_by_b_app; cbn;
  repeat (apply andb_true_iff; split);
  first [ apply preceded_by_b_absent;
          eapply existsb_false_of_forallb; [eassumption | disjoint]
        | eapply preceded_by_b_mono; [|eassumption];
          let H := fresh in intros H; discriminate H ].

(** C6.  In both programs: the reception identity is first looked up, and
    always by the storage key; when the load fails, whatever the failure,
    an identity is generated; a generated identity is stored, under the
    same key, and a store that fails stops the process with "Failed to
    store new reception identity" before any login; so the identity a run
    logs in with is the one loaded by the key, or the one generated and
    stored under it without error, the load or store having come first. *)
Theorem identity_is_loaded_or_generated_and_stored
    (p : Program) (w : World) (sched : list SelectCase) :
  preceded_by is_LoadReceptionIdentity is_identity_use
    (trace_of (main_of p (w, sched))) /\
  (forall k net r0,
      In (Called (call_xxdk_LoadReceptionIdentity k net) r0)
         (trace_of (main_of p (w, sched))) ->
      k = identityStorageKey_of p) /\
  (forall k net i e,
      In (Called (call_xxdk_LoadReceptionIdentity k net)
            (returned_ReceptionIdentity i (Some e)))
         (trace_of (main_of p (w, sched))) ->
      exists i' r',
        In (Called (call_xxdk_MakeReceptionIdentity net)
              (returned_ReceptionIdentity i' r'))
           (trace_of (main_of p (w, sched)))) /\
  (forall net i',
      In (Called (call_xxdk_MakeReceptionIdentity net)
            (returned_ReceptionIdentity i' None))
         (trace_of (main_of p (w, sched))) ->
      exists r',
        In (Called (call_xxdk_StoreReceptionIdentity
                      (identityStorageKey_of p) i' net) (returned_err r'))
           (trace_of (main_of p (w, sched)))) /\
  (forall k i net e,
      In (Called (call_xxdk_StoreReceptionIdentity k i net)
            (returned_err (Some e)))
         (trace_of (main_of p (w, sched))) ->
      result_of (main_of p (w, sched))
      = inr (Panicf "Failed to store new reception identity: %+v" (Some e)) /\
      existsb is_Login (trace_of (main_of p (w, sched))) = false) /\
  (forall net i r0,
      In (Called (call_xxdk_Login net i) r0)
         (trace_of (main_of p (w, sched))) ->
      In (Called (call_xxdk_LoadReceptionIdentity (identityStorageKey_of p)
                    net) (returned_ReceptionIdentity i None))
         (trace_of (main_of p (w, sched))) \/
      (In (Called (call_xxdk_MakeReceptionIdentity net)
             (returned_ReceptionIdentity i None))
          (trace_of (main_of p (w, sched))) /\
       In (Called (call_xxdk_StoreReceptionIdentity (identityStorageKey_of p)
                     i net) (returned_err None))
          (trace_of (main_of p (w, sched))))) /\
  preceded_by is_identity_on_record is_Login
    (trace_of (main_of p (w, sched))).
Proof.
  repeat match goal with |- _ /\ _ => split end.
  - program_anatomy p w sched.
    all: try (match type of El with
              | login_to_client_session ?a ?b ?c ?s = _ =>
                  pose proof (login_loads_identity_first a b c s) as Hs
              end;
              rewrite El in Hs; cbn [trace_of snd] in Hs).
    all: login_order.
  - intros k net r0.
    program_anatomy p w sched; intros Hin; in_cases Hin; try not_there Hin.
    all: exact (login_loads_by_key _ _ _ _ _ _ _ _ _ _ El Hin).
  - intros k net i e.
    program_anatomy p w sched; intros Hin; in_cases Hin; try not_there Hin.
    all: destruct (login_load_failure_generates _ _ _ _ _ _ _ _ _ _ _ El Hin)
           as (i' & r' & Hm).
    all: exists i', r'; apply in_cons, in_or_app; right;
         try (apply in_or_app; left); exact Hm.
  - intros net i'.
    program_anatomy p w sched; intros Hin; in_cases Hin; try not_there Hin.
    all: destruct (login_generated_is_stored _ _ _ _ _ _ _ _ _ El Hin)
           as (r' & Hst).
    all: exists r'; apply in_cons, in_or_app; right;
         try (apply in_or_app; left); exact Hst.
  - intros k i net e.
    program_anatomy p w sched; intros Hin; in_cases Hin; try not_there Hin.
    all: destruct (login_store_failure_is_fatal _ _ _ _ _ _ _ _ _ _ _ El Hin)
           as (Hr & Hl); try discriminate Hr.
    all: split; [injection Hr as ->; reflexivity | absent].
  - intros net i r0.
    program_anatomy p w sched; intros Hin; in_cases Hin; try not_there Hin.
    all: destruct (login_uses_identity_on_record _ _ _ _ _ _ _ _ _ _ El Hin)
           as [Hl | [Hm Hst]];
         [ left | right; split ];
         apply in_cons, in_or_app; right;
         try (apply in_or_app; left); assumption.
  - program_anatomy p w sched.
    all: try (match type of El with
              | login_to_client_session ?a ?b ?c ?s = _ =>
                  pose proof (login_identity_on_record_first a b c s) as Hs
              end;
              rewrite El in Hs; cbn [trace_of snd] in Hs).
    all: login_order.
Qed.

End IdentityOfRun.

(** ** The wait, when it does not connect *)

Section WaitOutcome.

Context {env : Env}.

(** X1.  When the timer fires after [n] values, all [false], have been
    dequeued (the timer channel delivers, or nothing more arrives), the
    wait panics with "Timeout on starting network follower": each value
    has been logged, the world is as it was, and what was still pending
    after the timer stays pending. *)
Theorem waitUntilConnected_times_out
    (w : World) (n : nat) (rest : list SelectCase) :
  waitUntilConnected
    (w, repeat (recv_connected false) n ++ recv_timeoutTimer :: rest)
  = (inr (Panicf "Timeout on starting network follower" None), (w, rest),
     repeat (jww_INFO (log_Network_Status false)) n
       ++ [jww_FATAL "Timeout on starting network follower" None]) /\
  waitUntilConnected (w, repeat (recv_connected false) n)
  = (inr (Panicf "Timeout on starting network follower" None), (w, []),
     repeat (jww_INFO (log_Network_Status false)) n
       ++ [jww_FATAL "Timeout on starting network follower" None]).
Proof.
  unfold waitUntilConnected. cbn [fst snd].
  split; induction n as [|n IH]; cbn [repeat app waitUntilConnected_loop];
    try reflexivity; rewrite IH; reflexivity.
Qed.

(** X2.  The wait returns only if a [true] was dequeued with nothing but
    [false] values before it: a timer that fires first, or a channel that
    delivers no [true], never lets the caller through. *)
Theorem waitUntilConnected_returns_only_on_true
    (w : World) (sched : list SelectCase) :
  result_of (waitUntilConnected (w, sched)) = inl tt ->
  exists n rest,
    sched = repeat (recv_connected false) n ++ recv_connected true :: rest /\
    world_of (waitUntilConnected (w, sched)) = w /\
    count is_Network_Status (trace_of (waitUntilConnected (w, sched))) = S n.
Proof.
  unfold waitUntilConnected, result_of, world_of, trace_of. cbn [fst snd].
  induction sched as [|c sched IH]; cbn [waitUntilConnected_loop].
  - intros H. discriminate H.
  - destruct c as [[|]|]; cbn [fst snd].
    + intros _. exists 0, sched. repeat split.
    + destruct (waitUntilConnected_loop sched w) as [[r s] t] eqn:Hloop.
      cbn [fst snd] in *. intros Hr.
      destruct (IH Hr) as (n & rest & -> & Hw & Hn).
      exists (S n), rest. repeat split; [exact Hw|].
      rewrite count_cons, Hn. reflexivity.
    + intros H. discriminate H.
Qed.

End WaitOutcome.

(** ** More about the wait loop *)

Section WaitPanics.

Context {env : Env}.

(** A wait that does not return has logged the values it dequeued, none
    of them [true], and then the timeout. *)
Lemma waitUntilConnected_loop_panics (connected : list SelectCase) (w : World) :
  forall e s t,
    waitUntilConnected_loop connected w = (inr e, s, t) ->
    e = Panicf "Timeout on starting network follower" None /\
    existsb is_connected t = false /\
    existsb is_fatal t = true /\
    forallb is_wait_event t = true.
Proof.
  induction connected as [|c rest IH]; intros e s t H; cbn in H.
  - injection H as <- <- <-. cbn. auto.
  - destruct c as [[|]|].
    + discriminate H.
    + destruct (waitUntilConnected_loop rest w) as [[r' s'] t'] eqn:Hrest.
      injection H as -> <- <-.
      destruct (IH _ _ _ eq_refl) as (He & Hc & Hf & Hv).
      cbn. auto.
    + injection H as <- <- <-. cbn. auto.
Qed.

End WaitPanics.

(** The wait loop, in the terms the walks need. *)
Ltac wait_facts :=
  match goal with
  | H : waitUntilConnected_loop _ _ = (inl _, _, _) |- _ =>
      apply waitUntilConnected_loop_spec in H as (Hv & _ & Hc & Hf)
  | H : waitUntilConnected_loop _ _ = (inr _, _, _) |- _ =>
      apply waitUntilConnected_loop_panics in H as (He & Hc & Hf & Hv)
  end.

(** No event of kind [K] among the events of the wait: [K] is not a kind
    of wait event. *)
Ltac not_waited K :=
  match goal with
  | Hv : forallb is_wait_event ?l = true |- _ =>
      let H := fresh "Hw" in
      assert (H : existsb K l = false)
        by (eapply existsb_false_of_forallb; [exact Hv | disjoint])
  end.

(** Goals about [existsb] over a walked trace, from the facts at hand
    about the events of the wait. *)
Ltac by_wait_facts :=
  cbn; rewrite ?existsb_app;
  repeat match goal with
         | H : existsb ?K ?l = _ |- context [existsb ?K ?l] => rewrite H
         end;
  cbn; rewrite ?orb_true_r; reflexivity.

Ltac unfold_sender_after_login :=
  unfold Sender.after_login, Sender.start_network_threads,
    Sender.connect_with_server, Sender.register_listener,
    Sender.send_message, waitUntilConnected.

Ltac unfold_server_after_login :=
  unfold Server.after_login, Server.save_contact_file,
    Server.start_single_use_server, Server.start_network_threads,
    waitUntilConnected.

Ltac sender_walk :=
  unfold Sender.after_login, Sender.start_network_threads,
    Sender.connect_with_server, Sender.register_listener,
    Sender.send_message, waitUntilConnected;
  walk.

Ltac wait_events :=
  try match goal with
      | H : waitUntilConnected_loop _ _ = _ |- _ =>
          apply waitUntilConnected_loop_spec in H as (Hv & _ & Hr)
      end.

(** ** How a run ends *)

Section Endings.

Context {env : Env}.

(** The panics of the first two stages carry the error they report. *)
Lemma create_client_object_panics
    (statePath statePass ndfURL certificatePath ndfPath : string)
    (s : State) e s1 tc :
  create_client_object statePath statePass ndfURL certificatePath ndfPath s
  = (inr e, s1, tc) ->
  exists format err, e = Panicf format (Some err) /\ existsb is_fatal tc = true.
Proof.
  unfold create_client_object. walk.
  all: intros H; try discriminate H.
  all: injection H as <- <- <-; do 2 eexists; split; reflexivity.
Qed.

Lemma login_to_client_session_panics
    (statePath statePass identityStorageKey : string) (s : State) e s1 tl :
  login_to_client_session statePath statePass identityStorageKey s
  = (inr e, s1, tl) ->
  exists format err, e = Panicf format (Some err) /\ existsb is_fatal tl = true.
Proof.
  unfold login_to_client_session. walk.
  all: intros H; try discriminate H.
  all: injection H as <- <- <-; do 2 eexists; split; reflexivity.
Qed.

Lemma Server_after_login_blocks x (s : State) s' ta :
  Server.after_login x s = (inr select_forever, s', ta) ->
  existsb is_connected ta = true /\ existsb is_fatal ta = false /\
  count is_NewServer ta = 1.
Proof.
  destruct x as [[baseClient identity] e2eClient].
  unfold Server.after_login, Server.save_contact_file,
    Server.start_single_use_server, Server.start_network_threads,
    waitUntilConnected.
  walk.
  all: intros H; try discriminate H; injection H; intros; subst.
  all: try wait_facts; try discriminate He.
  all: not_waited is_NewServer.
  all: split; [|split];
       [ cbn; rewrite existsb_app, Hc; reflexivity
       | cbn; rewrite existsb_app, Hf; reflexivity
       | rewrite ?count_cons, ?count_app, (count_zero _ _ Hw); reflexivity ].
Qed.

Lemma Server_after_login_times_out x (s : State) format s' ta :
  Server.after_login x s = (inr (Panicf format None), s', ta) ->
  format = "Timeout on starting network follower" /\
  existsb is_connected ta = false /\
  existsb is_NewServer ta = true /\
  existsb is_AddHealthCallback ta = true.
Proof.
  destruct x as [[baseClient identity] e2eClient].
  unfold Server.after_login, Server.save_contact_file,
    Server.start_single_use_server, Server.start_network_threads,
    waitUntilConnected.
  walk.
  all: intros H; try discriminate H; injection H; intros; subst.
  all: try wait_facts; try discriminate.
  all: injection He as ->.
  all: repeat split; cbn; rewrite ?existsb_app, ?Hc; reflexivity.
Qed.

Lemma Server_after_login_panic_is_logged x (s : State) format err s' ta :
  Server.after_login x s = (inr (Panicf format err), s', ta) ->
  existsb is_fatal ta = true.
Proof.
  destruct x as [[baseClient identity] e2eClient].
  unfold Server.after_login, Server.save_contact_file,
    Server.start_single_use_server, Server.start_network_threads,
    waitUntilConnected.
  walk.
  all: intros H; try discriminate H; injection H; intros; subst.
  all: try reflexivity.
  all: wait_facts; cbn; rewrite ?existsb_app, Hf; reflexivity.
Qed.

Lemma Sender_after_login_blocks x (s : State) s' ta :
  Sender.after_login x s = (inr select_forever, s', ta) ->
  existsb is_connected ta = true /\ existsb is_fatal ta = false /\
  count is_SendE2E ta = 1.
Proof.
  destruct x as [[baseClient identity] e2eClient].
  unfold_sender_after_login. walk.
  all: intros H; try discriminate H; injection H; intros; subst.
  all: try wait_facts; try discriminate He.
  all: not_waited is_SendE2E.
  all: split; [|split];
       [ cbn; rewrite existsb_app, Hc; cbn; rewrite ?orb_true_r; reflexivity
       | cbn; rewrite existsb_app, Hf; reflexivity
       | rewrite ?count_cons, ?count_app, ?count_cons, (count_zero _ _ Hw);
         reflexivity ].
Qed.

Lemma Sender_after_login_times_out x (s : State) format s' ta :
  Sender.after_login x s = (inr (Panicf format None), s', ta) ->
  format = "Timeout on starting network follower" /\
  existsb is_connected ta = false /\
  existsb is_AddHealthCallback ta = true /\
  existsb (is_ReadFile_of Sender.serverContactPath) ta = false /\
  existsb is_Connect ta = false /\
  existsb is_RegisterListener ta = false /\
  existsb is_SendE2E ta = false.
Proof.
  destruct x as [[baseClient identity] e2eClient].
  unfold_sender_after_login. walk.
  all: intros H; try discriminate H; injection H; intros; subst.
  all: try wait_facts; try discriminate.
  all: injection He as ->.
  all: not_waited (is_ReadFile_of Sender.serverContactPath).
  all: not_waited is_Connect.
  all: not_waited is_RegisterListener.
  all: not_waited is_SendE2E.
  all: repeat split; by_wait_facts.
Qed.

Lemma Sender_after_login_panic_is_logged x (s : State) format err s' ta :
  Sender.after_login x s = (inr (Panicf format err), s', ta) ->
  existsb is_fatal ta = true.
Proof.
  destruct x as [[baseClient identity] e2eClient].
  unfold_sender_after_login. walk.
  all: intros H; try discriminate H; injection H; intros; subst.
  all: wait_facts.
  all: cbn; rewrite ?existsb_app, ?Hf; cbn; rewrite ?orb_true_r; reflexivity.
Qed.

(** X3.  In both programs a panic that carries no error value is the
    timeout of the wait: the run has subscribed to health changes and has
    dequeued no [true]; the sender has then not read the peer's contact,
    connected, registered a listener or sent, while the server had already
    been started. *)
Theorem panic_without_error_is_the_timeout
    (p : Program) (w : World) (sched : list SelectCase) format :
  result_of (main_of p (w, sched)) = inr (Panicf format None) ->
  format = "Timeout on starting network follower" /\
  existsb is_connected (trace_of (main_of p (w, sched))) = false /\
  existsb is_AddHealthCallback (trace_of (main_of p (w, sched))) = true /\
  existsb (is_ReadFile_of Sender.serverContactPath)
    (trace_of (main_of p (w, sched))) = false /\
  existsb is_Connect (trace_of (main_of p (w, sched))) = false /\
  existsb is_RegisterListener (trace_of (main_of p (w, sched))) = false /\
  existsb is_SendE2E (trace_of (main_of p (w, sched))) = false /\
  (p = server ->
   existsb is_NewServer (trace_of (main_of p (w, sched))) = true).
Proof.
  program_anatomy p w sched; intros Hr.
  all: try (apply create_client_object_panics in Ec
              as (f0 & err0 & He0 & _); congruence).
  all: try (apply login_to_client_session_panics in El
              as (f0 & err0 & He0 & _); congruence).
  all: subst r.
  - destruct (Server_after_login_times_out _ _ _ _ _ Ea)
      as (Hf & Hc & Hs & Hh).
    split; [exact Hf|].
    split; [absent|].
    split; [cbn; rewrite !existsb_app, Hh, !orb_true_r; reflexivity|].
    split; [absent|]. split; [absent|]. split; [absent|]. split; [absent|].
    intros _. cbn. rewrite !existsb_app, Hs, !orb_true_r. reflexivity.
  - destruct (Sender_after_login_times_out _ _ _ _ _ Ea)
      as (Hf & Hc & Hh & Hrd & Hco & Hrl & Hse).
    split; [exact Hf|].
    split; [absent|].
    split; [cbn; rewrite !existsb_app, Hh, !orb_true_r; reflexivity|].
    split; [absent|]. split; [absent|]. split; [absent|]. split; [absent|].
    intros Hp. discriminate Hp.
Qed.

(** X4.  In both programs a run ends in the final [select {}] exactly
    when nothing was logged as fatal; and a run that ends there has
    dequeued a [true] and has done its own work once: the server was
    started once, the sender has sent once. *)
Theorem blocks_forever_iff_no_panic
    (p : Program) (w : World) (sched : list SelectCase) :
  (result_of (main_of p (w, sched)) = inr select_forever <->
   existsb is_fatal (trace_of (main_of p (w, sched))) = false) /\
  (result_of (main_of p (w, sched)) = inr select_forever ->
   existsb is_connected (trace_of (main_of p (w, sched))) = true /\
   count (match p with server => is_NewServer | sender => is_SendE2E end)
     (trace_of (main_of p (w, sched))) = 1).
Proof.
  pose proof Server_after_login_does_not_return as NS.
  pose proof Sender_after_login_does_not_return as NC.
  program_anatomy p w sched.
  all: try (apply create_client_object_panics in Ec
              as (f0 & err0 & -> & Hfc);
            split; [split|]; intros H; try discriminate H;
            cbn in H; rewrite Hfc in H; discriminate H).
  all: try (apply login_to_client_session_panics in El
              as (f0 & err0 & -> & Hfl);
            split; [split|]; intros H; try discriminate H;
            cbn in H; rewrite existsb_app, Hfl, orb_true_r in H;
            discriminate H).
  all: pose proof (create_client_object_returns _ _ _ _ _ _ _ _ _ Ec) as Hfc.
  all: pose proof (login_to_client_session_returns _ _ _ _ _ _ _ El) as Hfl.
  - specialize (NS x s2). rewrite Ea in NS. cbn in NS.
    destruct r as [[]|[f err|]]; [congruence| |].
    + pose proof (Server_after_login_panic_is_logged _ _ _ _ _ _ Ea) as Hfa.
      split; [split|]; intros H; try discriminate H.
      cbn in H. rewrite !existsb_app, Hfa, !orb_true_r in H. discriminate H.
    + destruct (Server_after_login_blocks _ _ _ _ Ea) as (Hc & Hfa & Hn).
      split; [split; intros _; [|reflexivity]|intros _; split].
      * cbn. rewrite !existsb_app, Hfc, Hfl, Hfa. reflexivity.
      * cbn. rewrite !existsb_app, Hc, !orb_true_r. reflexivity.
      * counted.
  - specialize (NC x s2). rewrite Ea in NC. cbn in NC.
    destruct r as [[]|[f err|]]; [congruence| |].
    + pose proof (Sender_after_login_panic_is_logged _ _ _ _ _ _ Ea) as Hfa.
      split; [split|]; intros H; try discriminate H.
      cbn in H. rewrite !existsb_app, Hfa, !orb_true_r in H. discriminate H.
    + destruct (Sender_after_login_blocks _ _ _ _ Ea) as (Hc & Hfa & Hn).
      split; [split; intros _; [|reflexivity]|intros _; split].
      * cbn. rewrite !existsb_app, Hfc, Hfl, Hfa. reflexivity.
      * cbn. rewrite !existsb_app, Hc, !orb_true_r. reflexivity.
      * counted.
Qed.

End Endings.

(** ** Failures of the first two stages *)

Section BootstrapStages.

Context {env : Env}.

Variables (statePath statePass : string).
Variables (ndfURL certificatePath ndfPath : string).
Variable (identityStorageKey : string).

Local Abbreviation create :=
  (create_client_object statePath statePass ndfURL certificatePath ndfPath).
Local Abbreviation login :=
  (login_to_client_session statePath statePass identityStorageKey).

Lemma create_NewCmix_fails (s : State) r s1 tc ndf dir pw rc e :
  create s = (r, s1, tc) ->
  In (Called (call_xxdk_NewCmix ndf dir pw rc) (returned_err (Some e))) tc ->
  r = inr (Panicf "Failed to initialize state: %+v" (Some e)).
Proof.
  unfold create_client_object. walk.
  all: intros H Hin; injection H as <- <- <-.
  all: in_cases Hin; injection Hin; intros; subst; reflexivity.
Qed.

Lemma create_uses_the_state_path (s : State) r s1 tc :
  create s = (r, s1, tc) ->
  (forall name r0,
      In (Called (call_os_Stat name) r0) tc -> name = statePath) /\
  (forall ndf dir pw rc r0,
      In (Called (call_xxdk_NewCmix ndf dir pw rc) r0) tc ->
      dir = statePath /\ pw = slice_of_string statePass /\
      rc = EmptyString).
Proof.
  unfold create_client_object. walk.
  all: intros H; injection H as <- <- <-.
  all: split; [intros name r0 Hin | intros ndf dir pw rc r0 Hin].
  all: in_cases Hin; injection Hin; intros; subst; auto.
Qed.

Lemma login_uses_the_state_path (s : State) r s2 tl dir pw r0 :
  login s = (r, s2, tl) ->
  In (Called (call_xxdk_LoadCmix dir pw) r0) tl ->
  dir = statePath /\ pw = slice_of_string statePass.
Proof.
  unfold login_to_client_session. walk.
  all: intros H Hin; injection H as <- <- <-.
  all: in_cases Hin; injection Hin; intros; subst; auto.
Qed.

Lemma login_LoadCmix_fails (s : State) r s2 tl dir pw net e :
  login s = (r, s2, tl) ->
  In (Called (call_xxdk_LoadCmix dir pw) (returned_Cmix net (Some e))) tl ->
  r = inr (Panicf "Failed to load state: %+v" (Some e)) /\
  existsb is_LoadReceptionIdentity tl = false /\
  existsb is_identity_use tl = false.
Proof.
  unfold login_to_client_session. walk.
  all: intros H Hin; injection H as <- <- <-.
  all: in_cases Hin; injection Hin; intros; subst; auto.
Qed.

Lemma login_Make_fails (s : State) r s2 tl net i e :
  login s = (r, s2, tl) ->
  In (Called (call_xxdk_MakeReceptionIdentity net)
        (returned_ReceptionIdentity i (Some e))) tl ->
  r = inr (Panicf "Failed to generate reception identity: %+v" (Some e)) /\
  existsb is_StoreReceptionIdentity tl = false /\
  existsb is_Login tl = false.
Proof.
  unfold login_to_client_session. walk.
  all: intros H Hin; injection H as <- <- <-.
  all: in_cases Hin; injection Hin; intros; subst; auto.
Qed.

Lemma login_Login_fails (s : State) r s2 tl net i u e :
  login s = (r, s2, tl) ->
  In (Called (call_xxdk_Login net i) (returned_E2e u (Some e))) tl ->
  r = inr (Panicf "Unable to Login: %+v" (Some e)).
Proof.
  unfold login_to_client_session. walk.
  all: intros H Hin; injection H as <- <- <-.
  all: in_cases Hin; injection Hin; intros; subst; auto.
Qed.

Lemma login_keeps_loaded_identity (s : State) r s2 tl k net i :
  login s = (r, s2, tl) ->
  In (Called (call_xxdk_LoadReceptionIdentity k net)
        (returned_ReceptionIdentity i None)) tl ->
  existsb is_MakeReceptionIdentity tl = false /\
  existsb is_StoreReceptionIdentity tl = false /\
  (forall net' j r0,
      In (Called (call_xxdk_Login net' j) r0) tl -> net' = net /\ j = i).
Proof.
  unfold login_to_client_session. walk.
  all: intros H Hin; injection H as <- <- <-.
  all: in_cases Hin; injection Hin; intros; subst.
  all: split; [reflexivity | split; [reflexivity|]].
  all: intros net' j r0 Hl; in_cases Hl; injection Hl; intros; subst; auto.
Qed.

Lemma login_returns_logged_in (s : State) net i u s2 tl :
  login s = (inl (net, i, u), s2, tl) ->
  In (Called (call_xxdk_Login net i) (returned_E2e u None)) tl /\
  existsb is_Login_ok tl = true.
Proof.
  unfold login_to_client_session. walk.
  all: intros H; try discriminate H; injection H; intros; subst.
  all: split; [in_trace | reflexivity].
Qed.

End BootstrapStages.

Section BootstrapFailures.

Context {env : Env}.

(** X5.  In both programs [os.Stat], [xxdk.NewCmix] and [xxdk.LoadCmix] are
    given one and the same state path, and the state is loaded with the
    password it is created with (and created with an empty registration
    code). *)
Theorem state_is_loaded_as_it_is_created
    (p : Program) (w : World) (sched : list SelectCase) :
  (forall name r0,
      In (Called (call_os_Stat name) r0) (trace_of (main_of p (w, sched))) ->
      name = statePath_of p) /\
  (forall ndf dir pw rc r0,
      In (Called (call_xxdk_NewCmix ndf dir pw rc) r0)
         (trace_of (main_of p (w, sched))) ->
      dir = statePath_of p /\ pw = slice_of_string (statePass_of p) /\
      rc = EmptyString) /\
  (forall dir pw r0,
      In (Called (call_xxdk_LoadCmix dir pw) r0)
         (trace_of (main_of p (w, sched))) ->
      dir = statePath_of p /\ pw = slice_of_string (statePass_of p)).
Proof.
  split; [|split].
  - intros name r0.
    program_anatomy p w sched; intros Hin; in_cases Hin; try not_there Hin.
    all: exact (proj1 (create_uses_the_state_path _ _ _ _ _ _ _ _ _ Ec)
                  _ _ Hin).
  - intros ndf dir pw rc r0.
    program_anatomy p w sched; intros Hin; in_cases Hin; try not_there Hin.
    all: exact (proj2 (create_uses_the_state_path _ _ _ _ _ _ _ _ _ Ec)
                  _ _ _ _ _ Hin).
  - intros dir pw r0.
    program_anatomy p w sched; intros Hin; in_cases Hin; try not_there Hin.
    all: exact (login_uses_the_state_path _ _ _ _ _ _ _ _ _ _ El Hin).
Qed.

(** X6.  In both programs an error from [xxdk.NewCmix] stops the process
    with "Failed to initialize state": the state is not loaded and no
    identity is touched. *)
Theorem NewCmix_error_is_fatal
    (p : Program) (w : World) (sched : list SelectCase) ndf dir pw rc e :
  In (Called (call_xxdk_NewCmix ndf dir pw rc) (returned_err (Some e)))
     (trace_of (main_of p (w, sched))) ->
  result_of (main_of p (w, sched))
  = inr (Panicf "Failed to initialize state: %+v" (Some e)) /\
  existsb is_LoadCmix (trace_of (main_of p (w, sched))) = false /\
  existsb is_LoadReceptionIdentity (trace_of (main_of p (w, sched))) = false /\
  existsb is_Login (trace_of (main_of p (w, sched))) = false.
Proof.
  program_anatomy p w sched; intros Hin; in_cases Hin; try not_there Hin.
  all: pose proof (create_NewCmix_fails _ _ _ _ _ _ _ _ _ _ _ _ _ _ Ec Hin)
         as Hr; try discriminate Hr.
  all: split; [exact Hr | repeat split; absent].
Qed.

(** X7.  In both programs an error from [xxdk.LoadCmix] stops the process
    with "Failed to load state", before any identity is loaded, generated,
    stored or logged in with. *)
Theorem LoadCmix_error_is_fatal
    (p : Program) (w : World) (sched : list SelectCase) dir pw net e :
  In (Called (call_xxdk_LoadCmix dir pw) (returned_Cmix net (Some e)))
     (trace_of (main_of p (w, sched))) ->
  result_of (main_of p (w, sched))
  = inr (Panicf "Failed to load state: %+v" (Some e)) /\
  existsb is_LoadReceptionIdentity (trace_of (main_of p (w, sched))) = false /\
  existsb is_identity_use (trace_of (main_of p (w, sched))) = false.
Proof.
  program_anatomy p w sched; intros Hin; in_cases Hin; try not_there Hin.
  all: destruct (login_LoadCmix_fails _ _ _ _ _ _ _ _ _ _ _ El Hin)
         as (Hr & Hl & Hu); try discriminate Hr.
  all: split; [injection Hr as ->; reflexivity | split; absent].
Qed.

(** X8.  In both programs an error from [xxdk.MakeReceptionIdentity] stops
    the process with "Failed to generate reception identity": nothing is
    stored and there is no login. *)
Theorem MakeReceptionIdentity_error_is_fatal
    (p : Program) (w : World) (sched : list SelectCase) net i e :
  In (Called (call_xxdk_MakeReceptionIdentity net)
        (returned_ReceptionIdentity i (Some e)))
     (trace_of (main_of p (w, sched))) ->
  result_of (main_of p (w, sched))
  = inr (Panicf "Failed to generate reception identity: %+v" (Some e)) /\
  existsb is_StoreReceptionIdentity (trace_of (main_of p (w, sched))) = false /\
  existsb is_Login (trace_of (main_of p (w, sched))) = false.
Proof.
  program_anatomy p w sched; intros Hin; in_cases Hin; try not_there Hin.
  all: destruct (login_Make_fails _ _ _ _ _ _ _ _ _ _ El Hin)
         as (Hr & Hs & Hl); try discriminate Hr.
  all: split; [injection Hr as ->; reflexivity | split; absent].
Qed.

(** X9.  In both programs an error from [xxdk.Login] stops the process
    with "Unable to Login" and nothing of what follows the login is done:
    no file is written, no key unmarshalled, no server started, no
    follower started, no health callback subscribed, no health value
    dequeued, no contact read, no connection made, nothing sent. *)
Theorem Login_error_is_fatal
    (p : Program) (w : World) (sched : list SelectCase) net i u e :
  In (Called (call_xxdk_Login net i) (returned_E2e u (Some e)))
     (trace_of (main_of p (w, sched))) ->
  result_of (main_of p (w, sched))
  = inr (Panicf "Unable to Login: %+v" (Some e)) /\
  existsb is_after_login_step (trace_of (main_of p (w, sched))) = false /\
  existsb (is_ReadFile_of Sender.serverContactPath)
    (trace_of (main_of p (w, sched))) = false.
Proof.
  program_anatomy p w sched; intros Hin; in_cases Hin; try not_there Hin.
  all: pose proof (login_Login_fails _ _ _ _ _ _ _ _ _ _ _ El Hin) as Hr;
       try discriminate Hr.
  all: split; [injection Hr as ->; reflexivity | split; absent].
Qed.

(** X10.  In both programs an identity that [xxdk.LoadReceptionIdentity]
    returns without error is the one that is used: no identity is
    generated, nothing is stored, and the login is with that identity and
    the client it was loaded for. *)
Theorem loaded_identity_is_kept
    (p : Program) (w : World) (sched : list SelectCase) k net i :
  In (Called (call_xxdk_LoadReceptionIdentity k net)
        (returned_ReceptionIdentity i None))
     (trace_of (main_of p (w, sched))) ->
  existsb is_MakeReceptionIdentity (trace_of (main_of p (w, sched))) = false /\
  existsb is_StoreReceptionIdentity (trace_of (main_of p (w, sched))) = false /\
  (forall net' j r0,
      In (Called (call_xxdk_Login net' j) r0)
         (trace_of (main_of p (w, sched))) ->
      net' = net /\ j = i).
Proof.
  program_anatomy p w sched; intros Hin; in_cases Hin; try not_there Hin.
  all: destruct (login_keeps_loaded_identity _ _ _ _ _ _ _ _ _ _ El Hin)
         as (Hm & Hs & Hl).
  all: split; [absent | split; [absent|]].
  all: intros net' j r0 Hlog; in_cases Hlog; try not_there Hlog.
  all: exact (Hl _ _ _ Hlog).
Qed.

End BootstrapFailures.

(** ** The server after login *)

Section ServerAfterLogin.

Context {env : Env}.

Lemma Server_after_login_key_unreadable x (s : State) r s' ta b k e :
  Server.after_login x s = (r, s', ta) ->
  In (Called (call_cyclic_Int_UnmarshalJSON b) (returned_Int k (Some e))) ta ->
  r = inr (Panicf "Unable to read diffie-hellman private key: %+v" (Some e)) /\
  existsb is_NewServer ta = false /\
  existsb is_connectivity_step ta = false.
Proof.
  destruct x as [[baseClient identity] e2eClient].
  unfold_server_after_login. walk.
  all: intros H Hin; injection H as <- <- <-.
  all: try match goal with
           | H : waitUntilConnected_loop _ _ = _ |- _ =>
               apply waitUntilConnected_loop_spec in H as (Hv & _ & _)
           end.
  all: in_cases Hin; try not_there Hin.
  all: injection Hin; intros; subst; auto.
Qed.

Lemma Server_after_login_server_arguments
    baseClient identity e2eClient (s : State) r s' ta id k g n r0 :
  Server.after_login (baseClient, identity, e2eClient) s = (r, s', ta) ->
  In (Called (call_single_NewServer id k g n) r0) ta ->
  id = ReceptionIdentity_ID (E2e_GetReceptionIdentity e2eClient) /\
  k = dhPrivateKey /\
  g = e2e_Handler_GetGroup (E2e_GetE2E e2eClient) /\
  n = E2e_GetCmix e2eClient /\
  exists dhKeyPriv,
    In (Called (call_cyclic_Int_UnmarshalJSON
                  (ReceptionIdentity_DHKeyPrivate
                     (E2e_GetReceptionIdentity e2eClient)))
          (returned_Int dhKeyPriv None)) ta.
Proof.
  unfold_server_after_login. walk.
  all: intros H Hin; injection H as <- <- <-.
  all: try match goal with
           | H : waitUntilConnected_loop _ _ = _ |- _ =>
               apply waitUntilConnected_loop_spec in H as (Hv & _ & _)
           end.
  all: in_cases Hin; try not_there Hin.
  all: injection Hin; intros; subst.
  all: repeat split; eexists; in_trace.
Qed.

(** X11.  In the server a private key that does not unmarshal stops the
    process with "Unable to read diffie-hellman private key": no server is
    started, the follower is not started, nothing is waited for. *)
Theorem unreadable_key_is_fatal
    (w : World) (sched : list SelectCase) b k e :
  In (Called (call_cyclic_Int_UnmarshalJSON b) (returned_Int k (Some e)))
     (trace_of (Server.main (w, sched))) ->
  result_of (Server.main (w, sched))
  = inr (Panicf "Unable to read diffie-hellman private key: %+v" (Some e)) /\
  existsb is_NewServer (trace_of (Server.main (w, sched))) = false /\
  existsb is_connectivity_step (trace_of (Server.main (w, sched))) = false.
Proof.
  anatomy_of (Server_main_anatomy w sched); intros Hin;
    in_cases Hin; try not_there Hin.
  destruct (Server_after_login_key_unreadable _ _ _ _ _ _ _ _ Ea Hin)
    as (Hr & Hs & Hc).
  split; [exact Hr | split; absent].
Qed.

(** X12.  What the server hands to [single.NewServer]: the id of the
    reception identity of the client that [xxdk.Login] returned, that
    client's group and cmix, and [dhPrivateKey].  The key of that identity
    has been unmarshalled without error just before; what is handed over
    is [dhPrivateKey], whatever the unmarshalling gave. *)
Theorem server_is_started_for_the_logged_in_client
    (w : World) (sched : list SelectCase) id k g n r0 :
  In (Called (call_single_NewServer id k g n) r0)
     (trace_of (Server.main (w, sched))) ->
  exists net i e2eClient dhKeyPriv,
    In (Called (call_xxdk_Login net i) (returned_E2e e2eClient None))
       (trace_of (Server.main (w, sched))) /\
    In (Called (call_cyclic_Int_UnmarshalJSON
                  (ReceptionIdentity_DHKeyPrivate
                     (E2e_GetReceptionIdentity e2eClient)))
          (returned_Int dhKeyPriv None))
       (trace_of (Server.main (w, sched))) /\
    id = ReceptionIdentity_ID (E2e_GetReceptionIdentity e2eClient) /\
    k = dhPrivateKey /\
    g = e2e_Handler_GetGroup (E2e_GetE2E e2eClient) /\
    n = E2e_GetCmix e2eClient.
Proof.
  anatomy_of (Server_main_anatomy w sched); intros Hin;
    in_cases Hin; try not_there Hin.
  destruct x as [[net i] e2eClient].
  destruct (Server_after_login_server_arguments _ _ _ _ _ _ _ _ _ _ _ _ Ea Hin)
    as (Hid & Hk & Hg & Hn & (dhKeyPriv & Hkey)).
  destruct (login_returns_logged_in _ _ _ _ _ _ _ _ _ El) as [Hlog _].
  exists net, i, e2eClient, dhKeyPriv.
  split; [apply in_cons, in_or_app; right; apply in_or_app; left; exact Hlog|].
  split; [in_trace; exact Hkey|].
  auto.
Qed.

End ServerAfterLogin.

(** ** The sender after login *)

Section SenderAfterLogin.

Context {env : Env}.

Lemma Sender_after_login_contact_unreadable x (s : State) r s' ta d e :
  Sender.after_login x s = (r, s', ta) ->
  In (Called (call_ioutil_ReadFile Sender.serverContactPath)
        (returned_bytes d (Some e))) ta ->
  r = inr (Panicf "Failed to read server contact file: %+v" (Some e)) /\
  existsb is_connected ta = true /\
  existsb is_contact_Unmarshal ta = false /\
  existsb is_post_connect_action ta = false.
Proof.
  destruct x as [[baseClient identity] e2eClient].
  sender_walk.
  all: intros H Hin; injection H as <- <- <-.
  all: wait_events.
  all: in_cases Hin; try not_there Hin.
  all: injection Hin; intros; subst.
  all: destruct Hr as [Hc _].
  all: not_waited is_contact_Unmarshal.
  all: not_waited is_post_connect_action.
  all: repeat split; by_wait_facts.
Qed.

Lemma Sender_after_login_contact_malformed x (s : State) r s' ta d c e :
  Sender.after_login x s = (r, s', ta) ->
  In (Called (call_contact_Unmarshal d) (returned_Contact c (Some e))) ta ->
  r = inr (Panicf "Failed to get contact data: %+v" (Some e)) /\
  existsb is_post_connect_action ta = false.
Proof.
  destruct x as [[baseClient identity] e2eClient].
  sender_walk.
  all: intros H Hin; injection H as <- <- <-.
  all: wait_events.
  all: in_cases Hin; try not_there Hin.
  all: injection Hin; intros; subst.
  all: not_waited is_post_connect_action.
  all: repeat split; by_wait_facts.
Qed.

Lemma Sender_after_login_connect_fails x (s : State) r s' ta c u h e :
  Sender.after_login x s = (r, s', ta) ->
  In (Called (call_connect_Connect c u) (returned_Connection h (Some e))) ta ->
  r = inr (Panicf "Failed to create connection object: %+v" (Some e)) /\
  existsb is_RegisterListener ta = false /\
  existsb is_SendE2E ta = false.
Proof.
  destruct x as [[baseClient identity] e2eClient].
  sender_walk.
  all: intros H Hin; injection H as <- <- <-.
  all: wait_events.
  all: in_cases Hin; try not_there Hin.
  all: injection Hin; intros; subst.
  all: not_waited is_RegisterListener.
  all: not_waited is_SendE2E.
  all: repeat split; by_wait_facts.
Qed.

Lemma Sender_after_login_listener_fails x (s : State) r s' ta h mt name e :
  Sender.after_login x s = (r, s', ta) ->
  In (Called (call_RegisterListener h mt name) (returned_err (Some e))) ta ->
  r = inr (Panicf "Could not register message listener: %+v" (Some e)) /\
  existsb is_SendE2E ta = false.
Proof.
  destruct x as [[baseClient identity] e2eClient].
  sender_walk.
  all: intros H Hin; injection H as <- <- <-.
  all: wait_events.
  all: in_cases Hin; try not_there Hin.
  all: injection Hin; intros; subst.
  all: not_waited is_SendE2E.
  all: repeat split; by_wait_facts.
Qed.

Lemma Sender_after_login_send_arguments
    baseClient identity e2eClient (s : State) r s' ta h mt payload r0 :
  Sender.after_login (baseClient, identity, e2eClient) s = (r, s', ta) ->
  In (Called (call_SendE2E h mt payload) r0) ta ->
  mt = catalog_XxMessage /\
  payload = slice_of_string Sender.msgBody /\
  existsb is_connected ta = true /\
  exists data c,
    In (Called (call_ioutil_ReadFile Sender.serverContactPath)
          (returned_bytes data None)) ta /\
    In (Called (call_contact_Unmarshal data) (returned_Contact c None)) ta /\
    In (Called (call_connect_Connect c e2eClient)
          (returned_Connection h None)) ta /\
    In (Called (call_RegisterListener h catalog_NoType "e2e Message Listener")
          (returned_err None)) ta.
Proof.
  sender_walk.
  all: intros H Hin; injection H as <- <- <-.
  all: wait_events.
  all: in_cases Hin; try not_there Hin.
  all: injection Hin; intros; subst.
  all: destruct Hr as [Hc _].
  all: split; [reflexivity | split; [reflexivity | split; [by_wait_facts|]]].
  all: do 2 eexists; repeat split; in_trace.
Qed.

Lemma Sender_after_login_sent x (s : State) r s' ta h mt payload rs m t :
  Sender.after_login x s = (r, s', ta) ->
  In (Called (call_SendE2E h mt payload) (returned_send rs m t None)) ta ->
  r = inr select_forever /\
  existsb is_fatal ta = false /\
  (forall e, ~ In (fmt_Printf "Failed to send message: %+v" e) ta) /\
  exists pre,
    ta = pre ++ [Called (call_SendE2E h mt payload) (returned_send rs m t None);
                 jww_INFO (log_Message_sent m rs t)].
Proof.
  destruct x as [[baseClient identity] e2eClient].
  sender_walk.
  all: intros H Hin; injection H as <- <- <-.
  all: wait_events.
  all: in_cases Hin; try not_there Hin.
  all: injection Hin; intros; subst.
  all: destruct Hr as [_ Hf].
  all: split; [reflexivity | split; [by_wait_facts | split; [|ends_with]]].
  all: intros e0 Hp; in_cases Hp; try not_there Hp; discriminate Hp.
Qed.

End SenderAfterLogin.

Section SenderRuns.

Context {env : Env}.

(** X13.  In the sender, a peer contact file that cannot be read stops the
    process with "Failed to read server contact file": nothing is
    unmarshalled, no connection is made, no listener registered and nothing
    sent.  The file is read only once a [true] has been dequeued. *)
Theorem unreadable_peer_contact_is_fatal
    (w : World) (sched : list SelectCase) d e :
  In (Called (call_ioutil_ReadFile Sender.serverContactPath)
        (returned_bytes d (Some e)))
     (trace_of (Sender.main (w, sched))) ->
  result_of (Sender.main (w, sched))
  = inr (Panicf "Failed to read server contact file: %+v" (Some e)) /\
  existsb is_connected (trace_of (Sender.main (w, sched))) = true /\
  existsb is_contact_Unmarshal (trace_of (Sender.main (w, sched))) = false /\
  existsb is_post_connect_action (trace_of (Sender.main (w, sched))) = false.
Proof.
  anatomy_of (Sender_main_anatomy w sched); intros Hin;
    in_cases Hin; try not_there Hin.
  destruct (Sender_after_login_contact_unreadable _ _ _ _ _ _ _ Ea Hin)
    as (Hr & Hc & Hu & Hp).
  split; [exact Hr|].
  split; [cbn; rewrite !existsb_app, Hc, !orb_true_r; reflexivity|].
  split; absent.
Qed.

(** X14.  In the sender, contact data that does not unmarshal stops the
    process with "Failed to get contact data": no connection is made, no
    listener registered and nothing sent. *)
Theorem malformed_peer_contact_is_fatal
    (w : World) (sched : list SelectCase) d c e :
  In (Called (call_contact_Unmarshal d) (returned_Contact c (Some e)))
     (trace_of (Sender.main (w, sched))) ->
  result_of (Sender.main (w, sched))
  = inr (Panicf "Failed to get contact data: %+v" (Some e)) /\
  existsb is_post_connect_action (trace_of (Sender.main (w, sched))) = false.
Proof.
  anatomy_of (Sender_main_anatomy w sched); intros Hin;
    in_cases Hin; try not_there Hin.
  destruct (Sender_after_login_contact_malformed _ _ _ _ _ _ _ _ Ea Hin)
    as (Hr & Hp).
  split; [exact Hr | absent].
Qed.

(** X15.  In the sender, a connection that cannot be made stops the
    process with "Failed to create connection object": no listener is
    registered and nothing is sent. *)
Theorem Connect_error_is_fatal
    (w : World) (sched : list SelectCase) c u h e :
  In (Called (call_connect_Connect c u) (returned_Connection h (Some e)))
     (trace_of (Sender.main (w, sched))) ->
  result_of (Sender.main (w, sched))
  = inr (Panicf "Failed to create connection object: %+v" (Some e)) /\
  existsb is_RegisterListener (trace_of (Sender.main (w, sched))) = false /\
  existsb is_SendE2E (trace_of (Sender.main (w, sched))) = false.
Proof.
  anatomy_of (Sender_main_anatomy w sched); intros Hin;
    in_cases Hin; try not_there Hin.
  destruct (Sender_after_login_connect_fails _ _ _ _ _ _ _ _ _ Ea Hin)
    as (Hr & Hl & Hs).
  split; [exact Hr | split; absent].
Qed.

(** X16.  In the sender, a listener that cannot be registered stops the
    process with "Could not register message listener": nothing is sent. *)
Theorem RegisterListener_error_is_fatal
    (w : World) (sched : list SelectCase) h mt name e :
  In (Called (call_RegisterListener h mt name) (returned_err (Some e)))
     (trace_of (Sender.main (w, sched))) ->
  result_of (Sender.main (w, sched))
  = inr (Panicf "Could not register message listener: %+v" (Some e)) /\
  existsb is_SendE2E (trace_of (Sender.main (w, sched))) = false.
Proof.
  anatomy_of (Sender_main_anatomy w sched); intros Hin;
    in_cases Hin; try not_there Hin.
  destruct (Sender_after_login_listener_fails _ _ _ _ _ _ _ _ _ Ea Hin)
    as (Hr & Hs).
  split; [exact Hr | absent].
Qed.

(** X17.  Whatever the sender sends is the text [msgBody], as an
    [XxMessage], after a [true] has been dequeued, over the connection
    that [connect.Connect] returned without error for the logged-in client
    and for the contact unmarshalled from the bytes read at the peer's
    contact path; the catch-all listener has been registered on that same
    connection without error. *)
Theorem message_goes_to_the_contact_in_the_file
    (w : World) (sched : list SelectCase) h mt payload r0 :
  In (Called (call_SendE2E h mt payload) r0)
     (trace_of (Sender.main (w, sched))) ->
  mt = catalog_XxMessage /\
  payload = slice_of_string Sender.msgBody /\
  existsb is_connected (trace_of (Sender.main (w, sched))) = true /\
  exists net i e2eClient data c,
    In (Called (call_xxdk_Login net i) (returned_E2e e2eClient None))
       (trace_of (Sender.main (w, sched))) /\
    In (Called (call_ioutil_ReadFile Sender.serverContactPath)
          (returned_bytes data None))
       (trace_of (Sender.main (w, sched))) /\
    In (Called (call_contact_Unmarshal data) (returned_Contact c None))
       (trace_of (Sender.main (w, sched))) /\
    In (Called (call_connect_Connect c e2eClient)
          (returned_Connection h None))
       (trace_of (Sender.main (w, sched))) /\
    In (Called (call_RegisterListener h catalog_NoType "e2e Message Listener")
          (returned_err None))
       (trace_of (Sender.main (w, sched))).
Proof.
  anatomy_of (Sender_main_anatomy w sched); intros Hin;
    in_cases Hin; try not_there Hin.
  destruct x as [[net i] e2eClient].
  destruct (Sender_after_login_send_arguments _ _ _ _ _ _ _ _ _ _ _ Ea Hin)
    as (Hmt & Hpl & Hc & (data & c & Hrd & Hun & Hco & Hli)).
  destruct (login_returns_logged_in _ _ _ _ _ _ _ _ _ El) as [Hlog _].
  split; [exact Hmt | split; [exact Hpl | split]].
  - cbn. rewrite !existsb_app, Hc, !orb_true_r. reflexivity.
  - exists net, i, e2eClient, data, c.
    split; [apply in_cons, in_or_app; right; apply in_or_app; left;
            exact Hlog|].
    repeat split; in_trace; assumption.
Qed.

(** X18.  In the sender, when the send returns no error, the run ends with
    the send and the line "Message ... sent in RoundIDs: ... at ..." with
    the values the send returned; no send failure is printed, nothing is
    fatal, and the process ends up in the final [select {}]. *)
Theorem successful_send_is_logged
    (w : World) (sched : list SelectCase) h mt payload rs m t :
  In (Called (call_SendE2E h mt payload) (returned_send rs m t None))
     (trace_of (Sender.main (w, sched))) ->
  result_of (Sender.main (w, sched)) = inr select_forever /\
  existsb is_fatal (trace_of (Sender.main (w, sched))) = false /\
  (forall e,
      ~ In (fmt_Printf "Failed to send message: %+v" e)
           (trace_of (Sender.main (w, sched)))) /\
  exists pre,
    trace_of (Sender.main (w, sched)) =
    pre ++ [Called (call_SendE2E h mt payload) (returned_send rs m t None);
            jww_INFO (log_Message_sent m rs t)].
Proof.
  anatomy_of (Sender_main_anatomy w sched); intros Hin;
    in_cases Hin; try not_there Hin.
  destruct (Sender_after_login_sent _ _ _ _ _ _ _ _ _ _ _ Ea Hin)
    as (Hr & Hf & Hp & (pre & Hta)).
  apply create_client_object_returns in Ec.
  apply login_to_client_session_returns in El.
  split; [exact Hr | split; [|split]].
  - cbn [existsb is_fatal orb]. rewrite !existsb_app, Ec, El, Hf. reflexivity.
  - intros e Hpr. in_cases Hpr; try not_there Hpr. exact (Hp e Hpr).
  - rewrite Hta. ends_with.
Qed.

End SenderRuns.

(** ** What a program never does *)

Section OwnWork.

Context {env : Env}.


End OwnWork.

(** ** No call is made twice *)

Section Once.

Context {env : Env}.

Lemma create_client_object_calls_once (p : Program) (s : State) :
  Forall
    (fun K =>
       count K
         (trace_of
            (create_client_object (statePath_of p) (statePass_of p)
               (ndfURL_of p) (certificatePath_of p) (ndfPath_of p) s)) <= 1)
    (call_kinds p).
Proof.
  destruct p; unfold create_client_object, trace_of; walk.
  all: repeat apply Forall_cons; try apply Forall_nil.
  all: cbn; lia.
Qed.

Lemma login_to_client_session_calls_once (p : Program) (s : State) :
  Forall
    (fun K =>
       count K
         (trace_of
            (login_to_client_session (statePath_of p) (statePass_of p)
               (identityStorageKey_of p) s)) <= 1)
    (call_kinds p).
Proof.
  destruct p; unfold login_to_client_session, trace_of; walk.
  all: repeat apply Forall_cons; try apply Forall_nil.
  all: cbn; lia.
Qed.

(** The wait makes no call. *)
Ltac no_call_in_wait :=
  repeat match goal with
         | Hv : forallb is_wait_event ?l = true
           |- context [count ?K ?l] =>
             rewrite (count_zero K l
                        (existsb_false_of_forallb _ K l Hv ltac:(disjoint)))
         end.

Lemma after_login_calls_once (p : Program) x (s : State) :
  Forall (fun K => count K (trace_of (after_login_of p x s)) <= 1)
    (call_kinds p).
Proof.
  destruct x as [[baseClient identity] e2eClient].
  destruct p; cbn [after_login_of]; unfold trace_of;
    [unfold_server_after_login | unfold_sender_after_login]; walk.
  all: try match goal with
           | H : waitUntilConnected_loop _ _ = _ |- _ =>
               apply waitUntilConnected_loop_spec in H as (Hv & _ & _)
           end.
  all: repeat apply Forall_cons; try apply Forall_nil.
  all: cbn [snd]; rewrite ?count_cons, ?count_app, ?count_cons;
       no_call_in_wait; cbn; lia.
Qed.

(** X20.  In both programs no library call is repeated within a run:
    [os.Stat], each of the three file reads, the download, [xxdk.NewCmix],
    [xxdk.LoadCmix], the load, the generation and the store of the
    identity, [xxdk.Login], the key unmarshalling, [single.NewServer],
    the start of the follower, the health subscription, the contact
    unmarshalling, [connect.Connect], the listener registration and the
    send are each called at most once. *)
Theorem every_call_is_made_at_most_once
    (p : Program) (w : World) (sched : list SelectCase) :
  Forall (fun K => count K (trace_of (main_of p (w, sched))) <= 1)
    (call_kinds p).
Proof.
  apply Forall_forall. intros K HK.
  pose proof (fun s =>
                proj1 (Forall_forall _ _)
                  (create_client_object_calls_once p s) K HK) as Fc.
  pose proof (fun s =>
                proj1 (Forall_forall _ _)
                  (login_to_client_session_calls_once p s) K HK) as Fl.
  pose proof (fun x s =>
                proj1 (Forall_forall _ _)
                  (after_login_calls_once p x s) K HK) as Fa.
  revert K HK Fc Fl Fa.
  program_anatomy p w sched; intros K HK Fc Fl Fa.
  all: specialize (Fc (initLog 1 "client.log" w, sched));
       rewrite Ec in Fc; cbn [trace_of snd] in Fc.
  all: try (specialize (Fl s1); rewrite El in Fl; cbn [trace_of snd] in Fl).
  all: try (specialize (Fa x s2); rewrite Ea in Fa; cbn [trace_of snd] in Fa).
  all: cbn [call_kinds ndfPath_of certificatePath_of] in HK.
  all: repeat (destruct HK as [HK|HK]; [subst K|]); try contradiction.
  all: rewrite ?count_cons, ?count_app; cbn [app].
  all: repeat match goal with
              | V : forallb _ ?t = true |- context [count ?K ?t] =>
                  rewrite (count_zero K t
                             (existsb_false_of_forallb _ K t V
                                ltac:(disjoint)))
              end.
  all: try match goal with
           | |- context [is_ReadFile_of ?f (Called (call_initLog ?a ?b) ?r)] =>
               change (is_ReadFile_of f (Called (call_initLog a b) r))
                 with false
           end.
  all: cbn [ndfPath_of certificatePath_of] in *; cbn -[count]; lia.
Qed.

End Once.

(** ** The order of the stages *)

Section StageOrder.

Context {env : Env}.

Lemma preceded_by_absent (P Q : Event -> bool) (t : list Event) :
  existsb Q t = false -> preceded_by P Q t.
Proof.
  intros H. apply preceded_by_b_sound, preceded_by_b_absent. exact H.
Qed.

Lemma preceded_by_past (P Q : Event -> bool) (t1 t2 : list Event) :
  existsb Q t1 = false -> existsb P t1 = true -> preceded_by P Q (t1 ++ t2).
Proof.
  intros HQ HP. apply preceded_by_b_sound.
  rewrite preceded_by_b_app, (preceded_by_b_absent P Q t1 HQ), HP.
  apply preceded_by_b_seen.
Qed.

Lemma after_login_connectivity_order (p : Program) x (s : State) :
  preceded_by_b is_StartNetworkFollower is_AddHealthCallback false
    (trace_of (after_login_of p x s)) = true /\
  preceded_by_b is_AddHealthCallback is_Network_Status false
    (trace_of (after_login_of p x s)) = true.
Proof.
  destruct x as [[baseClient identity] e2eClient].
  destruct p; cbn [after_login_of]; unfold trace_of;
    [unfold_server_after_login | unfold_sender_after_login]; walk.
  all: try match goal with
           | H : waitUntilConnected_loop _ _ = _ |- _ =>
               apply waitUntilConnected_loop_spec in H as (Hv & _ & _)
           end.
  all: try not_waited is_AddHealthCallback.
  all: split.
  all: cbn [snd preceded_by_b is_StartNetworkFollower is_AddHealthCallback
              is_Network_Status orb andb app];
       rewrite ?preceded_by_b_app;
       try rewrite (preceded_by_b_absent is_StartNetworkFollower
                      is_AddHealthCallback _ Hw);
       rewrite ?preceded_by_b_seen; reflexivity.
Qed.

(** X21.  The order of the stages, in both programs: whatever is done
    after the login (the file write, the key unmarshalling, the server, the
    follower, the health subscription, a health value dequeued, the read of
    the peer's contact, its unmarshalling, the connection, the listener,
    the send) comes after an [xxdk.Login] that returned no error; the
    health subscription comes after the start of the follower, and a
    health value is dequeued only after the subscription. *)
Theorem stages_run_in_order
    (p : Program) (w : World) (sched : list SelectCase) :
  preceded_by is_Login_ok
    (fun e => is_after_login_step e
              || is_ReadFile_of Sender.serverContactPath e)
    (trace_of (main_of p (w, sched))) /\
  preceded_by is_StartNetworkFollower is_AddHealthCallback
    (trace_of (main_of p (w, sched))) /\
  preceded_by is_AddHealthCallback is_Network_Status
    (trace_of (main_of p (w, sched))).
Proof.
  split; [|split].
  - program_anatomy p w sched.
    all: try (apply preceded_by_absent; absent).
    all: destruct x as [[net i] u].
    all: destruct (login_returns_logged_in _ _ _ _ _ _ _ _ _ El) as [_ Hl].
    all: cbn [trace_of snd]; rewrite app_comm_cons, app_assoc.
    all: apply preceded_by_past;
         [absent | cbn; rewrite existsb_app, Hl, orb_true_r; reflexivity].
  - pose proof (fun x s => proj1 (after_login_connectivity_order p x s)) as Ha.
    pose proof (main_anatomy p w sched) as A.
    destruct p;
      (eapply anatomy_preceded_by;
       [disjoint | disjoint | reflexivity | exact Ha | exact A]).
  - pose proof (fun x s => proj2 (after_login_connectivity_order p x s)) as Ha.
    pose proof (main_anatomy p w sched) as A.
    destruct p;
      (eapply anatomy_preceded_by;
       [disjoint | disjoint | reflexivity | exact Ha | exact A]).
Qed.

End StageOrder.

(** ** The client that is followed *)

Section Followed.

Context {env : Env}.




End Followed.

(** ** A network definition that cannot be read *)

Section DefinitionRead.

Context {env : Env}.

Variables (statePath statePass : string).
Variables (ndfURL certificatePath ndfPath : string).

Hypothesis paths_differ : ndfPath <> certificatePath.

Lemma create_definition_read_error (s : State) r s1 tc d e :
  create_client_object statePath statePass ndfURL certificatePath ndfPath s
  = (r, s1, tc) ->
  In (Called (call_ioutil_ReadFile ndfPath) (returned_bytes d (Some e))) tc ->
  exists pre next post,
    tc = pre
         ++ Called (call_ioutil_ReadFile ndfPath) (returned_bytes d (Some e))
         :: jww_INFO (log_NDF_does_not_exist e) :: next :: post /\
    (if is_nil d then is_ReadFile_of certificatePath next
     else is_NewCmix next) = true.
Proof.
  unfold create_client_object. walk.
  all: intros H Hin; injection H as <- <- <-.
  all: in_cases Hin;
       first [ discriminate Hin
             | exfalso; injection Hin; intros; congruence
             | injection Hin; intros; subst ].
  all: eexists [_]; do 2 eexists; (split; [reflexivity|]).
  all: cbn; rewrite ?String.eqb_refl; reflexivity.
Qed.

End DefinitionRead.

Section DefinitionReadOfRun.

Context {env : Env}.

(** X23.  In both programs an error from reading the local network
    definition is logged with [jww.INFO] and nothing more: the log line
    follows the read at once, and the run goes on with what the bytes
    decide, not the error: the read of the certificate when the read
    returned nil, [xxdk.NewCmix] when it returned bytes along with the
    error. *)
Theorem definition_read_error_is_only_logged
    (p : Program) (w : World) (sched : list SelectCase) d e :
  In (Called (call_ioutil_ReadFile (ndfPath_of p)) (returned_bytes d (Some e)))
     (trace_of (main_of p (w, sched))) ->
  exists pre next post,
    trace_of (main_of p (w, sched))
    = pre
      ++ Called (call_ioutil_ReadFile (ndfPath_of p))
           (returned_bytes d (Some e))
      :: jww_INFO (log_NDF_does_not_exist e) :: next :: post /\
    (if is_nil d then is_ReadFile_of (certificatePath_of p) next
     else is_NewCmix next) = true.
Proof.
  pose proof (ndfPath_is_not_certificatePath p) as Hd.
  program_anatomy p w sched; intros Hin; in_cases Hin; try not_there Hin.
  all: destruct (create_definition_read_error _ _ _ _ _ Hd _ _ _ _ _ _ Ec Hin)
         as (pre & next & post & Htc & Hnext).
  all: exists (Called (call_initLog 1 "client.log") returned :: pre), next.
  all: eexists; (split; [|exact Hnext]).
  all: rewrite Htc; cbn [trace_of snd app]; rewrite <- ?app_assoc; cbn [app];
       reflexivity.
Qed.

End DefinitionReadOfRun.

(** ** The server whose follower does not start *)

Section ServerFollower.

Context {env : Env}.

Lemma Server_after_login_follower_fails x (s : State) r s' ta u d e :
  Server.after_login x s = (r, s', ta) ->
  In (Called (call_E2e_StartNetworkFollower u d) (returned_err (Some e))) ta ->
  r = inr (Panicf "Failed to start network follower: %+v" (Some e)) /\
  d = Server.networkFollowerTimeout /\
  existsb is_NewServer ta = true /\
  exists pre,
    ta = pre ++ [Called (call_E2e_StartNetworkFollower u d)
                   (returned_err (Some e));
                 jww_FATAL "Failed to start network follower: %+v" (Some e)].
Proof.
  destruct x as [[baseClient identity] e2eClient].
  unfold_server_after_login. walk.
  all: intros H Hin; injection H as <- <- <-.
  all: try match goal with
           | H : waitUntilConnected_loop _ _ = _ |- _ =>
               apply waitUntilConnected_loop_spec in H as (Hv & _ & _)
           end.
  all: in_cases Hin; try not_there Hin.
  all: injection Hin; intros; subst.
  all: repeat (split; [reflexivity|]).
  all: ends_with.
Qed.

(** X24.  In the server a follower that does not start stops the process
    with "Failed to start network follower": the failed call, made with
    the timeout of five seconds, and the fatal line are the last two events
    of the run.  By then the single-use server has been started. *)
Theorem follower_error_stops_the_started_server
    (w : World) (sched : list SelectCase) u d e :
  In (Called (call_E2e_StartNetworkFollower u d) (returned_err (Some e)))
     (trace_of (Server.main (w, sched))) ->
  result_of (Server.main (w, sched))
  = inr (Panicf "Failed to start network follower: %+v" (Some e)) /\
  d = Server.networkFollowerTimeout /\
  existsb is_NewServer (trace_of (Server.main (w, sched))) = true /\
  exists pre,
    trace_of (Server.main (w, sched))
    = pre ++ [Called (call_E2e_StartNetworkFollower u d)
                (returned_err (Some e));
              jww_FATAL "Failed to start network follower: %+v" (Some e)].
Proof.
  anatomy_of (Server_main_anatomy w sched); intros Hin;
    in_cases Hin; try not_there Hin.
  destruct (Server_after_login_follower_fails _ _ _ _ _ _ _ _ Ea Hin)
    as (Hr & Hd & Hs & (pre & Hta)).
  split; [exact Hr | split; [exact Hd|]].
  split; [cbn; rewrite !existsb_app, Hs, !orb_true_r; reflexivity|].
  rewrite Hta. ends_with.
Qed.

End ServerFollower.
(** ** Runs in the small world *)

#[local] Existing Instance Toy.env.

(** An explicit event of an explicit trace, by its position. *)
Ltac in_at n := apply (nth_error_In _ n); reflexivity.

Ltac in_run :=
  first [ in_at 0 | in_at 1 | in_at 2 | in_at 3 | in_at 4 | in_at 5 | in_at 6
        | in_at 7 | in_at 8 | in_at 9 | in_at 10 | in_at 11 | in_at 12
        | in_at 13 | in_at 14 | in_at 15 | in_at 16 | in_at 17 | in_at 18
        | in_at 19 | in_at 20 | in_at 21 | in_at 22 | in_at 23 | in_at 24 ].

(** C2 as stated fails on the server.  In a run from an empty disk that
    connects at the second health value, the single-use server is started
    while no [true] has been dequeued yet: the post-connect action is not
    preceded by the gate's success. *)
Lemma server_starts_before_gate_resolves :
  ~ preceded_by is_connected is_post_connect_action
      (trace_of (Server.main
                   (Toy.fresh, [recv_connected false; recv_connected true]))).
Proof.
  intros H. apply preceded_by_decide in H. vm_compute in H. discriminate H.
Qed.

(** C3 fails on the sender.  With state, identity and peer contact in
    place and a follower that fails to start, the sender prints the error
    and goes on: it subscribes to health changes, waits, connects, sends,
    and ends in the final [select {}]; no panic is raised. *)
Theorem sender_goes_on_after_follower_error :
  let run := Sender.main (Toy.with_follower_failure Toy.returning,
                          [recv_connected true]) in
  In (Called (call_Cmix_StartNetworkFollower tt 5)
        (returned_err (Some (errors_New "follower failed"))))
     (trace_of run) /\
  In (fmt_Printf "Failed to start network follower: %+v"
        (errors_New "follower failed"))
     (trace_of run) /\
  existsb is_fatal (trace_of run) = false /\
  existsb is_connected (trace_of run) = true /\
  existsb is_SendE2E (trace_of run) = true /\
  result_of run = inr select_forever.
Proof.
  cbv zeta. split; [in_run | split; [in_run |]].
  repeat split; reflexivity.
Qed.

(** The server next to a cached definition and no state: the cache is read,
    the certificate is not, nothing is downloaded. *)
Lemma cached_definition_is_used_as_is_witness :
  let run := Server.main (Toy.cached, [recv_connected true]) in
  In (Called (call_ioutil_ReadFile Server.ndfPath)
        (returned_bytes (Some [x7b; x7d]) None))
     (trace_of run) /\
  existsb (is_ReadFile_of Server.certificatePath) (trace_of run) = false /\
  existsb is_Download (trace_of run) = false.
Proof.
  cbv zeta.
  assert (Hin : In (Called (call_ioutil_ReadFile Server.ndfPath)
                      (returned_bytes (Some [x7b; x7d]) None))
                   (trace_of (Server.main (Toy.cached, [recv_connected true]))))
    by in_run.
  split; [exact Hin|].
  destruct (proj1 (cached_definition_is_used_as_is (env := Toy.env)
                     server Toy.cached [recv_connected true]) _ _ Hin)
    as (Hcert & Hdl & _).
  split; [exact Hcert | exact Hdl].
Defined.

(** The server run twice from an empty disk: the first run creates the
    state, the second finds it, and [xxdk.NewCmix] is called once. *)
Lemma existing_state_is_not_initialized_again_witness :
  let run1 := Server.main (Toy.fresh, [recv_connected true]) in
  let run2 := Server.main (world_of run1, [recv_connected true]) in
  existsb is_NewCmix_ok (trace_of run1) = true /\
  errors_Is_ErrNotExist
    (fst (os_Stat Server.statePath (initLog 1 "client.log" (world_of run1))))
  = false /\
  count is_NewCmix (trace_of run1 ++ trace_of run2) = 1.
Proof.
  cbv zeta.
  assert (Hok : existsb is_NewCmix_ok
                  (trace_of (Server.main (Toy.fresh, [recv_connected true])))
                = true) by reflexivity.
  assert (Hex : errors_Is_ErrNotExist
                  (fst (os_Stat Server.statePath
                          (initLog 1 "client.log"
                             (world_of (Server.main
                                          (Toy.fresh, [recv_connected true]))))))
                = false) by reflexivity.
  split; [exact Hok | split; [exact Hex|]].
  exact (proj2 (proj2 (existing_state_is_not_initialized_again
                         (env := Toy.env) server Toy.fresh
                         [recv_connected true]))
           [recv_connected true] Hok Hex).
Defined.

(** The sender from an empty disk with an identity store that refuses the
    write: the generated identity is not logged in with. *)
Lemma identity_is_loaded_or_generated_and_stored_witness :
  let run := Sender.main (Toy.with_store_failure Toy.fresh,
                          [recv_connected true]) in
  In (Called (call_xxdk_StoreReceptionIdentity Sender.identityStorageKey 1 tt)
        (returned_err (Some (errors_New "store failed"))))
     (trace_of run) /\
  result_of run
  = inr (Panicf "Failed to store new reception identity: %+v"
           (Some (errors_New "store failed"))) /\
  existsb is_Login (trace_of run) = false.
Proof.
  cbv zeta.
  assert (Hin : In (Called (call_xxdk_StoreReceptionIdentity
                              Sender.identityStorageKey 1 tt)
                      (returned_err (Some (errors_New "store failed"))))
                   (trace_of (Sender.main (Toy.with_store_failure Toy.fresh,
                                           [recv_connected true]))))
    by in_run.
  split; [exact Hin|].
  pose proof (identity_is_loaded_or_generated_and_stored (env := Toy.env)
                sender
                (Toy.with_store_failure Toy.fresh) [recv_connected true])
    as (_ & _ & _ & _ & Hstore & _).
  exact (Hstore _ _ _ _ Hin).
Defined.

(** The server from an empty disk when the remote definition does not
    verify: one download, a panic, no state. *)
Lemma unverified_definition_is_fatal_witness :
  let run := Server.main (Toy.unverifiable, [recv_connected true]) in
  In (Called (call_xxdk_DownloadAndVerifySignedNdfWithUrl Server.ndfURL "--")
        (returned_bytes None
           (Some (errors_New "signature verification failed"))))
     (trace_of run) /\
  result_of run
  = inr (Panicf "Failed to download NDF: %+v"
           (Some (errors_New "signature verification failed"))) /\
  count is_Download (trace_of run) = 1 /\
  existsb is_NewCmix (trace_of run) = false.
Proof.
  cbv zeta.
  assert (Hin : In (Called (call_xxdk_DownloadAndVerifySignedNdfWithUrl
                              Server.ndfURL "--")
                      (returned_bytes None
                         (Some (errors_New "signature verification failed"))))
                   (trace_of (Server.main (Toy.unverifiable,
                                           [recv_connected true]))))
    by in_run.
  split; [exact Hin|].
  pose proof (unverified_definition_is_fatal (env := Toy.env) server
                Toy.unverifiable
                [recv_connected true]) as (_ & Hdl & _).
  exact (Hdl _ _ _ _ Hin).
Defined.

(** The returning sender whose send fails: the error is printed and the
    process stays. *)
Lemma send_failure_is_not_fatal_witness :
  let run := Sender.main (Toy.with_send_failure Toy.returning,
                          [recv_connected false; recv_connected true]) in
  In (Called (call_SendE2E tt 2 (slice_of_string Sender.msgBody))
        (returned_send [] 0 0 (Some (errors_New "send failed"))))
     (trace_of run) /\
  result_of run = inr select_forever /\
  In (fmt_Printf "Failed to send message: %+v" (errors_New "send failed"))
     (trace_of run) /\
  existsb is_fatal (trace_of run) = false.
Proof.
  cbv zeta.
  assert (Hin : In (Called (call_SendE2E tt 2 (slice_of_string Sender.msgBody))
                      (returned_send [] 0 0 (Some (errors_New "send failed"))))
                   (trace_of (Sender.main
                                (Toy.with_send_failure Toy.returning,
                                 [recv_connected false; recv_connected true]))))
    by in_run.
  split; [exact Hin|].
  destruct (send_failure_is_not_fatal _ _ _ _ _ _ _ _ _ Hin)
    as (Hr & Hp & Hf & _).
  split; [exact Hr | split; [exact Hp | exact Hf]].
Defined.

(** The returning sender whose send fails: the "sent" line follows, with
    the values of the failed call. *)
Lemma failed_send_is_logged_as_sent_witness :
  let run := Sender.main (Toy.with_send_failure Toy.returning,
                          [recv_connected true]) in
  In (Called (call_SendE2E tt 2 (slice_of_string Sender.msgBody))
        (returned_send [] 0 0 (Some (errors_New "send failed"))))
     (trace_of run) /\
  (exists pre,
      trace_of run =
      pre ++ [Called (call_SendE2E tt 2 (slice_of_string Sender.msgBody))
                (returned_send [] 0 0 (Some (errors_New "send failed")));
              fmt_Printf "Failed to send message: %+v"
                (errors_New "send failed");
              jww_INFO (log_Message_sent 0 [] 0)]) /\
  count is_SendE2E (trace_of run) = 1 /\
  result_of run = inr select_forever.
Proof.
  cbv zeta.
  assert (Hin : In (Called (call_SendE2E tt 2 (slice_of_string Sender.msgBody))
                      (returned_send [] 0 0 (Some (errors_New "send failed"))))
                   (trace_of (Sender.main
                                (Toy.with_send_failure Toy.returning,
                                 [recv_connected true]))))
    by in_run.
  split; [exact Hin|].
  exact (failed_send_is_logged_as_sent _ _ _ _ _ _ _ _ _ Hin).
Defined.

(** The returning server: the contact file is written right after the
    login. *)
Lemma contact_file_written_right_after_login_witness :
  let run := Server.main (Toy.returning, [recv_connected true]) in
  In (Called (call_xxdk_Login tt 5) (returned_E2e 5 None)) (trace_of run) /\
  exists pre err post,
    trace_of run =
    pre ++ Called (call_xxdk_Login tt 5) (returned_E2e 5 None)
        :: Called (call_ioutil_WriteFile Server.contactFilePath
                     (Contact_Marshal (ReceptionIdentity_GetContact 5)))
                  (returned_err err)
        :: post /\
    existsb is_connectivity_step pre = false /\
    existsb is_NewServer pre = false /\
    existsb is_WriteFile pre = false.
Proof.
  cbv zeta.
  assert (Hin : In (Called (call_xxdk_Login tt 5) (returned_E2e 5 None))
                   (trace_of (Server.main (Toy.returning,
                                           [recv_connected true]))))
    by in_run.
  split; [exact Hin|].
  exact (proj1 (contact_file_written_right_after_login _ _ _ _ _ Hin)).
Defined.

(** The contact file of the returning server held three bytes of something
    else; after the run it holds the marshalled contact. *)
Example contact_file_is_replaced :
  Toy.lookup Server.contactFilePath (Toy.files Toy.returning)
  = Some [x6f; x6c; x64] /\
  Toy.lookup Server.contactFilePath
    (Toy.files (world_of (Server.main (Toy.returning, [recv_connected true]))))
  = Some (repeat x2a 5).
Proof. split; reflexivity. Qed.

(** ** Runs in the world of planned failures *)

(** The wait on a [false], a [true] and a timer that is never looked at. *)
Lemma waitUntilConnected_returns_only_on_true_witness :
  let env := Faulty.env [] in
  let sched := [recv_connected false; recv_connected true;
                recv_timeoutTimer] in
  let run := waitUntilConnected (tt, sched) in
  result_of run = inl tt /\
  exists n rest,
    sched = repeat (recv_connected false) n ++ recv_connected true :: rest /\
    world_of run = tt /\
    count is_Network_Status (trace_of run) = S n.
Proof.
  intros env sched run.
  assert (Hr : result_of run = inl tt) by reflexivity.
  split; [exact Hr|].
  exact (waitUntilConnected_returns_only_on_true (env := env) tt sched Hr).
Defined.

(** The sender whose network never gets healthy: the timer fires after one
    [false]. *)
Lemma panic_without_error_is_the_timeout_witness :
  let env := Faulty.env [] in
  let run := Sender.main (tt, [recv_connected false; recv_timeoutTimer]) in
  result_of run = inr (Panicf "Timeout on starting network follower" None) /\
  existsb is_connected (trace_of run) = false /\
  existsb is_AddHealthCallback (trace_of run) = true /\
  existsb is_SendE2E (trace_of run) = false.
Proof.
  intros env run.
  assert (Hr : result_of run
               = inr (Panicf "Timeout on starting network follower" None))
    by reflexivity.
  split; [exact Hr|].
  destruct (panic_without_error_is_the_timeout (env := env) sender
              tt [recv_connected false; recv_timeoutTimer] _ Hr)
    as (_ & Hc & Hh & _ & _ & _ & Hs & _).
  split; [exact Hc | split; [exact Hh | exact Hs]].
Defined.

(** The server with nothing in its way: it ends in the final [select {}],
    connected, with one server started. *)
Lemma blocks_forever_iff_no_panic_witness :
  let env := Faulty.env [] in
  let run := Server.main (tt, [recv_connected true]) in
  result_of run = inr select_forever /\
  existsb is_fatal (trace_of run) = false /\
  existsb is_connected (trace_of run) = true /\
  count is_NewServer (trace_of run) = 1.
Proof.
  intros env run.
  assert (Hr : result_of run = inr select_forever) by reflexivity.
  split; [exact Hr|].
  destruct (blocks_forever_iff_no_panic (env := env) server tt
              [recv_connected true]) as [Hiff Hrun].
  split; [exact (proj1 Hiff Hr) | exact (Hrun Hr)].
Defined.

(** The server without state: the path that [os.Stat] looks at is the one
    the state is created at and loaded from. *)
Lemma state_is_loaded_as_it_is_created_witness :
  let env := Faulty.env ["os.Stat"] in
  let run := Server.main (tt, [recv_connected true]) in
  In (Called (call_os_Stat "statePath") (returned_err (Some fs_ErrNotExist)))
     (trace_of run) /\
  In (Called (call_xxdk_NewCmix "**" "statePath" (slice_of_string "password")
                EmptyString) (returned_err None))
     (trace_of run) /\
  In (Called (call_xxdk_LoadCmix "statePath" (slice_of_string "password"))
        (returned_Cmix 1 None))
     (trace_of run) /\
  "statePath" = statePath_of server /\
  ("statePath" = statePath_of server /\
   slice_of_string "password" = slice_of_string (statePass_of server) /\
   EmptyString = EmptyString) /\
  ("statePath" = statePath_of server /\
   slice_of_string "password" = slice_of_string (statePass_of server)).
Proof.
  intros env run.
  destruct (state_is_loaded_as_it_is_created (env := env) server tt
              [recv_connected true]) as (Hs & Hn & Hl).
  assert (H1 : In (Called (call_os_Stat "statePath")
                     (returned_err (Some fs_ErrNotExist)))
                  (trace_of run)) by in_run.
  assert (H2 : In (Called (call_xxdk_NewCmix "**" "statePath"
                             (slice_of_string "password") EmptyString)
                     (returned_err None))
                  (trace_of run)) by in_run.
  assert (H3 : In (Called (call_xxdk_LoadCmix "statePath"
                             (slice_of_string "password"))
                     (returned_Cmix 1 None))
                  (trace_of run)) by in_run.
  split; [exact H1 | split; [exact H2 | split; [exact H3|]]].
  split; [exact (Hs _ _ H1) | split; [exact (Hn _ _ _ _ _ H2)|]].
  exact (Hl _ _ _ H3).
Defined.

(** The server without state when the state cannot be created. *)
Lemma NewCmix_error_is_fatal_witness :
  let env := Faulty.env ["os.Stat"; "xxdk.NewCmix"] in
  let run := Server.main (tt, [recv_connected true]) in
  In (Called (call_xxdk_NewCmix "**" "statePath" (slice_of_string "password")
                EmptyString)
        (returned_err (Some (errors_New "xxdk.NewCmix"))))
     (trace_of run) /\
  result_of run
  = inr (Panicf "Failed to initialize state: %+v"
           (Some (errors_New "xxdk.NewCmix"))) /\
  existsb is_LoadCmix (trace_of run) = false.
Proof.
  intros env run.
  assert (Hin : In (Called (call_xxdk_NewCmix "**" "statePath"
                              (slice_of_string "password") EmptyString)
                      (returned_err (Some (errors_New "xxdk.NewCmix"))))
                   (trace_of run)) by in_run.
  split; [exact Hin|].
  destruct (NewCmix_error_is_fatal (env := env) server tt
              [recv_connected true] _ _ _ _ _ Hin) as (Hr & Hl & _).
  split; [exact Hr | exact Hl].
Defined.

(** The sender whose state does not load. *)
Lemma LoadCmix_error_is_fatal_witness :
  let env := Faulty.env ["xxdk.LoadCmix"] in
  let run := Sender.main (tt, [recv_connected true]) in
  In (Called (call_xxdk_LoadCmix "statePath" (slice_of_string "password"))
        (returned_Cmix 1 (Some (errors_New "xxdk.LoadCmix"))))
     (trace_of run) /\
  result_of run
  = inr (Panicf "Failed to load state: %+v"
           (Some (errors_New "xxdk.LoadCmix"))) /\
  existsb is_LoadReceptionIdentity (trace_of run) = false /\
  existsb is_identity_use (trace_of run) = false.
Proof.
  intros env run.
  assert (Hin : In (Called (call_xxdk_LoadCmix "statePath"
                              (slice_of_string "password"))
                      (returned_Cmix 1 (Some (errors_New "xxdk.LoadCmix"))))
                   (trace_of run)) by in_run.
  split; [exact Hin|].
  exact (LoadCmix_error_is_fatal (env := env) sender tt
           [recv_connected true] _ _ _ _ Hin).
Defined.

(** The server with no identity on record when none can be generated. *)
Lemma MakeReceptionIdentity_error_is_fatal_witness :
  let env := Faulty.env ["xxdk.LoadReceptionIdentity";
                         "xxdk.MakeReceptionIdentity"] in
  let run := Server.main (tt, [recv_connected true]) in
  In (Called (call_xxdk_MakeReceptionIdentity 1)
        (returned_ReceptionIdentity 3
           (Some (errors_New "xxdk.MakeReceptionIdentity"))))
     (trace_of run) /\
  result_of run
  = inr (Panicf "Failed to generate reception identity: %+v"
           (Some (errors_New "xxdk.MakeReceptionIdentity"))) /\
  existsb is_StoreReceptionIdentity (trace_of run) = false /\
  existsb is_Login (trace_of run) = false.
Proof.
  intros env run.
  assert (Hin : In (Called (call_xxdk_MakeReceptionIdentity 1)
                      (returned_ReceptionIdentity 3
                         (Some (errors_New "xxdk.MakeReceptionIdentity"))))
                   (trace_of run)) by in_run.
  split; [exact Hin|].
  exact (MakeReceptionIdentity_error_is_fatal (env := env) server tt
           [recv_connected true] _ _ _ Hin).
Defined.

(** The sender whose login is refused. *)
Lemma Login_error_is_fatal_witness :
  let env := Faulty.env ["xxdk.Login"] in
  let run := Sender.main (tt, [recv_connected true]) in
  In (Called (call_xxdk_Login 1 2)
        (returned_E2e 12 (Some (errors_New "xxdk.Login"))))
     (trace_of run) /\
  result_of run
  = inr (Panicf "Unable to Login: %+v" (Some (errors_New "xxdk.Login"))) /\
  existsb is_after_login_step (trace_of run) = false /\
  existsb (is_ReadFile_of Sender.serverContactPath) (trace_of run) = false.
Proof.
  intros env run.
  assert (Hin : In (Called (call_xxdk_Login 1 2)
                      (returned_E2e 12 (Some (errors_New "xxdk.Login"))))
                   (trace_of run)) by in_run.
  split; [exact Hin|].
  exact (Login_error_is_fatal (env := env) sender tt
           [recv_connected true] _ _ _ _ Hin).
Defined.

(** The sender with an identity on record: that identity is logged in
    with. *)
Lemma loaded_identity_is_kept_witness :
  let env := Faulty.env [] in
  let run := Sender.main (tt, [recv_connected true]) in
  In (Called (call_xxdk_LoadReceptionIdentity "identityStorageKey" 1)
        (returned_ReceptionIdentity 2 None))
     (trace_of run) /\
  In (Called (call_xxdk_Login 1 2) (returned_E2e 12 None)) (trace_of run) /\
  existsb is_MakeReceptionIdentity (trace_of run) = false /\
  existsb is_StoreReceptionIdentity (trace_of run) = false.
Proof.
  intros env run.
  assert (Hin : In (Called (call_xxdk_LoadReceptionIdentity
                              "identityStorageKey" 1)
                      (returned_ReceptionIdentity 2 None))
                   (trace_of run)) by in_run.
  assert (Hlog : In (Called (call_xxdk_Login 1 2) (returned_E2e 12 None))
                    (trace_of run)) by in_run.
  split; [exact Hin | split; [exact Hlog|]].
  destruct (loaded_identity_is_kept (env := env) sender tt
              [recv_connected true] _ _ _ Hin) as (Hm & Hs & _).
  split; [exact Hm | exact Hs].
Defined.

(** The server whose private key does not unmarshal. *)
Lemma unreadable_key_is_fatal_witness :
  let env := Faulty.env ["cyclic.Int.UnmarshalJSON"] in
  let run := Server.main (tt, [recv_connected true]) in
  In (Called (call_cyclic_Int_UnmarshalJSON (Some [x31]))
        (returned_Int 5 (Some (errors_New "cyclic.Int.UnmarshalJSON"))))
     (trace_of run) /\
  result_of run
  = inr (Panicf "Unable to read diffie-hellman private key: %+v"
           (Some (errors_New "cyclic.Int.UnmarshalJSON"))) /\
  existsb is_NewServer (trace_of run) = false /\
  existsb is_connectivity_step (trace_of run) = false.
Proof.
  intros env run.
  assert (Hin : In (Called (call_cyclic_Int_UnmarshalJSON (Some [x31]))
                      (returned_Int 5
                         (Some (errors_New "cyclic.Int.UnmarshalJSON"))))
                   (trace_of run)) by in_run.
  split; [exact Hin|].
  exact (unreadable_key_is_fatal (env := env) tt
           [recv_connected true] _ _ _ Hin).
Defined.

(** The server with nothing in its way: the single-use server is started
    for identity 2 of session 12, with [dhPrivateKey] (6) and not with the
    key that was unmarshalled (5). *)
Lemma server_is_started_for_the_logged_in_client_witness :
  let env := Faulty.env [] in
  let run := Server.main (tt, [recv_connected true]) in
  In (Called (call_single_NewServer 2 6 4 12) returned) (trace_of run) /\
  exists net i e2eClient dhKeyPriv,
    In (Called (call_xxdk_Login net i) (returned_E2e e2eClient None))
       (trace_of run) /\
    In (Called (call_cyclic_Int_UnmarshalJSON
                  (ReceptionIdentity_DHKeyPrivate
                     (E2e_GetReceptionIdentity e2eClient)))
          (returned_Int dhKeyPriv None))
       (trace_of run) /\
    2 = ReceptionIdentity_ID (E2e_GetReceptionIdentity e2eClient) /\
    6 = dhPrivateKey /\
    4 = e2e_Handler_GetGroup (E2e_GetE2E e2eClient) /\
    12 = E2e_GetCmix e2eClient.
Proof.
  intros env run.
  assert (Hin : In (Called (call_single_NewServer 2 6 4 12) returned)
                   (trace_of run)) by in_run.
  split; [exact Hin|].
  exact (server_is_started_for_the_logged_in_client (env := env) tt
           [recv_connected true] _ _ _ _ _ Hin).
Defined.

(** The sender next to no peer contact file. *)
Lemma unreadable_peer_contact_is_fatal_witness :
  let env := Faulty.env ["ioutil.ReadFile server-contact.json"] in
  let run := Sender.main (tt, [recv_connected true]) in
  In (Called (call_ioutil_ReadFile Sender.serverContactPath)
        (returned_bytes None
           (Some (errors_New "ioutil.ReadFile server-contact.json"))))
     (trace_of run) /\
  result_of run
  = inr (Panicf "Failed to read server contact file: %+v"
           (Some (errors_New "ioutil.ReadFile server-contact.json"))) /\
  existsb is_connected (trace_of run) = true /\
  existsb is_contact_Unmarshal (trace_of run) = false /\
  existsb is_post_connect_action (trace_of run) = false.
Proof.
  intros env run.
  assert (Hin : In (Called (call_ioutil_ReadFile Sender.serverContactPath)
                      (returned_bytes None
                         (Some (errors_New
                                  "ioutil.ReadFile server-contact.json"))))
                   (trace_of run)) by in_run.
  split; [exact Hin|].
  exact (unreadable_peer_contact_is_fatal (env := env) tt
           [recv_connected true] _ _ Hin).
Defined.

(** The sender next to a peer contact file that holds no contact. *)
Lemma malformed_peer_contact_is_fatal_witness :
  let env := Faulty.env ["contact.Unmarshal"] in
  let run := Sender.main (tt, [recv_connected true]) in
  In (Called (call_contact_Unmarshal (Some [x2a; x2a]))
        (returned_Contact 2 (Some (errors_New "contact.Unmarshal"))))
     (trace_of run) /\
  result_of run
  = inr (Panicf "Failed to get contact data: %+v"
           (Some (errors_New "contact.Unmarshal"))) /\
  existsb is_post_connect_action (trace_of run) = false.
Proof.
  intros env run.
  assert (Hin : In (Called (call_contact_Unmarshal (Some [x2a; x2a]))
                      (returned_Contact 2
                         (Some (errors_New "contact.Unmarshal"))))
                   (trace_of run)) by in_run.
  split; [exact Hin|].
  exact (malformed_peer_contact_is_fatal (env := env) tt
           [recv_connected true] _ _ _ Hin).
Defined.

(** The sender whose peer cannot be connected to. *)
Lemma Connect_error_is_fatal_witness :
  let env := Faulty.env ["connect.Connect"] in
  let run := Sender.main (tt, [recv_connected true]) in
  In (Called (call_connect_Connect 2 12)
        (returned_Connection 7 (Some (errors_New "connect.Connect"))))
     (trace_of run) /\
  result_of run
  = inr (Panicf "Failed to create connection object: %+v"
           (Some (errors_New "connect.Connect"))) /\
  existsb is_RegisterListener (trace_of run) = false /\
  existsb is_SendE2E (trace_of run) = false.
Proof.
  intros env run.
  assert (Hin : In (Called (call_connect_Connect 2 12)
                      (returned_Connection 7
                         (Some (errors_New "connect.Connect"))))
                   (trace_of run)) by in_run.
  split; [exact Hin|].
  exact (Connect_error_is_fatal (env := env) tt
           [recv_connected true] _ _ _ _ Hin).
Defined.

(** The sender whose listener is refused. *)
Lemma RegisterListener_error_is_fatal_witness :
  let env := Faulty.env ["RegisterListener"] in
  let run := Sender.main (tt, [recv_connected true]) in
  In (Called (call_RegisterListener 7 0 "e2e Message Listener")
        (returned_err (Some (errors_New "RegisterListener"))))
     (trace_of run) /\
  result_of run
  = inr (Panicf "Could not register message listener: %+v"
           (Some (errors_New "RegisterListener"))) /\
  existsb is_SendE2E (trace_of run) = false.
Proof.
  intros env run.
  assert (Hin : In (Called (call_RegisterListener 7 0 "e2e Message Listener")
                      (returned_err (Some (errors_New "RegisterListener"))))
                   (trace_of run)) by in_run.
  split; [exact Hin|].
  exact (RegisterListener_error_is_fatal (env := env) tt
           [recv_connected true] _ _ _ _ Hin).
Defined.

(** The sender with nothing in its way: the message goes over connection
    7, made for session 12 and the contact read from the file. *)
Lemma message_goes_to_the_contact_in_the_file_witness :
  let env := Faulty.env [] in
  let run := Sender.main (tt, [recv_connected false; recv_connected true]) in
  In (Called (call_SendE2E 7 2 (slice_of_string Sender.msgBody))
        (returned_send [8] 9 11 None))
     (trace_of run) /\
  2 = catalog_XxMessage /\
  existsb is_connected (trace_of run) = true /\
  exists net i e2eClient data c,
    In (Called (call_xxdk_Login net i) (returned_E2e e2eClient None))
       (trace_of run) /\
    In (Called (call_ioutil_ReadFile Sender.serverContactPath)
          (returned_bytes data None))
       (trace_of run) /\
    In (Called (call_contact_Unmarshal data) (returned_Contact c None))
       (trace_of run) /\
    In (Called (call_connect_Connect c e2eClient) (returned_Connection 7 None))
       (trace_of run) /\
    In (Called (call_RegisterListener 7 catalog_NoType "e2e Message Listener")
          (returned_err None))
       (trace_of run).
Proof.
  intros env run.
  assert (Hin : In (Called (call_SendE2E 7 2 (slice_of_string Sender.msgBody))
                      (returned_send [8] 9 11 None))
                   (trace_of run)) by in_run.
  split; [exact Hin|].
  destruct (message_goes_to_the_contact_in_the_file (env := env) tt
              [recv_connected false; recv_connected true] _ _ _ _ Hin)
    as (Hmt & _ & Hc & Hex).
  split; [exact Hmt | split; [exact Hc | exact Hex]].
Defined.

(** The sender with nothing in its way: the run ends with the send and the
    line that reports it. *)
Lemma successful_send_is_logged_witness :
  let env := Faulty.env [] in
  let run := Sender.main (tt, [recv_connected true]) in
  In (Called (call_SendE2E 7 2 (slice_of_string Sender.msgBody))
        (returned_send [8] 9 11 None))
     (trace_of run) /\
  result_of run = inr select_forever /\
  existsb is_fatal (trace_of run) = false /\
  exists pre,
    trace_of run =
    pre ++ [Called (call_SendE2E 7 2 (slice_of_string Sender.msgBody))
              (returned_send [8] 9 11 None);
            jww_INFO (log_Message_sent 9 [8] 11)].
Proof.
  intros env run.
  assert (Hin : In (Called (call_SendE2E 7 2 (slice_of_string Sender.msgBody))
                      (returned_send [8] 9 11 None))
                   (trace_of run)) by in_run.
  split; [exact Hin|].
  destruct (successful_send_is_logged (env := env) tt
              [recv_connected true] _ _ _ _ _ _ Hin) as (Hr & Hf & _ & Hpre).
  split; [exact Hr | split; [exact Hf | exact Hpre]].
Defined.


(** The sender without state and without a local network definition: the
    failed read is logged and the certificate is read next. *)
Lemma definition_read_error_is_only_logged_witness :
  let env := Faulty.env ["os.Stat"; "ioutil.ReadFile ndf.json"] in
  let run := Sender.main (tt, [recv_connected true]) in
  In (Called (call_ioutil_ReadFile Sender.ndfPath)
        (returned_bytes None (Some (errors_New "ioutil.ReadFile ndf.json"))))
     (trace_of run) /\
  exists pre next post,
    trace_of run
    = pre
      ++ Called (call_ioutil_ReadFile Sender.ndfPath)
           (returned_bytes None
              (Some (errors_New "ioutil.ReadFile ndf.json")))
      :: jww_INFO (log_NDF_does_not_exist
                     (errors_New "ioutil.ReadFile ndf.json"))
      :: next :: post /\
    is_ReadFile_of Sender.certificatePath next = true.
Proof.
  intros env run.
  assert (Hin : In (Called (call_ioutil_ReadFile Sender.ndfPath)
                      (returned_bytes None
                         (Some (errors_New "ioutil.ReadFile ndf.json"))))
                   (trace_of run)) by in_run.
  split; [exact Hin|].
  exact (definition_read_error_is_only_logged (env := env) sender tt
           [recv_connected true] _ _ Hin).
Defined.

(** The server whose follower does not start. *)
Lemma follower_error_stops_the_started_server_witness :
  let env := Faulty.env ["StartNetworkFollower"] in
  let run := Server.main (tt, [recv_connected true]) in
  In (Called (call_E2e_StartNetworkFollower 12 5)
        (returned_err (Some (errors_New "StartNetworkFollower"))))
     (trace_of run) /\
  result_of run
  = inr (Panicf "Failed to start network follower: %+v"
           (Some (errors_New "StartNetworkFollower"))) /\
  existsb is_NewServer (trace_of run) = true.
Proof.
  intros env run.
  assert (Hin : In (Called (call_E2e_StartNetworkFollower 12 5)
                      (returned_err (Some (errors_New "StartNetworkFollower"))))
                   (trace_of run)) by in_run.
  split; [exact Hin|].
  destruct (follower_error_stops_the_started_server (env := env) tt
              [recv_connected true] _ _ _ Hin) as (Hr & _ & Hs & _).
  split; [exact Hr | exact Hs].
Defined.
